(** * Partition gap checker (missing_date.py): a shallow embedding

    The development follows the source file top-down:
    - [PyStr]      : the CPython string built-ins the program calls
                     ([str.strip], [str.split], [str.lower], [in],
                     [re.match], [int], [str] of an integer);
    - [PyDatetime] : naive [datetime] values, day stepping, [strptime] with the
                     format of the program and [strftime('%Y%m%d')];
    - the class [PartitionChecker] and its methods;
    - [parse_result_file] and [main].

    Text is modelled by Rocq strings of 7-bit ASCII characters; code points
    above 127 are outside the model and are treated as ordinary symbols. *)

From Stdlib Require Import ZArith List String Ascii Bool Lia.
From Stdlib Require Import Sorted Permutation DecimalString.
From Equations Require Import Equations.
Import ListNotations.
Local Open Scope Z_scope.

(** ** Exceptions and results *)

(** The exceptions that the program raises or catches.  [SystemExit] carries
    the status given to [sys.exit]. *)
Inductive exn : Type :=
| ValueError
| IndexError
| OverflowError
| FileNotFoundError
| OSError
| SystemExit (status : Z).

(** A call either returns a value or raises. *)
Inductive outcome (A : Type) : Type :=
| Return (a : A)
| Raise (e : exn).
Arguments Return {A} a.
Arguments Raise {A} e.

Definition bind {A B : Type} (m : outcome A) (k : A -> outcome B) : outcome B :=
  match m with
  | Return a => k a
  | Raise e => Raise e
  end.

Notation "x <- m ;; k" := (bind m (fun x => k))
  (at level 61, m at next level, right associativity).

(** ** String built-ins *)

Module PyStr.

Definition code (c : ascii) : N := N_of_ascii c.

Definition in_range (lo hi : N) (c : ascii) : bool :=
  (N.leb lo (code c) && N.leb (code c) hi)%bool.

(** [str.isspace] on ASCII: TAB LF VT FF CR, FS GS RS US and SPACE.  The same
    class is used by [str.strip], [str.split] and the regular expression
    class [\s]. *)
Definition isspace (c : ascii) : bool :=
  (in_range 9 13 c || in_range 28 32 c)%bool.

(** C [isspace], used by [int] on ASCII text: TAB LF VT FF CR and SPACE. *)
Definition c_isspace (c : ascii) : bool :=
  (in_range 9 13 c || N.eqb (code c) 32)%bool.

(** The class [\d] on ASCII. *)
Definition isdigit (c : ascii) : bool := in_range 48 57 c.

Definition digit_value (c : ascii) : Z := Z.of_N (code c) - 48.

Definition is_empty (s : string) : bool :=
  match s with
  | EmptyString => true
  | String _ _ => false
  end.

Fixpoint lstrip_with (ws : ascii -> bool) (s : string) : string :=
  match s with
  | EmptyString => EmptyString
  | String c s' => if ws c then lstrip_with ws s' else s
  end.

Fixpoint rstrip_with (ws : ascii -> bool) (s : string) : string :=
  match s with
  | EmptyString => EmptyString
  | String c s' =>
      match rstrip_with ws s' with
      | EmptyString => if ws c then EmptyString else String c EmptyString
      | r => String c r
      end
  end.

(** [s.strip()] *)
Definition strip (s : string) : string :=
  rstrip_with isspace (lstrip_with isspace s).

(** [s.split()]: the maximal runs of non-space characters, in order.  [tok] is
    the token being read. *)
Fixpoint split_from (tok : string) (s : string) : list string :=
  match s with
  | EmptyString => if is_empty tok then [] else [tok]
  | String c s' =>
      if isspace c
      then (if is_empty tok then split_from EmptyString s'
            else tok :: split_from EmptyString s')
      else split_from (tok ++ String c EmptyString) s'
  end.

Definition split (s : string) : list string := split_from EmptyString s.

Definition lower_char (c : ascii) : ascii :=
  if in_range 65 90 c then ascii_of_N (code c + 32) else c.

(** [s.lower()] *)
Fixpoint lower (s : string) : string :=
  match s with
  | EmptyString => EmptyString
  | String c s' => String (lower_char c) (lower s')
  end.

(** [s.startswith(p)] *)
Definition startswith (p s : string) : bool := String.prefix p s.

(** [needle in s] *)
Fixpoint contains (needle s : string) : bool :=
  match s with
  | EmptyString => String.prefix needle EmptyString
  | String _ s' => (String.prefix needle s || contains needle s')%bool
  end.

(** [re.match(r"\d{4}-\d{2}-\d{2}", s)] as a truth value: the pattern is
    matched at the start of [s] only. *)
Definition match_date_prefix (s : string) : bool :=
  match s with
  | String y1 (String y2 (String y3 (String y4 (String h1
      (String m1 (String m2 (String h2 (String d1 (String d2 _))))))))) =>
      (isdigit y1 && isdigit y2 && isdigit y3 && isdigit y4
       && Ascii.eqb h1 "-" && isdigit m1 && isdigit m2
       && Ascii.eqb h2 "-" && isdigit d1 && isdigit d2)%bool
  | _ => false
  end.

(** The digits of an integer literal accepted by [int]: decimal digits, with
    single underscores allowed between two digits.  [prev] tells whether the
    preceding character was a digit; [None] stands for [ValueError]. *)
Fixpoint int_digits (prev : bool) (acc : Z) (s : string) : option Z :=
  match s with
  | EmptyString => if prev then Some acc else None
  | String c s' =>
      if isdigit c then int_digits true (10 * acc + digit_value c) s'
      else if (Ascii.eqb c "_" && prev)%bool then int_digits false acc s'
      else None
  end.

(** [int(s)] for a string [s]: surrounding white space is dropped, one sign is
    allowed, leading zeros are allowed.  The optional limit on the number of
    digits ([sys.set_int_max_str_digits]) is taken as disabled. *)
Definition int (s : string) : outcome Z :=
  let t := rstrip_with c_isspace (lstrip_with c_isspace s) in
  let v :=
    match t with
    | String c r =>
        if Ascii.eqb c "+" then int_digits false 0 r
        else if Ascii.eqb c "-" then option_map Z.opp (int_digits false 0 r)
        else int_digits false 0 t
    | EmptyString => None
    end in
  match v with
  | Some z => Return z
  | None => Raise ValueError
  end.

(** [str(z)] for an integer [z] *)
Definition str_of_int (z : Z) : string := NilZero.string_of_int (Z.to_int z).

(** [sep.join(l)] *)
Fixpoint join (sep : string) (l : list string) : string :=
  match l with
  | [] => EmptyString
  | [x] => x
  | x :: rest => (x ++ sep ++ join sep rest)%string
  end.

(** [l[i]] for [i >= 0]; a missing position raises [IndexError]. *)
Definition index {A : Type} (l : list A) (i : nat) : outcome A :=
  match nth_error l i with
  | Some x => Return x
  | None => Raise IndexError
  end.

(** [l[-1]] *)
Definition index_last {A : Type} (l : list A) : outcome A :=
  match rev l with
  | x :: _ => Return x
  | [] => Raise IndexError
  end.

End PyStr.

(** ** Naive [datetime] values *)

Module PyDatetime.

Definition MINYEAR : Z := 1.
Definition MAXYEAR : Z := 9999.
(** [date(9999, 12, 31).toordinal()] *)
Definition MAXORDINAL : Z := 3652059.

Definition DAYS_IN_MONTH : list Z :=
  [-1; 31; 28; 31; 30; 31; 30; 31; 31; 30; 31; 30; 31].
Definition DAYS_BEFORE_MONTH : list Z :=
  [-1; 0; 31; 59; 90; 120; 151; 181; 212; 243; 273; 304; 334].

Definition table (t : list Z) (i : Z) : Z := nth (Z.to_nat i) t (-1).

Definition b2z (b : bool) : Z := if b then 1 else 0.

Definition is_leap (year : Z) : bool :=
  ((year mod 4 =? 0) && (negb (year mod 100 =? 0) || (year mod 400 =? 0)))%bool.

Definition days_before_year (year : Z) : Z :=
  let y := year - 1 in y * 365 + y / 4 - y / 100 + y / 400.

Definition days_in_month (year month : Z) : Z :=
  if ((month =? 2) && is_leap year)%bool then 29 else table DAYS_IN_MONTH month.

Definition days_before_month (year month : Z) : Z :=
  table DAYS_BEFORE_MONTH month + b2z ((2 <? month) && is_leap year).

(** [_ymd2ord]: 0001-01-01 is day 1. *)
Definition ymd2ord (year month day : Z) : Z :=
  days_before_year year + days_before_month year month + day.

Definition DI400Y : Z := 146097.
Definition DI100Y : Z := 36524.
Definition DI4Y : Z := 1461.

(** [_ord2ymd] *)
Definition ord2ymd (ordinal : Z) : Z * Z * Z :=
  let n := ordinal - 1 in
  let n400 := n / DI400Y in
  let n := n mod DI400Y in
  let year := n400 * 400 + 1 in
  let n100 := n / DI100Y in
  let n := n mod DI100Y in
  let n4 := n / DI4Y in
  let n := n mod DI4Y in
  let n1 := n / 365 in
  let n := n mod 365 in
  let year := year + n100 * 100 + n4 * 4 + n1 in
  if ((n1 =? 4) || (n100 =? 4))%bool then (year - 1, 12, 31)
  else
    let leapyear := ((n1 =? 3) && (negb (n4 =? 24) || (n100 =? 3)))%bool in
    let month := Z.shiftr (n + 50) 5 in
    let preceding :=
      table DAYS_BEFORE_MONTH month + b2z ((2 <? month) && leapyear) in
    if n <? preceding then
      let month := month - 1 in
      let preceding :=
        preceding - (table DAYS_IN_MONTH month
                     + b2z ((month =? 2) && leapyear)) in
      (year, month, n - preceding + 1)
    else (year, month, n - preceding + 1).

Definition DAY : Z := 86400.

(** A naive [datetime] with microsecond 0, which is all the program builds
    ([strptime] with a format down to the second, then steps of whole days).
    It is kept in the form on which CPython does its arithmetic, which
    orders datetimes as their fields do:
    [dt_clock d = toordinal(d) * 86400 + hour * 3600 + minute * 60 + second].
    Values built by the constructor satisfy
    [DAY <= dt_clock d < (MAXORDINAL + 1) * DAY]. *)
Record datetime : Type := Datetime { dt_clock : Z }.

Definition toordinal (d : datetime) : Z := dt_clock d / DAY.
Definition second_of_day (d : datetime) : Z := dt_clock d mod DAY.

Definition in_rangeb (lo hi x : Z) : bool := ((lo <=? x) && (x <=? hi))%bool.

(** [datetime(year, month, day, hour, minute, second)] *)
Definition datetime_new (year month day hour minute second : Z)
  : outcome datetime :=
  if (in_rangeb MINYEAR MAXYEAR year && in_rangeb 1 12 month
      && in_rangeb 1 (days_in_month year month) day
      && in_rangeb 0 23 hour && in_rangeb 0 59 minute
      && in_rangeb 0 59 second)%bool
  then Return (Datetime (ymd2ord year month day * DAY
                         + hour * 3600 + minute * 60 + second))
  else Raise ValueError.

(** [a < b], [a > b], [a == b] *)
Definition ltb (a b : datetime) : bool := dt_clock a <? dt_clock b.
Definition gtb (a b : datetime) : bool := dt_clock b <? dt_clock a.
Definition eqb (a b : datetime) : bool := dt_clock a =? dt_clock b.

(** A [timedelta], in seconds; [timedelta(days=k)] *)
Definition timedelta : Type := Z.
Definition timedelta_days (k : Z) : timedelta := k * DAY.

(** [a - b] for two datetimes *)
Definition sub (a b : datetime) : timedelta := dt_clock a - dt_clock b.

(** [d + delta]: the result must fall on a day in [1, MAXORDINAL], else
    [OverflowError] ("date value out of range"). *)
Definition add (d : datetime) (delta : timedelta) : outcome datetime :=
  let r := Datetime (dt_clock d + delta) in
  if ((0 <? toordinal r) && (toordinal r <=? MAXORDINAL))%bool
  then Return r
  else Raise OverflowError.

(** [zfill]: left padding with zeros up to [width] characters. *)
Fixpoint zeros (n : nat) : string :=
  match n with
  | O => EmptyString
  | S k => String "0" (zeros k)
  end.

Definition zfill (width : nat) (s : string) : string :=
  (zeros (width - String.length s) ++ s)%string.

(** [d.strftime('%Y%m%d')], the year written with four digits. *)
Definition strftime_Ymd (d : datetime) : string :=
  let '(y, m, dd) := ord2ymd (toordinal d) in
  (zfill 4 (PyStr.str_of_int y) ++ zfill 2 (PyStr.str_of_int m)
   ++ zfill 2 (PyStr.str_of_int dd))%string.

(** *** [datetime.strptime(s, "%Y-%m-%d %H:%M:%S")]

    CPython turns the format into the regular expression
    [(\d\d\d\d)-(1[0-2]|0[1-9]|[1-9])-(3[0-1]|[1-2]\d|0[1-9]|[1-9]| [1-9])\s+]
    [(2[0-3]|[0-1]\d|\d):([0-5]\d|\d):(6[0-1]|[0-5]\d|\d)],
    matches it at the start of the text, demands that nothing is left over,
    and hands the six numbers to the constructor.  A matcher returns its
    candidate matches in the order in which a backtracking engine tries them;
    the head of the list for the whole pattern is the match found. *)

Definition matcher (A : Type) : Type := string -> list (A * string).

Definition seq_m {A B : Type} (p : matcher A) (k : A -> matcher B) : matcher B :=
  fun s => flat_map (fun '(a, rest) => k a rest) (p s).

Definition pure_m {A : Type} (a : A) : matcher A := fun s => [(a, s)].

Definition alt_m {A : Type} (p q : matcher A) : matcher A :=
  fun s => p s ++ q s.

Definition is_char (c : ascii) : ascii -> bool := Ascii.eqb c.
Definition char_range (lo hi : ascii) : ascii -> bool :=
  PyStr.in_range (N_of_ascii lo) (N_of_ascii hi).

(** The value [int] gives to a matched field of one or two characters (a
    leading space counts for nothing). *)
Definition num1 (a : ascii) : Z := PyStr.digit_value a.
Definition num2 (a b : ascii) : Z :=
  (if PyStr.isdigit a then 10 * PyStr.digit_value a else 0) + PyStr.digit_value b.

Definition one (p : ascii -> bool) : matcher Z :=
  fun s =>
    match s with
    | String a r => if p a then [(num1 a, r)] else []
    | EmptyString => []
    end.

Definition two (p q : ascii -> bool) : matcher Z :=
  fun s =>
    match s with
    | String a (String b r) => if (p a && q b)%bool then [(num2 a b, r)] else []
    | _ => []
    end.

Definition lit (c : ascii) : matcher unit :=
  fun s =>
    match s with
    | String a r => if Ascii.eqb a c then [(tt, r)] else []
    | EmptyString => []
    end.

(** [\s+], greedy: the longest run first. *)
Fixpoint spaces (s : string) : list (unit * string) :=
  match s with
  | String a r => if PyStr.isspace a then spaces r ++ [(tt, r)] else []
  | EmptyString => []
  end.

Definition re_Y : matcher Z :=
  fun s =>
    match s with
    | String a (String b (String c (String d r))) =>
        if (PyStr.isdigit a && PyStr.isdigit b
            && PyStr.isdigit c && PyStr.isdigit d)%bool
        then [(1000 * num1 a + 100 * num1 b + 10 * num1 c + num1 d, r)]
        else []
    | _ => []
    end.

Definition re_m : matcher Z :=
  alt_m (two (is_char "1") (char_range "0" "2"))
 (alt_m (two (is_char "0") (char_range "1" "9"))
        (one (char_range "1" "9"))).

Definition re_d : matcher Z :=
  alt_m (two (is_char "3") (char_range "0" "1"))
 (alt_m (two (char_range "1" "2") PyStr.isdigit)
 (alt_m (two (is_char "0") (char_range "1" "9"))
 (alt_m (one (char_range "1" "9"))
        (two (is_char " ") (char_range "1" "9"))))).

Definition re_H : matcher Z :=
  alt_m (two (is_char "2") (char_range "0" "3"))
 (alt_m (two (char_range "0" "1") PyStr.isdigit)
        (one PyStr.isdigit)).

Definition re_M : matcher Z :=
  alt_m (two (char_range "0" "5") PyStr.isdigit) (one PyStr.isdigit).

Definition re_S : matcher Z :=
  alt_m (two (is_char "6") (char_range "0" "1"))
 (alt_m (two (char_range "0" "5") PyStr.isdigit)
        (one PyStr.isdigit)).

Definition format_regex : matcher (Z * Z * Z * Z * Z * Z) :=
  seq_m re_Y (fun y => seq_m (lit "-") (fun _ =>
  seq_m re_m (fun m => seq_m (lit "-") (fun _ =>
  seq_m re_d (fun d => seq_m spaces (fun _ =>
  seq_m re_H (fun hh => seq_m (lit ":") (fun _ =>
  seq_m re_M (fun mm => seq_m (lit ":") (fun _ =>
  seq_m re_S (fun ss => pure_m (y, m, d, hh, mm, ss)))))))))))).

Definition strptime (s : string) : outcome datetime :=
  match format_regex s with
  | [] => Raise ValueError
  | (y, m, d, hh, mm, ss, rest) :: _ =>
      if PyStr.is_empty rest then datetime_new y m d hh mm ss
      else Raise ValueError
  end.

End PyDatetime.

(** ** The class [PartitionChecker] *)

Import PyDatetime.

(** [int(d.timestamp())] for a naive datetime: the seconds since the Unix
    epoch of the instant that [d] names in the time zone of the process.  The
    zone belongs to the machine, not to the program. *)
Class LocalZone : Type := { posix_timestamp : datetime -> Z }.

(** A zone with a constant offset from UTC, in seconds east of Greenwich. *)
Definition fixed_offset_zone (utcoffset : Z) : LocalZone :=
  {| posix_timestamp := fun d => dt_clock d - ymd2ord 1970 1 1 * DAY - utcoffset |}.

(** One element of [self.partitions]: the dictionary with the keys ["date"],
    ["unix_ts"], ["ordinal"] and ["rows"]. *)
Record partition : Type := Partition {
  date : datetime;
  unix_ts : Z;
  ordinal : Z;
  rows : Z
}.

(** One element of [partition_data]: a tuple of strings. *)
Definition raw_row : Type := list string.

(** The object: its table name and its records.  The third field,
    [output_file], only receives report text, which is not modelled. *)
Record PartitionChecker : Type := {
  table_name : string;
  partitions : list partition
}.

(** The dictionary built from one row, lines 26-31: the four items are
    evaluated in order, and the first exception leaves the expression. *)
Definition row_to_partition (row : raw_row) : outcome partition :=
  r0 <- PyStr.index row 0 ;;
  d <- strptime r0 ;;
  r1 <- PyStr.index row 1 ;;
  u <- PyStr.int r1 ;;
  r2 <- PyStr.index row 2 ;;
  o <- PyStr.int r2 ;;
  r3 <- PyStr.index row 3 ;;
  n <- PyStr.int r3 ;;
  Return (Partition d u o n).

(** [list.sort(key=lambda x: x["date"])] is a stable sort; insertion from the
    right end, placing an element before the first one that is not smaller,
    is one, and a stable sort has one result only (see [sort_by_date_stable]
    and [stable_sort_unique]). *)
Fixpoint insert_by_date (p : partition) (l : list partition) : list partition :=
  match l with
  | [] => [p]
  | q :: l' => if ltb (date q) (date p) then q :: insert_by_date p l' else p :: l
  end.

Fixpoint sort_by_date (l : list partition) : list partition :=
  match l with
  | [] => []
  | p :: l' => insert_by_date p (sort_by_date l')
  end.

(** The line printed for a skipped row: the row and the exception caught. *)
Definition warning : Type := (raw_row * exn)%type.

(** The loop of lines 23-35.  [acc] is [self.partitions], [out] the warnings
    printed so far.  Only [ValueError] and [IndexError] are caught. *)
Fixpoint init_loop (partition_data : list raw_row) (acc : list partition)
  (out : list warning) : outcome (list partition * list warning) :=
  match partition_data with
  | [] => Return (acc, out)
  | row :: rest =>
      match row_to_partition row with
      | Return p => init_loop rest (acc ++ [p]) out
      | Raise ValueError => init_loop rest acc (out ++ [(row, ValueError)])
      | Raise IndexError => init_loop rest acc (out ++ [(row, IndexError)])
      | Raise e => Raise e
      end
  end.

(** [PartitionChecker(table_name, partition_data, output_file)]: the object
    built and the warnings printed. *)
Definition __init__ (name : string) (partition_data : list raw_row)
  : outcome (PartitionChecker * list warning) :=
  r <- init_loop partition_data [] [] ;;
  Return ({| table_name := name; partitions := sort_by_date (fst r) |}, snd r).

(** *** [find_missing_dates] *)

Definition inspect {A : Type} (a : A) : {b : A | a = b} := exist _ a eq_refl.

(** The number of passes that the loop of lines 60-62 has left. *)
Definition days_left (expected_next next_date : datetime) : nat :=
  Z.to_nat ((dt_clock next_date - dt_clock expected_next + (DAY - 1)) / DAY).

(** The [while] loop of lines 60-62. *)
Equations while_expected (expected_next next_date : datetime)
  (missing_dates : list datetime) : outcome (list datetime)
  by wf (days_left expected_next next_date) lt :=
  while_expected expected_next next_date missing_dates
    with inspect (ltb expected_next next_date) := {
    | exist _ false _ => Return missing_dates
    | exist _ true Hlt
        with inspect (add expected_next (timedelta_days 1)) := {
        | exist _ (Raise e) _ => Raise e
        | exist _ (Return e') Hadd =>
            while_expected e' next_date (missing_dates ++ [expected_next]) } }.
Next Obligation.
  unfold add, timedelta_days in Hadd.
  destruct (_ && _)%bool in Hadd; inversion Hadd; subst; clear Hadd.
  unfold ltb in Hlt. apply Z.ltb_lt in Hlt.
  unfold days_left, DAY. cbn [dt_clock]. change (1 * 86400) with 86400.
  replace (dt_clock next_date - dt_clock expected_next + (86400 - 1))
    with ((dt_clock next_date - (dt_clock expected_next + 86400)
           + (86400 - 1)) + 1 * 86400) by lia.
  rewrite Z.div_add by lia.
  assert (0 <= (dt_clock next_date - (dt_clock expected_next + 86400)
                + (86400 - 1)) / 86400) by (apply Z.div_pos; lia).
  lia.
Qed.

(** The [for] loop of lines 53-62 over the adjacent pairs of records. *)
Fixpoint for_adjacent (ps : list partition) (missing_dates : list datetime)
  : outcome (list datetime) :=
  match ps with
  | current :: ((next :: _) as rest) =>
      expected_next <- add (date current) (timedelta_days 1) ;;
      missing_dates' <- while_expected expected_next (date next) missing_dates ;;
      for_adjacent rest missing_dates'
  | _ => Return missing_dates
  end.

Definition find_missing_dates (self : PartitionChecker)
  : outcome (list datetime) :=
  if (List.length (partitions self) <? 2)%nat then Return []
  else for_adjacent (partitions self) [].

(** *** [generate_partition_name], [group_consecutive_dates] *)

Definition generate_partition_name (d : datetime) : string :=
  ("p" ++ strftime_Ymd d)%string.

(** The loop of lines 113-118 over [dates[1:]]. *)
Fixpoint group_loop (rest : list datetime) (groups : list (list datetime))
  (current_group : list datetime) : outcome (list (list datetime)) :=
  match rest with
  | [] => Return (groups ++ [current_group])
  | d :: rest' =>
      prev <- PyStr.index_last current_group ;;
      if sub d prev =? timedelta_days 1
      then group_loop rest' groups (current_group ++ [d])
      else group_loop rest' (groups ++ [current_group]) [d]
  end.

Definition group_consecutive_dates (dates : list datetime)
  : outcome (list (list datetime)) :=
  match dates with
  | [] => Return []
  | d0 :: rest => group_loop rest [] [d0]
  end.

(** *** [create_reorganize_command], [generate_reorganize_commands] *)

Definition nl : string := String "010"%char EmptyString.

Section Commands.

Context {zone : LocalZone}.

(** One element of [all_partitions]. *)
Definition partition_clause (part_name : string) (bound : Z) : string :=
  ("  PARTITION " ++ part_name ++ " VALUES LESS THAN ("
   ++ PyStr.str_of_int bound ++ ") ENGINE = InnoDB")%string.

Definition create_reorganize_command (self : PartitionChecker)
  (before_part after_part : partition) (missing_dates : list datetime)
  : string :=
  let partition_name_after := generate_partition_name (date after_part) in
  let cmd := ("ALTER TABLE " ++ table_name self ++ nl)%string in
  let cmd :=
    (cmd ++ "REORGANIZE PARTITION " ++ partition_name_after
     ++ " INTO (" ++ nl)%string in
  let all_partitions :=
    fold_left
      (fun all_partitions missing_date =>
         let part_name := generate_partition_name missing_date in
         let unix_ts := posix_timestamp missing_date in
         all_partitions ++ [partition_clause part_name unix_ts])
      missing_dates [] in
  let part_name := generate_partition_name (date after_part) in
  let all_partitions :=
    all_partitions ++ [partition_clause part_name (unix_ts after_part)] in
  let cmd := (cmd ++ PyStr.join ("," ++ nl) all_partitions)%string in
  (cmd ++ nl ++ ");")%string.

Definition is_none {A : Type} (o : option A) : bool :=
  match o with
  | None => true
  | Some _ => false
  end.

(** The loop of lines 89-94; the second branch leaves the loop. *)
Fixpoint surrounding (ps : list partition) (start_date end_date : datetime)
  (before_partition after_partition : option partition)
  : option partition * option partition :=
  match ps with
  | [] => (before_partition, after_partition)
  | p :: ps' =>
      if ltb (date p) start_date
      then surrounding ps' start_date end_date (Some p) after_partition
      else if (gtb (date p) end_date && is_none after_partition)%bool
      then (before_partition, Some p)
      else surrounding ps' start_date end_date before_partition after_partition
  end.

(** The loop of lines 80-101 over the groups. *)
Fixpoint commands_loop (self : PartitionChecker) (groups : list (list datetime))
  (commands : list string) : outcome (list string) :=
  match groups with
  | [] => Return commands
  | group :: rest =>
      start_date <- PyStr.index group 0 ;;
      end_date <- PyStr.index_last group ;;
      match surrounding (partitions self) start_date end_date None None with
      | (Some before_partition, Some after_partition) =>
          let cmd :=
            create_reorganize_command self before_partition after_partition
              group in
          commands_loop self rest (commands ++ [cmd])
      | _ => commands_loop self rest commands
      end
  end.

Definition generate_reorganize_commands (self : PartitionChecker)
  (missing_dates : list datetime) : outcome (list string) :=
  match missing_dates with
  | [] => Return []
  | _ =>
      groups <- group_consecutive_dates missing_dates ;;
      commands_loop self groups []
  end.

(** [display_report]: the value returned; the text of the report is not
    modelled. *)
Definition display_report (self : PartitionChecker) : outcome (list datetime) :=
  missing_dates <- find_missing_dates self ;;
  match missing_dates with
  | [] => Return []
  | _ => Return missing_dates
  end.





End Commands.

(** ** [parse_result_file] *)

(** A [dict] with string keys, in insertion order. *)
Definition dict (V : Type) : Type := list (string * V).

Fixpoint dict_set {V : Type} (k : string) (v : V) (d : dict V) : dict V :=
  match d with
  | [] => [(k, v)]
  | (k', v') :: d' =>
      if String.eqb k' k then (k, v) :: d' else (k', v') :: dict_set k v d'
  end.

Fixpoint dict_get {V : Type} (k : string) (d : dict V) : option V :=
  match d with
  | [] => None
  | (k', v') :: d' => if String.eqb k' k then Some v' else dict_get k d'
  end.

Definition is_nil {A : Type} (l : list A) : bool :=
  match l with
  | [] => true
  | _ :: _ => false
  end.

(** The three local variables of the scan. *)
Record parse_state : Type := {
  tables_data : dict (list raw_row);
  current_table : option string;
  current_data : list raw_row
}.

Definition initial_state : parse_state :=
  {| tables_data := []; current_table := None; current_data := [] |}.

(** [current_table and current_data] as a truth value *)
Definition table_and_data (st : parse_state) : bool :=
  match current_table st with
  | Some t => (negb (PyStr.is_empty t) && negb (is_nil (current_data st)))%bool
  | None => false
  end.

(** Lines 232-234 *)
Definition save_previous (st : parse_state) : parse_state :=
  match current_table st with
  | Some t =>
      if table_and_data st
      then {| tables_data := dict_set t (current_data st) (tables_data st);
              current_table := current_table st;
              current_data := [] |}
      else st
  | None => st
  end.

Definition is_header (line : string) : bool :=
  (PyStr.contains "from_unixtime" (PyStr.lower line)
   || PyStr.contains "partition_description" (PyStr.lower line))%bool.

Definition open_table (line : string) (st : parse_state) : parse_state :=
  {| tables_data := tables_data st;
     current_table := Some line;
     current_data := current_data st |}.

(** Lines 255-265, for a line that the date pattern matches. *)
Definition data_tuple (line : string) : option raw_row :=
  match PyStr.split line with
  | p0 :: p1 :: p2 :: p3 :: more =>
      let date_str := (p0 ++ " " ++ p1)%string in
      let rows :=
        match more with
        | p4 :: _ => p4
        | [] => "0"%string
        end in
      Some [date_str; p2; p3; rows]
  | _ => None
  end.

Definition append_data (line : string) (st : parse_state) : parse_state :=
  match data_tuple line with
  | Some t =>
      {| tables_data := tables_data st;
         current_table := current_table st;
         current_data := current_data st ++ [t] |}
  | None => st
  end.

(** Lines 250-251: the lines left after a table name. *)
Definition skip_header (rest : list string) : list string :=
  match rest with
  | next :: rest' =>
      if PyStr.contains "from_unixtime" (PyStr.lower next) then rest' else rest
  | [] => []
  end.

(** The [while] loop of lines 221-267.  The argument is [lines[i:]]: its head
    is [lines[i]], and [i += 1] moves to its tail. *)
Fixpoint scan (lines : list string) (st : parse_state) : parse_state :=
  match lines with
  | [] => st
  | raw :: rest =>
      let line := PyStr.strip raw in
      if PyStr.is_empty line then scan rest st
      else if (negb (PyStr.startswith " " line)
               && negb (PyStr.match_date_prefix line))%bool
      then
        let st := save_previous st in
        if is_header line then scan rest st
        else
          let st := open_table line st in
          match rest with
          | next :: rest' =>
              if PyStr.contains "from_unixtime" (PyStr.lower next)
              then scan rest' st
              else scan rest st
          | [] => st
          end
      else if PyStr.match_date_prefix line
      then scan rest (append_data line st)
      else scan rest st
  end.

(** Lines 220-271: the scan and the last save. *)
Definition parse_lines (lines : list string) : dict (list raw_row) :=
  tables_data (save_previous (scan lines initial_state)).

(** What [open] and [readlines] meet. *)
Inductive file_access : Type :=
| NoSuchFile
| Unreadable
| Readable (lines : list string).

Definition readlines (f : file_access) : outcome (list string) :=
  match f with
  | NoSuchFile => Raise FileNotFoundError
  | Unreadable => Raise OSError
  | Readable lines => Return lines
  end.

(** The [try] statement of lines 216-278: [SystemExit] is not an
    [Exception], every other exception of the model is. *)
Definition parse_result_file (f : file_access)
  : outcome (dict (list raw_row)) :=
  match (lines <- readlines f ;; Return (parse_lines lines)) with
  | Return tables => Return tables
  | Raise FileNotFoundError => Raise (SystemExit 1)
  | Raise (SystemExit status) => Raise (SystemExit status)
  | Raise _ => Raise (SystemExit 1)
  end.

(** ** [main] *)

Section Main.

Context {zone : LocalZone}.

(** The counters of the summary. *)
Record summary : Type := {
  total_tables : nat;
  tables_with_issues : nat;
  all_sql_commands : list string
}.

(** Lines 379-383 *)
Definition keep_alter_table (all_sql_commands sql_commands : list string)
  : list string :=
  fold_left
    (fun acc cmd =>
       if PyStr.startswith "ALTER TABLE" (PyStr.strip cmd)
       then acc ++ [cmd] else acc)
    sql_commands all_sql_commands.

(** The loop of lines 351-386 over [tables_data.items()]. *)
Fixpoint main_loop (items : list (string * list raw_row)) (issues : nat)
  (all_sql_commands : list string) : outcome (nat * list string) :=
  match items with
  | [] => Return (issues, all_sql_commands)
  | (name, partition_data) :: rest =>
      if is_nil partition_data then main_loop rest issues all_sql_commands
      else
        built <- __init__ name partition_data ;;
        let checker := fst built in
        missing_dates <- display_report checker ;;
        if is_nil missing_dates then main_loop rest issues all_sql_commands
        else
          sql_commands <- generate_reorganize_commands checker missing_dates ;;
          main_loop rest (S issues)
            (if is_nil sql_commands then all_sql_commands
             else keep_alter_table all_sql_commands sql_commands)
  end.

(** [main]; opening and writing the two output files and the console are
    taken to succeed. *)
Definition main (input : file_access) : outcome summary :=
  tables <- parse_result_file input ;;
  if is_nil tables then Raise (SystemExit 1)
  else
    r <- main_loop tables 0%nat [] ;;
    Return {| total_tables := List.length tables;
              tables_with_issues := fst r;
              all_sql_commands := snd r |}.

End Main.


(** * Specifications

    The definitions of this part restate, in closed form, what the spec says
    the operations return; the theorems compare them with the code above. *)

(** [a + timedelta(days=k)] as a value, without the range check. *)
Definition shift_days (a : datetime) (k : Z) : datetime :=
  Datetime (dt_clock a + k * DAY).

(** The days stepped from [a] that are strictly less than [b]:
    [a + 1 day, a + 2 days, ...]. *)
Definition stepped_between (a b : datetime) : list datetime :=
  map (fun k => shift_days a (Z.of_nat k))
      (seq 1 (Z.to_nat ((dt_clock b - dt_clock a - 1) / DAY))).

Fixpoint adjacent_pairs {A : Type} (l : list A) : list (A * A) :=
  match l with
  | a :: ((b :: _) as rest) => (a, b) :: adjacent_pairs rest
  | _ => []
  end.

Definition missing_spec (ps : list partition) : list datetime :=
  flat_map (fun pq => stepped_between (date (fst pq)) (date (snd pq)))
           (adjacent_pairs ps).

(** For each entry of the concatenated groups, whether it opens a group. *)
Definition opens (groups : list (list datetime)) : list bool :=
  flat_map (fun g =>
              match g with
              | [] => []
              | _ :: t => true :: map (fun _ => false) t
              end) groups.

(** For each entry of [dates] after [prev], whether it is not exactly one day
    after its predecessor. *)
Fixpoint breaks_after (prev : datetime) (dates : list datetime) : list bool :=
  match dates with
  | [] => []
  | d :: rest => negb (sub d prev =? timedelta_days 1) :: breaks_after d rest
  end.

(** The first entry always opens a group. *)
Definition breaks (dates : list datetime) : list bool :=
  match dates with
  | [] => []
  | d0 :: rest => true :: breaks_after d0 rest
  end.

(** Midnight of a calendar day, for the examples. *)
Definition midnight (year month day : Z) : datetime :=
  Datetime (ymd2ord year month day * DAY).

(** A row that can be converted: at least four fields, the first a date-time
    in the format of the program, the next three integers. *)
Definition parses (row : raw_row) : option partition :=
  match row with
  | r0 :: r1 :: r2 :: r3 :: _ =>
      match strptime r0, PyStr.int r1, PyStr.int r2, PyStr.int r3 with
      | Return d, Return u, Return o, Return n => Some (Partition d u o n)
      | _, _, _, _ => None
      end
  | _ => None
  end.

(** The records of the rows that can be converted, in the order of the input. *)
Definition kept (partition_data : list raw_row) : list partition :=
  flat_map (fun row =>
              match parses row with
              | Some p => [p]
              | None => []
              end) partition_data.

Definition date_le (p q : partition) : Prop :=
  dt_clock (date p) <= dt_clock (date q).

(** Whether a stepped value is still a date of the calendar, and whether the
    stepping between two neighbours stays inside it: the loop stops at the
    first stepped day that is not below [b], which it has to build. *)
Definition fits (d : datetime) : bool := toordinal d <=? MAXORDINAL.

Definition pair_fits (a b : datetime) : bool :=
  fits (shift_days a (1 + Z.of_nat (List.length (stepped_between a b)))).

Definition steps_fit (ps : list partition) : bool :=
  forallb (fun pq => pair_fits (date (fst pq)) (date (snd pq)))
          (adjacent_pairs ps).

Definition before_last_day (p : partition) : Prop :=
  toordinal (date p) < MAXORDINAL.

Definition dt_lt (x y : datetime) : Prop := ltb x y = true.

(** The rows of the examples: a date-time, its Unix timestamp in a zone one
    hour east of Greenwich, an ordinal position and a row count. *)
Definition rows_2025_01 : list raw_row :=
  [["2025-01-05 00:00:00"; "1736031600"; "2"; "0"];
   ["2025-01-01 00:00:00"; "1735686000"; "1"; "0"]]%string.

Definition checker_2025_01 : PartitionChecker :=
  {| table_name := "t";
     partitions := [Partition (midnight 2025 1 1) 1735686000 1 0;
                    Partition (midnight 2025 1 5) 1736031600 2 0] |}.

Definition rows_9999_12 : list raw_row :=
  [["9999-12-31 00:00:00"; "253402210800"; "1"; "0"];
   ["9999-12-31 00:00:01"; "253402210801"; "2"; "0"]]%string.

(** The last record, in scan order, dated before [d], and the first one dated
    after [d]. *)
Definition last_before (ps : list partition) (d : datetime) : option partition :=
  hd_error (rev (filter (fun p => ltb (date p) d) ps)).

Definition first_after (ps : list partition) (d : datetime) : option partition :=
  hd_error (filter (fun p => gtb (date p) d) ps).

(** The commands that one group contributes. *)
Definition command_for {zone : LocalZone} (self : PartitionChecker)
  (group : list datetime) : list string :=
  match hd_error group, hd_error (rev group) with
  | Some start_date, Some end_date =>
      match last_before (partitions self) start_date,
            first_after (partitions self) end_date with
      | Some b, Some a => [create_reorganize_command self b a group]
      | _, _ => []
      end
  | _, _ => []
  end.


(** A group with a first and a last entry, the first not after the last. *)
Definition spans (g : list datetime) : Prop :=
  exists s e : datetime,
    hd_error g = Some s /\ hd_error (rev g) = Some e
    /\ dt_clock s <= dt_clock e.

(** A text without white space. *)
Fixpoint solid (s : string) : bool :=
  match s with
  | EmptyString => true
  | String c r => (negb (PyStr.isspace c) && solid r)%bool
  end.

(** The kinds of input lines, decided on the stripped text as the scan does:
    blank, data (the date pattern matches), and the others, which are either
    header lines or table-name lines. *)
Definition is_blank (raw : string) : bool := PyStr.is_empty (PyStr.strip raw).

Definition is_date_line (raw : string) : bool :=
  PyStr.match_date_prefix (PyStr.strip raw).

Definition is_header_line (raw : string) : bool :=
  (negb (is_blank raw) && negb (is_date_line raw)
   && is_header (PyStr.strip raw))%bool.

Definition is_table_line (raw : string) : bool :=
  (negb (is_blank raw) && negb (is_date_line raw)
   && negb (is_header (PyStr.strip raw)))%bool.

(** The test of line 250 on the line that follows a table name. *)
Definition swallowed (raw : string) : bool :=
  PyStr.contains "from_unixtime" (PyStr.lower raw).

(** The tuples that a run of lines contributes when each is read as data. *)
Definition data_rows (lines : list string) : list raw_row :=
  flat_map (fun raw =>
              if is_date_line raw
              then match data_tuple (PyStr.strip raw) with
                   | Some t => [t]
                   | None => []
                   end
              else []) lines.

Definition add_rows (rows : list raw_row) (st : parse_state) : parse_state :=
  {| tables_data := tables_data st;
     current_table := current_table st;
     current_data := current_data st ++ rows |}.

(** Two properties that the scan keeps: the open table has a name that is
    not empty, and no list stored in the dictionary is empty. *)
Definition name_ok (st : parse_state) : Prop :=
  forall t, current_table st = Some t -> PyStr.is_empty t = false.

Definition values_ok (st : parse_state) : Prop :=
  Forall (fun kv : string * list raw_row => snd kv <> []) (tables_data st).

(** A run of lines made of data lines and blank lines. *)
Definition data_section (lines : list string) : Prop :=
  Forall (fun raw => is_blank raw = true \/ is_date_line raw = true) lines.

(** The lines after a section: nothing, or lines that start with a table
    name; none of their table-name lines carries the name [n]. *)
Definition starts_other_table (n : string) (post : list string) : Prop :=
  (post = [] \/ exists m post', post = m :: post' /\ is_table_line m = true)
  /\ Forall (fun raw => is_table_line raw = true -> PyStr.strip raw <> n) post.

(** The rows read so far that no table has taken yet when the lines [pre]
    have been scanned and a new table name is met. *)
Definition pending (pre : list string) : list raw_row :=
  current_data (save_previous (scan pre initial_state)).

(** The lines of the examples. *)
Definition row_a : string := "2025-01-01 00:00:00 1735686000 1 10".
Definition row_b : string := "2025-01-02 00:00:00 1735772400 2 20".
Definition tuple_a : raw_row :=
  ["2025-01-01 00:00:00"; "1735686000"; "1"; "10"]%string.
Definition tuple_b : raw_row :=
  ["2025-01-02 00:00:00"; "1735772400"; "2"; "20"]%string.
Definition header_line : string :=
  "from_unixtime(PARTITION_DESCRIPTION) PARTITION_DESCRIPTION PARTITION_ORDINAL_POSITION TABLE_ROWS".


(** A file with one table that has a gap, and one whose records are on the
    last day of the calendar. *)
Definition file_with_gap : list string :=
  ["t"%string; header_line; row_a;
   "2025-01-04 00:00:00 1735945200 3 30"%string].


(** ** Gaps *)

(** The days missing between two neighbouring records, the pairs of
    neighbours that have a gap, and the gaps of a list of records. *)
Definition gap_of (pq : partition * partition) : list datetime :=
  stepped_between (date (fst pq)) (date (snd pq)).

Definition has_gap (pq : partition * partition) : bool :=
  negb (is_nil (gap_of pq)).

Definition gaps (ps : list partition) : list (list datetime) :=
  map gap_of (filter has_gap (adjacent_pairs ps)).

(** Each entry is exactly one day after the one before it. *)
Fixpoint chain_from (prev : datetime) (l : list datetime) : Prop :=
  match l with
  | [] => True
  | x :: t => sub x prev = timedelta_days 1 /\ chain_from x t
  end.

(** Runs of consecutive days, none of which continues the run before it. *)
Fixpoint runs_after (prev : datetime) (runs : list (list datetime)) : Prop :=
  match runs with
  | [] => True
  | [] :: _ => False
  | (d :: r) :: rest =>
      sub d prev <> timedelta_days 1 /\ chain_from d r
      /\ runs_after (List.last r d) rest
  end.

Definition rows_2025_gap : list raw_row :=
  [["2025-01-05 00:00:00"; "1736031600"; "3"; "0"];
   ["2025-01-02 00:00:00"; "1735772400"; "2"; "0"];
   ["2025-01-01 00:00:00"; "1735686000"; "1"; "0"]]%string.

Definition checker_2025_gap : PartitionChecker :=
  {| table_name := "t";
     partitions := [Partition (midnight 2025 1 1) 1735686000 1 0;
                    Partition (midnight 2025 1 2) 1735772400 2 0;
                    Partition (midnight 2025 1 5) 1736031600 3 0] |}.

(** ** The summary of [main] *)

(** Whether the records kept from the rows of a table leave a day out, and the
    commands for them: one per pair of neighbouring records with a gap. *)
Definition has_issue (partition_data : list raw_row) : bool :=
  negb (is_nil (missing_spec (sort_by_date (kept partition_data)))).

Definition commands_of {zone : LocalZone} (name : string)
  (partition_data : list raw_row) : list string :=
  let self := {| table_name := name;
                 partitions := sort_by_date (kept partition_data) |} in
  map (fun pq => create_reorganize_command self (fst pq) (snd pq) (gap_of pq))
      (filter has_gap (adjacent_pairs (partitions self))).


(** What [main] returns for [file_with_gap]. *)
Definition summary_with_gap {zone : LocalZone} : summary :=
  {| total_tables := 1;
     tables_with_issues := 1;
     all_sql_commands :=
       flat_map (fun kv => commands_of (fst kv) (snd kv))
                (parse_lines file_with_gap) |}.


(** A text made of white space only. *)
Fixpoint all_space (w : string) : bool :=
  match w with
  | EmptyString => true
  | String c r => (PyStr.isspace c && all_space r)%bool
  end.


(** ** Where the entries of the mapping come from *)

(** A tuple built from a data line of the file, and a name that is the
    stripped text of one of its table-name lines. *)
Definition from_date_line (lines : list string) (row : raw_row) : Prop :=
  exists raw : string,
    In raw lines /\ is_date_line raw = true
    /\ data_tuple (PyStr.strip raw) = Some row.

Definition from_table_line (lines : list string) (name : string) : Prop :=
  exists raw : string,
    In raw lines /\ is_table_line raw = true /\ name = PyStr.strip raw.

Definition entries_from (lines : list string) (st : parse_state) : Prop :=
  (forall t, current_table st = Some t -> from_table_line lines t)
  /\ Forall (from_date_line lines) (current_data st)
  /\ Forall (fun kv : string * list raw_row =>
               from_table_line lines (fst kv)
               /\ Forall (from_date_line lines) (snd kv)) (tables_data st)
  /\ NoDup (map fst (tables_data st)).


(** ** A file laid out as the parser expects *)

(** A table-name line and the lines that follow it up to the next table
    name; the entry it stands for; and a block as expected: after the line
    that the scan skips as the header, data lines and blank lines only,
    giving at least one tuple. *)
Definition block : Type := (string * list string)%type.

Definition block_lines (b : block) : list string := fst b :: snd b.

Definition block_entry (b : block) : string * list raw_row :=
  (PyStr.strip (fst b), data_rows (skip_header (snd b))).

Definition block_ok (b : block) : Prop :=
  is_table_line (fst b) = true
  /\ data_section (skip_header (snd b))
  /\ data_rows (skip_header (snd b)) <> [].


(** ** The text of the report *)

Module Report.

(** Where [print_output] writes: the console, and [self.output_file], which is
    [None] or an open text file, here the text written to it so far.  Text is
    kept as its UTF-8 encoding, which is how [main] opens the file. *)
Record sink : Type := {
  console : string;
  output_file : option string
}.

(** [print] ends the message with a line feed; an open file is a true
    value. *)
Definition print_output (message : string) (s : sink) : sink :=
  {| console := (console s ++ message ++ nl)%string;
     output_file :=
       match output_file s with
       | Some f => Some (f ++ message ++ nl)%string
       | None => None
       end |}.

(** ['c' * n] *)
Fixpoint repeat_char (c : ascii) (n : nat) : string :=
  match n with
  | O => EmptyString
  | S k => String c (repeat_char c k)
  end.

(** [f"{s:<width}"]: padded with spaces on the right, never cut. *)
Definition ljust (width : nat) (s : string) : string :=
  (s ++ repeat_char " " (width - String.length s))%string.

(** [str(d.date())]: the ISO form [%04d-%02d-%02d]. *)
Definition str_date (d : datetime) : string :=
  let '(y, m, dd) := ord2ymd (toordinal d) in
  (zfill 4 (PyStr.str_of_int y) ++ "-" ++ zfill 2 (PyStr.str_of_int m)
   ++ "-" ++ zfill 2 (PyStr.str_of_int dd))%string.

(** [str(d)] for a datetime with microsecond 0 *)
Definition str_datetime (d : datetime) : string :=
  let s := second_of_day d in
  (str_date d ++ " " ++ zfill 2 (PyStr.str_of_int (s / 3600))
   ++ ":" ++ zfill 2 (PyStr.str_of_int (s mod 3600 / 60))
   ++ ":" ++ zfill 2 (PyStr.str_of_int (s mod 60)))%string.

(** U+26A0 U+FE0F and U+2705 *)
Definition warning_sign : string :=
  String "226" (String "154" (String "160"
    (String "239" (String "184" (String "143" EmptyString))))).

Definition check_mark : string :=
  String "226" (String "156" (String "133" EmptyString)).

(** Line 174 *)
Definition partition_line (p : partition) : string :=
  (ljust 20 (str_datetime (date p)) ++ " "
   ++ ljust 15 (PyStr.str_of_int (unix_ts p)) ++ " "
   ++ ljust 10 (PyStr.str_of_int (ordinal p)) ++ " "
   ++ ljust 10 (PyStr.str_of_int (rows p)))%string.

(** [display_report]: the value returned or the exception raised, and the
    sink as the call leaves it. *)
Definition display_report (self : PartitionChecker) (s : sink)
  : outcome (list datetime) * sink :=
  let s := print_output (nl ++ repeat_char "=" 70) s in
  let s := print_output ("PARTITION ANALYSIS: " ++ table_name self) s in
  let s := print_output (repeat_char "=" 70) s in
  let s :=
    print_output
      (nl ++ "Total Partitions: "
       ++ PyStr.str_of_int (Z.of_nat (List.length (partitions self)))) s in
  let s :=
    match partitions self with
    | [] => s
    | first :: _ =>
        print_output
          ("Date Range: " ++ str_date (date first) ++ " to "
           ++ str_date (date (List.last (partitions self) first))) s
    end in
  let s := print_output (nl ++ "Existing Partitions:") s in
  let s :=
    print_output
      (ljust 20 "Date" ++ " " ++ ljust 15 "Unix Timestamp" ++ " "
       ++ ljust 10 "Ordinal" ++ " " ++ ljust 10 "Rows") s in
  let s := print_output (repeat_char "-" 70) s in
  let s :=
    fold_left (fun s p => print_output (partition_line p) s)
              (rev (partitions self)) s in
  match find_missing_dates self with
  | Raise e => (Raise e, s)
  | Return missing_dates =>
      if is_nil missing_dates
      then
        (Return [],
         print_output
           (nl ++ check_mark
            ++ " No missing dates found. Partitions are continuous.") s)
      else
        let s :=
          print_output
            (nl ++ warning_sign ++ "  WARNING: Found "
             ++ PyStr.str_of_int (Z.of_nat (List.length missing_dates))
             ++ " missing date(s):") s in
        let s :=
          fold_left (fun s md => print_output ("   - " ++ str_date md) s)
                    missing_dates s in
        (Return missing_dates, s)
  end.

(** The sink [s'] holds what [s] held and then [text], on the console and in
    the file when there is one. *)
Definition extends (text : string) (s s' : sink) : Prop :=
  console s' = (console s ++ text)%string
  /\ output_file s'
     = match output_file s with
       | Some f => Some (f ++ text)%string
       | None => None
       end.

End Report.


(** ** The records once the reported dates are added *)

(** The records with a record for each missing date put between the two
    neighbours it was stepped from; [mk] builds the record of a date. *)
Fixpoint completed (mk : datetime -> partition) (ps : list partition)
  : list partition :=
  match ps with
  | [] => []
  | p :: rest =>
      p :: match rest with
           | [] => []
           | q :: _ =>
               map mk (stepped_between (date p) (date q)) ++ completed mk rest
           end
  end.

(** No date is missing, and the stepping stays inside the calendar. *)
Definition closed (ps : list partition) : Prop :=
  missing_spec ps = [] /\ steps_fit ps = true.


(** * Theorems *)

(** ** The result type *)

Lemma bind_Return {A B : Type} (m : outcome A) (k : A -> outcome B) (b : B) :
  bind m k = Return b -> exists a, m = Return a /\ k a = Return b.
Proof. destruct m as [a|e]; simpl; [eauto | discriminate]. Qed.

(** ** [group_consecutive_dates] *)

Lemma index_last_snoc {A : Type} (l : list A) (x : A) :
  PyStr.index_last (l ++ [x]) = Return x.
Proof. unfold PyStr.index_last. rewrite rev_app_distr. reflexivity. Qed.

Lemma opens_app (g1 g2 : list (list datetime)) :
  opens (g1 ++ g2) = opens g1 ++ opens g2.
Proof. unfold opens. apply flat_map_app. Qed.

Lemma opens_snoc (g : list datetime) (d : datetime) :
  g <> [] -> opens [g ++ [d]] = opens [g] ++ [false].
Proof.
  destruct g as [|x t]; [congruence | intros _].
  simpl. rewrite !app_nil_r, map_app. reflexivity.
Qed.

Lemma group_loop_spec (rest : list datetime) :
  forall (groups : list (list datetime)) (current prev_part : list datetime)
         (prev : datetime),
    current = prev_part ++ [prev] ->
    exists gs,
      group_loop rest groups current = Return gs
      /\ List.concat gs = List.concat groups ++ current ++ rest
      /\ (Forall (fun g => g <> []) groups -> Forall (fun g => g <> []) gs)
      /\ opens gs = opens groups ++ opens [current] ++ breaks_after prev rest.
Proof.
  induction rest as [|d rest IH]; intros groups current pp prev Hc.
  - exists (groups ++ [current]). simpl. repeat split.
    + rewrite List.concat_app. simpl. now rewrite !app_nil_r.
    + intros HF. apply Forall_app. split; [assumption|].
      constructor; [|constructor]. subst. now destruct pp.
    + rewrite opens_app, app_nil_r. reflexivity.
  - cbn [group_loop]. subst current. rewrite index_last_snoc. cbn [bind].
    cbn [breaks_after].
    destruct (sub d prev =? timedelta_days 1) eqn:E; cbn [negb].
    + destruct (IH groups ((pp ++ [prev]) ++ [d]) (pp ++ [prev]) d eq_refl)
        as (gs & Hg & Hcat & HF & Ho).
      exists gs. repeat split; try assumption.
      * rewrite Hcat, <- !app_assoc. reflexivity.
      * rewrite Ho, opens_snoc by (now destruct pp).
        rewrite <- !app_assoc. reflexivity.
    + destruct (IH (groups ++ [pp ++ [prev]]) [d] [] d eq_refl)
        as (gs & Hg & Hcat & HF & Ho).
      exists gs. repeat split.
      * assumption.
      * rewrite Hcat, List.concat_app. simpl. rewrite app_nil_r, <- !app_assoc.
        reflexivity.
      * intros H. apply HF. apply Forall_app. split; [assumption|].
        constructor; [now destruct pp | constructor].
      * rewrite Ho, opens_app, <- !app_assoc. reflexivity.
Qed.

Lemma group_consecutive_dates_returns (dates : list datetime) :
  exists groups,
    group_consecutive_dates dates = Return groups
    /\ List.concat groups = dates
    /\ Forall (fun g => g <> []) groups
    /\ opens groups = breaks dates.
Proof.
  destruct dates as [|d0 rest].
  - exists []. repeat split. constructor.
  - destruct (group_loop_spec rest [] [d0] [] d0 eq_refl)
      as (gs & Hg & Hcat & HF & Ho).
    exists gs. repeat split; try assumption.
    apply HF. constructor.
Qed.

(** C2.  [group_consecutive_dates] always returns: the groups, concatenated,
    are the input in its order; no group is empty; and an entry opens a new
    group exactly when it is the first entry or its difference to its
    predecessor in the input is not exactly one day.  This holds for every
    list, sorted or not.  The dates 01-02, 01-03, 01-04, 01-10 of 2025 give
    the two groups [01-02, 01-03, 01-04] and [01-10]. *)
Theorem group_consecutive_dates_splits_at_gaps :
  (forall dates : list datetime,
      exists groups,
        group_consecutive_dates dates = Return groups
        /\ List.concat groups = dates
        /\ Forall (fun g => g <> []) groups
        /\ opens groups = breaks dates)
  /\ group_consecutive_dates
       [midnight 2025 1 2; midnight 2025 1 3; midnight 2025 1 4;
        midnight 2025 1 10]
     = Return [[midnight 2025 1 2; midnight 2025 1 3; midnight 2025 1 4];
               [midnight 2025 1 10]].
Proof.
  split; [exact group_consecutive_dates_returns | reflexivity].
Qed.

(** ** The constructor *)

Lemma strptime_raises (s : string) (e : exn) :
  strptime s = Raise e -> e = ValueError.
Proof.
  unfold strptime, datetime_new.
  destruct (format_regex s) as [|[[[[[[y m] d] hh] mm] ss] rest] l];
    [congruence|].
  destruct (PyStr.is_empty rest); [|congruence].
  destruct (_ && _)%bool; congruence.
Qed.

Lemma int_raises (s : string) (e : exn) :
  PyStr.int s = Raise e -> e = ValueError.
Proof.
  unfold PyStr.int.
  match goal with |- match ?v with _ => _ end = _ -> _ => destruct v end;
    congruence.
Qed.

(** A row is converted when it [parses]; otherwise the conversion raises one
    of the two exceptions that the constructor catches. *)
Lemma row_to_partition_cases (row : raw_row) :
  match parses row with
  | Some p => row_to_partition row = Return p
  | None => row_to_partition row = Raise ValueError
            \/ row_to_partition row = Raise IndexError
  end.
Proof.
  unfold parses, row_to_partition.
  destruct row as [|r0 [|r1 [|r2 [|r3 more]]]]; cbn [PyStr.index nth_error bind].
  - now right.
  - destruct (strptime r0) eqn:E0; cbn [bind]; [now right|].
    left. now rewrite (strptime_raises _ _ E0).
  - destruct (strptime r0) eqn:E0; cbn [bind];
      [|left; now rewrite (strptime_raises _ _ E0)].
    destruct (PyStr.int r1) eqn:E1; cbn [bind]; [now right|].
    left. now rewrite (int_raises _ _ E1).
  - destruct (strptime r0) eqn:E0; cbn [bind];
      [|left; now rewrite (strptime_raises _ _ E0)].
    destruct (PyStr.int r1) eqn:E1; cbn [bind];
      [|left; now rewrite (int_raises _ _ E1)].
    destruct (PyStr.int r2) eqn:E2; cbn [bind]; [now right|].
    left. now rewrite (int_raises _ _ E2).
  - destruct (strptime r0) eqn:E0; cbn [bind];
      [|left; now rewrite (strptime_raises _ _ E0)].
    destruct (PyStr.int r1) eqn:E1; cbn [bind];
      [|left; now rewrite (int_raises _ _ E1)].
    destruct (PyStr.int r2) eqn:E2; cbn [bind];
      [|left; now rewrite (int_raises _ _ E2)].
    destruct (PyStr.int r3) eqn:E3; cbn [bind];
      [reflexivity | left; now rewrite (int_raises _ _ E3)].
Qed.

Lemma init_loop_spec (partition_data : list raw_row) :
  forall (acc : list partition) (out : list warning),
  exists out',
    init_loop partition_data acc out = Return (acc ++ kept partition_data, out')
    /\ map fst out'
       = map fst out
         ++ filter (fun row => is_none (parses row)) partition_data.
Proof.
  induction partition_data as [|row rest IH]; intros acc out.
  - exists out. cbn. now rewrite !app_nil_r.
  - cbn [init_loop kept flat_map filter].
    pose proof (row_to_partition_cases row) as Hc.
    destruct (parses row) as [p|]; cbn [is_none].
    + rewrite Hc. destruct (IH (acc ++ [p]) out) as (out' & Hl & Hw).
      exists out'. split; [|assumption].
      rewrite Hl. unfold kept. now rewrite <- app_assoc.
    + destruct Hc as [Hc|Hc]; rewrite Hc.
      * destruct (IH acc (out ++ [(row, ValueError)])) as (out' & Hl & Hw).
        exists out'. split; [assumption|].
        rewrite Hw, map_app, <- app_assoc. reflexivity.
      * destruct (IH acc (out ++ [(row, IndexError)])) as (out' & Hl & Hw).
        exists out'. split; [assumption|].
        rewrite Hw, map_app, <- app_assoc. reflexivity.
Qed.

Lemma insert_by_date_perm (p : partition) (l : list partition) :
  Permutation (insert_by_date p l) (p :: l).
Proof.
  induction l as [|q l IH]; cbn; [reflexivity|].
  destruct (ltb (date q) (date p)); [|reflexivity].
  rewrite IH. apply perm_swap.
Qed.

Lemma sort_by_date_perm (l : list partition) :
  Permutation (sort_by_date l) l.
Proof.
  induction l as [|p l IH]; cbn; [constructor|].
  rewrite insert_by_date_perm. now constructor.
Qed.

Lemma insert_by_date_sorted (p : partition) (l : list partition) :
  StronglySorted date_le l -> StronglySorted date_le (insert_by_date p l).
Proof.
  induction 1 as [|q l Hs IH Hq]; cbn.
  - repeat constructor.
  - unfold ltb. destruct (dt_clock (date q) <? dt_clock (date p)) eqn:E.
    + apply Z.ltb_lt in E. constructor; [assumption|].
      rewrite insert_by_date_perm. constructor; [unfold date_le; lia | assumption].
    + apply Z.ltb_ge in E. constructor.
      * constructor; assumption.
      * constructor; [exact E|].
        eapply Forall_impl; [|exact Hq]. unfold date_le. intros r Hr. lia.
Qed.

Lemma sort_by_date_sorted (l : list partition) :
  StronglySorted date_le (sort_by_date l).
Proof.
  induction l as [|p l IH]; cbn; [constructor|].
  now apply insert_by_date_sorted.
Qed.



Lemma filter_date_head (x : partition) (l : list partition) :
  filter (fun q => eqb (date q) (date x)) (x :: l)
  = x :: filter (fun q => eqb (date q) (date x)) l.
Proof. cbn [filter]. unfold eqb. now rewrite Z.eqb_refl. Qed.

(** A sorted list is determined by the records it has for each date, in
    their order: whatever stable sort [list.sort] runs, it returns the list
    that [sort_by_date] returns. *)
Lemma stable_sort_unique (l1 : list partition) :
  forall l2 : list partition,
    StronglySorted date_le l1 -> StronglySorted date_le l2 ->
    (forall d : datetime,
        filter (fun q => eqb (date q) d) l1
        = filter (fun q => eqb (date q) d) l2) ->
    l1 = l2.
Proof.
  induction l1 as [|x t1 IH]; intros l2 H1 H2 Hf.
  - destruct l2 as [|y t2]; [reflexivity|].
    specialize (Hf (date y)). rewrite filter_date_head in Hf. discriminate.
  - destruct l2 as [|y t2].
    { specialize (Hf (date x)). rewrite filter_date_head in Hf. discriminate. }
    inversion H1 as [|? ? H1' Hx]; subst.
    inversion H2 as [|? ? H2' Hy]; subst.
    assert (Hxy : x = y).
    { pose proof (Hf (date x)) as Fx. rewrite filter_date_head in Fx.
      pose proof (Hf (date y)) as Fy. rewrite filter_date_head in Fy.
      cbn [filter] in Fx, Fy. unfold eqb in Fx, Fy.
      destruct (dt_clock (date y) =? dt_clock (date x)) eqn:E;
        [now inversion Fx|].
      rewrite Z.eqb_sym, E in Fy. exfalso.
      assert (Ix : In x t2).
      { eapply (proj1 (filter_In _ x t2)). rewrite <- Fx. now left. }
      assert (Iy : In y t1).
      { eapply (proj1 (filter_In _ y t1)). rewrite Fy. now left. }
      rewrite Forall_forall in Hx, Hy.
      pose proof (Hx y Iy) as A. pose proof (Hy x Ix) as B.
      unfold date_le in A, B. apply Z.eqb_neq in E. lia. }
    subst y. f_equal. apply IH; [assumption | assumption |].
    intros d. specialize (Hf d). cbn [filter] in Hf.
    destruct (eqb (date x) d); [now inversion Hf | assumption].
Qed.



(** ** [find_missing_dates] *)

(** The loop of lines 60-62 satisfies the equation of a [while] statement. *)
Lemma while_expected_eqn (e n : datetime) (acc : list datetime) :
  while_expected e n acc
  = if ltb e n
    then e' <- add e (timedelta_days 1) ;; while_expected e' n (acc ++ [e])
    else Return acc.
Proof.
  funelim (while_expected e n acc);
    repeat match goal with
           | H : ltb _ _ = _ |- _ => rewrite H
           | H : add _ _ = _ |- _ => rewrite H
           end;
    reflexivity.
Qed.

Lemma shift_days_shift (a : datetime) (j k : Z) :
  shift_days (shift_days a j) k = shift_days a (j + k).
Proof. unfold shift_days. cbn [dt_clock]. f_equal. lia. Qed.

Lemma datetime_eta (d : datetime) : Datetime (dt_clock d) = d.
Proof. now destruct d. Qed.

Lemma add_day_exact (d : datetime) :
  0 <= dt_clock d ->
  add d (timedelta_days 1)
  = if fits (shift_days d 1) then Return (shift_days d 1)
    else Raise OverflowError.
Proof.
  intros Hlo. unfold add, timedelta_days, fits, shift_days, toordinal.
  cbn [dt_clock].
  assert (H1 : (0 <? (dt_clock d + 1 * DAY) / DAY) = true).
  { apply Z.ltb_lt. rewrite Z.div_add by (unfold DAY; lia).
    assert (0 <= dt_clock d / DAY) by (apply Z.div_pos; unfold DAY; lia). lia. }
  rewrite H1. reflexivity.
Qed.

Lemma fits_mono (d : datetime) (j k : Z) :
  j <= k -> fits (shift_days d k) = true -> fits (shift_days d j) = true.
Proof.
  unfold fits, shift_days, toordinal. cbn [dt_clock]. intros Hjk Hk.
  apply Z.leb_le in Hk. apply Z.leb_le.
  assert ((dt_clock d + j * DAY) / DAY <= (dt_clock d + k * DAY) / DAY)
    by (apply Z.div_le_mono; unfold DAY; nia).
  lia.
Qed.

(** The loop of lines 60-62 started at [e] makes [days_left e n] passes when
    every day it builds is a date, and raises [OverflowError] otherwise. *)
Lemma while_expected_exact (k : nat) :
  forall (e n : datetime) (acc : list datetime),
    days_left e n = k -> 0 <= dt_clock e ->
    while_expected e n acc
    = if (Nat.eqb k 0 || fits (shift_days e (Z.of_nat k)))%bool
      then Return (acc ++ map (fun i => shift_days e (Z.of_nat i)) (seq 0 k))
      else Raise OverflowError.
Proof.
  induction k as [|k IH]; intros e n acc Hk Hlo;
    rewrite while_expected_eqn; unfold ltb;
    destruct (dt_clock e <? dt_clock n) eqn:E.
  - apply Z.ltb_lt in E. exfalso. unfold days_left, DAY in Hk.
    assert (1 <= (dt_clock n - dt_clock e + (86400 - 1)) / 86400)
      by (apply Z.div_le_lower_bound; lia).
    lia.
  - cbn. now rewrite app_nil_r.
  - apply Z.ltb_lt in E. rewrite add_day_exact by assumption.
    cbn [Nat.eqb orb].
    destruct (fits (shift_days e 1)) eqn:F1; cbn [bind].
    + rewrite (IH (shift_days e 1) n (acc ++ [e])).
      * rewrite shift_days_shift.
        replace (1 + Z.of_nat k) with (Z.of_nat (S k)) by lia.
        assert (Hc : (Nat.eqb k 0 || fits (shift_days e (Z.of_nat (S k))))%bool
                     = fits (shift_days e (Z.of_nat (S k)))).
        { destruct k; [|reflexivity].
          cbn [Nat.eqb orb]. change (Z.of_nat 1) with 1. now rewrite F1. }
        rewrite Hc. destruct (fits (shift_days e (Z.of_nat (S k))));
          [|reflexivity].
        f_equal. rewrite <- app_assoc. f_equal. cbn [seq map app]. f_equal.
        -- unfold shift_days. rewrite <- (datetime_eta e) at 1. f_equal.
           cbn [Z.of_nat]. lia.
        -- rewrite <- seq_shift, map_map. apply map_ext. intros i.
           rewrite shift_days_shift. f_equal. lia.
      * unfold days_left, shift_days, DAY in *. cbn [dt_clock].
        replace (dt_clock n - dt_clock e + (86400 - 1))
          with ((dt_clock n - (dt_clock e + 1 * 86400) + (86400 - 1))
                + 1 * 86400) in Hk by lia.
        rewrite Z.div_add in Hk by lia.
        assert (0 <= (dt_clock n - (dt_clock e + 1 * 86400) + (86400 - 1))
                     / 86400) by (apply Z.div_pos; lia).
        lia.
      * unfold shift_days, DAY. cbn [dt_clock]. lia.
    + destruct (fits (shift_days e (Z.of_nat (S k)))) eqn:F; [|reflexivity].
      apply (fits_mono e 1) in F; [congruence | lia].
  - apply Z.ltb_ge in E. exfalso. unfold days_left, DAY in Hk.
    assert ((dt_clock n - dt_clock e + (86400 - 1)) / 86400 <= 0).
    { apply Z.lt_succ_r. apply Z.div_lt_upper_bound; lia. }
    lia.
Qed.

Lemma stepped_between_length (a b : datetime) :
  List.length (stepped_between a b) = days_left (shift_days a 1) b.
Proof.
  unfold stepped_between, days_left, shift_days. cbn [dt_clock].
  rewrite length_map, length_seq. f_equal. f_equal. lia.
Qed.

Lemma stepped_between_loop (a b : datetime) :
  map (fun i => shift_days (shift_days a 1) (Z.of_nat i))
      (seq 0 (days_left (shift_days a 1) b))
  = stepped_between a b.
Proof.
  unfold stepped_between, days_left, shift_days. cbn [dt_clock].
  replace (dt_clock b - (dt_clock a + 1 * DAY) + (DAY - 1))
    with (dt_clock b - dt_clock a - 1) by lia.
  rewrite <- seq_shift, map_map. apply map_ext. intros i.
  cbn [dt_clock]. f_equal. lia.
Qed.

Lemma for_adjacent_step (p q : partition) (ps : list partition)
  (acc : list datetime) :
  for_adjacent (p :: q :: ps) acc
  = (e <- add (date p) (timedelta_days 1) ;;
     acc' <- while_expected e (date q) acc ;;
     for_adjacent (q :: ps) acc').
Proof. reflexivity. Qed.

(** One pass of the loop of lines 53-62. *)
Lemma pair_exact (a b : datetime) (acc : list datetime) :
  0 <= dt_clock a ->
  (e <- add a (timedelta_days 1) ;; while_expected e b acc)
  = if pair_fits a b then Return (acc ++ stepped_between a b)
    else Raise OverflowError.
Proof.
  intros Hlo. unfold pair_fits. rewrite add_day_exact by assumption.
  rewrite stepped_between_length.
  destruct (fits (shift_days a 1)) eqn:F1; cbn [bind].
  - rewrite (while_expected_exact _ _ _ _ eq_refl)
      by (unfold shift_days, DAY; cbn [dt_clock]; lia).
    rewrite shift_days_shift, stepped_between_loop.
    destruct (days_left (shift_days a 1) b) as [|k] eqn:Ek.
    + cbn [Nat.eqb orb Z.of_nat]. replace (1 + 0) with 1 by lia.
      now rewrite F1.
    + reflexivity.
  - destruct (fits (shift_days a (1 + _))) eqn:F; [|reflexivity].
    apply (fits_mono a 1) in F; [congruence | lia].
Qed.

Lemma for_adjacent_exact (ps : list partition) :
  forall acc : list datetime,
    Forall (fun p => 0 <= dt_clock (date p)) ps ->
    for_adjacent ps acc
    = if steps_fit ps then Return (acc ++ missing_spec ps)
      else Raise OverflowError.
Proof.
  induction ps as [|p ps IH]; intros acc HF.
  - cbn. now rewrite app_nil_r.
  - destruct ps as [|q ps].
    + cbn. now rewrite app_nil_r.
    + rewrite for_adjacent_step.
      inversion HF as [|? ? Hp HF']; subst.
      change (steps_fit (p :: q :: ps))
        with (pair_fits (date p) (date q) && steps_fit (q :: ps))%bool.
      change (missing_spec (p :: q :: ps))
        with (stepped_between (date p) (date q) ++ missing_spec (q :: ps)).
      pose proof (pair_exact (date p) (date q) acc Hp) as Hpair.
      destruct (add (date p) (timedelta_days 1)) as [e|ex]; cbn [bind] in *.
      * rewrite Hpair. destruct (pair_fits (date p) (date q)); cbn [bind andb].
        -- rewrite IH by assumption. now rewrite <- app_assoc.
        -- reflexivity.
      * destruct (pair_fits (date p) (date q)); [discriminate|].
        cbn [andb]. assumption.
Qed.

(** The closed form lists exactly the days stepped from [a] that are below
    [b]. *)
Lemma stepped_between_In (a b x : datetime) :
  In x (stepped_between a b)
  <-> exists k : Z, 1 <= k /\ x = shift_days a k /\ ltb x b = true.
Proof.
  unfold stepped_between, ltb. rewrite in_map_iff. split.
  - intros (i & Hx & Hi). apply in_seq in Hi. exists (Z.of_nat i).
    repeat split; [lia | now symmetry |]. subst x. apply Z.ltb_lt.
    unfold shift_days. cbn [dt_clock].
    assert (Hq : Z.of_nat i <= (dt_clock b - dt_clock a - 1) / DAY) by lia.
    assert (Hm : DAY * ((dt_clock b - dt_clock a - 1) / DAY)
                 <= dt_clock b - dt_clock a - 1)
      by (apply Z.mul_div_le; unfold DAY; lia).
    unfold DAY in *. nia.
  - intros (k & Hk & Hx & Hlt). apply Z.ltb_lt in Hlt. subst x.
    unfold shift_days in Hlt. cbn [dt_clock] in Hlt.
    exists (Z.to_nat k). split.
    + f_equal. lia.
    + apply in_seq.
      assert (k <= (dt_clock b - dt_clock a - 1) / DAY)
        by (apply Z.div_le_lower_bound; unfold DAY in *; lia).
      lia.
Qed.

Lemma StronglySorted_app {A : Type} (R : A -> A -> Prop) (l1 l2 : list A) :
  StronglySorted R l1 -> StronglySorted R l2 ->
  (forall x y, In x l1 -> In y l2 -> R x y) ->
  StronglySorted R (l1 ++ l2).
Proof.
  induction 1 as [|x l1 Hs IH Hx]; intros H2 Hc; cbn; [assumption|].
  constructor.
  - apply IH; [assumption|]. intros; apply Hc; [now right | assumption].
  - apply Forall_app. split; [assumption|].
    apply Forall_forall. intros y Hy. apply Hc; [now left | assumption].
Qed.

Lemma stepped_from_sorted (a : datetime) (n : nat) :
  forall s : nat,
    StronglySorted dt_lt (map (fun k => shift_days a (Z.of_nat k)) (seq s n)).
Proof.
  induction n as [|n IH]; intros s; cbn; constructor; [apply IH|].
  apply Forall_forall. intros x Hx. apply in_map_iff in Hx.
  destruct Hx as (i & <- & Hi). apply in_seq in Hi.
  unfold dt_lt, ltb, shift_days, DAY. cbn [dt_clock]. apply Z.ltb_lt. lia.
Qed.

Lemma missing_spec_step (p q : partition) (ps : list partition) :
  missing_spec (p :: q :: ps)
  = stepped_between (date p) (date q) ++ missing_spec (q :: ps).
Proof. reflexivity. Qed.

Lemma missing_spec_above (ps : list partition) :
  forall (p : partition) (x : datetime),
    StronglySorted date_le (p :: ps) ->
    In x (missing_spec (p :: ps)) -> dt_lt (date p) x.
Proof.
  induction ps as [|q ps IH]; intros p x Hs Hx; [destruct Hx|].
  rewrite missing_spec_step in Hx. apply in_app_or in Hx.
  destruct Hx as [Hx|Hx].
  - apply stepped_between_In in Hx. destruct Hx as (k & Hk & -> & _).
    unfold dt_lt, ltb, shift_days, DAY. cbn [dt_clock]. apply Z.ltb_lt. lia.
  - inversion Hs as [|? ? Hs' Hp]; subst.
    specialize (IH q x Hs' Hx).
    inversion Hp as [|? ? Hpq _]; subst.
    unfold dt_lt, ltb, date_le in *. apply Z.ltb_lt. apply Z.ltb_lt in IH. lia.
Qed.

Lemma missing_spec_sorted (ps : list partition) :
  StronglySorted date_le ps -> StronglySorted dt_lt (missing_spec ps).
Proof.
  induction ps as [|p ps IH]; intros Hs; [constructor|].
  destruct ps as [|q ps]; [constructor|].
  rewrite missing_spec_step.
  inversion Hs as [|? ? Hs' Hp]; subst.
  apply StronglySorted_app.
  - apply stepped_from_sorted.
  - now apply IH.
  - intros x y Hx Hy. apply stepped_between_In in Hx.
    destruct Hx as (k & _ & _ & Hxq).
    pose proof (missing_spec_above ps q y Hs' Hy) as Hqy.
    unfold dt_lt, ltb in *. apply Z.ltb_lt.
    apply Z.ltb_lt in Hxq, Hqy. lia.
Qed.

(** Every datetime that the constructor builds is on day 1 or later. *)
Lemma days_before_year_nonneg (year : Z) : 1 <= year -> 0 <= days_before_year year.
Proof.
  intros Hy. unfold days_before_year. cbv zeta.
  assert ((year - 1) / 100 <= (year - 1) / 4)
    by (apply Z.div_le_compat_l; lia).
  assert (0 <= (year - 1) / 400) by (apply Z.div_pos; lia).
  lia.
Qed.

Lemma days_before_month_nonneg (year month : Z) :
  1 <= month <= 12 -> 0 <= days_before_month year month.
Proof.
  intros Hm. unfold days_before_month.
  assert (0 <= b2z ((2 <? month) && is_leap year))
    by (destruct (_ && _)%bool; cbn; lia).
  assert (0 <= table DAYS_BEFORE_MONTH month).
  { assert (Hc : month = 1 \/ month = 2 \/ month = 3 \/ month = 4 \/ month = 5
                 \/ month = 6 \/ month = 7 \/ month = 8 \/ month = 9
                 \/ month = 10 \/ month = 11 \/ month = 12) by lia.
    repeat (destruct Hc as [-> | Hc]; [cbv; congruence|]).
    subst. cbv. congruence. }
  lia.
Qed.

Lemma datetime_new_lower (y m d hh mm ss : Z) (r : datetime) :
  datetime_new y m d hh mm ss = Return r -> DAY <= dt_clock r.
Proof.
  unfold datetime_new, in_rangeb, MINYEAR.
  destruct (_ && _)%bool eqn:E; [|discriminate].
  intros H. inversion H; subst; clear H. cbn [dt_clock].
  repeat (apply andb_prop in E; destruct E as [E ?]).
  repeat match goal with
         | H : (_ <=? _) = true |- _ => apply Z.leb_le in H
         end.
  pose proof (days_before_year_nonneg y ltac:(lia)).
  pose proof (days_before_month_nonneg y m ltac:(lia)).
  unfold ymd2ord, DAY. lia.
Qed.

Lemma strptime_lower (s : string) (r : datetime) :
  strptime s = Return r -> DAY <= dt_clock r.
Proof.
  unfold strptime.
  destruct (format_regex s) as [|[[[[[[y m] d] hh] mm] ss] rest] l];
    [discriminate|].
  destruct (PyStr.is_empty rest); [|discriminate].
  apply datetime_new_lower.
Qed.

Lemma parses_lower (row : raw_row) (p : partition) :
  parses row = Some p -> DAY <= dt_clock (date p).
Proof.
  unfold parses.
  destruct row as [|r0 [|r1 [|r2 [|r3 more]]]]; try discriminate.
  destruct (strptime r0) eqn:E0; [|discriminate].
  destruct (PyStr.int r1); [|discriminate].
  destruct (PyStr.int r2); [|discriminate].
  destruct (PyStr.int r3); [|discriminate].
  intros H. inversion H; subst. cbn [date]. now apply (strptime_lower r0).
Qed.

Lemma kept_lower (partition_data : list raw_row) :
  Forall (fun p => DAY <= dt_clock (date p)) (kept partition_data).
Proof.
  unfold kept. apply Forall_forall. intros p Hp.
  apply in_flat_map in Hp. destruct Hp as (row & _ & Hp).
  destruct (parses row) as [q|] eqn:E; [|destruct Hp].
  destruct Hp as [<-|[]]. now apply (parses_lower row).
Qed.

(** What the constructor returns, as one equation. *)
Lemma init_returns (name : string) (partition_data : list raw_row)
  (self : PartitionChecker) (out : list warning) :
  __init__ name partition_data = Return (self, out) ->
  self = {| table_name := name;
            partitions := sort_by_date (kept partition_data) |}.
Proof.
  unfold __init__.
  destruct (init_loop_spec partition_data [] []) as (out' & Hl & _).
  rewrite Hl. cbn [bind fst snd app]. congruence.
Qed.

Lemma init_partitions_lower (name : string) (partition_data : list raw_row)
  (self : PartitionChecker) (out : list warning) :
  __init__ name partition_data = Return (self, out) ->
  Forall (fun p => DAY <= dt_clock (date p)) (partitions self).
Proof.
  intros H. apply init_returns in H. subst self. cbn [partitions].
  eapply Permutation_Forall; [|apply kept_lower].
  symmetry. apply sort_by_date_perm.
Qed.

Lemma steps_fit_before_last_day (ps : list partition) :
  Forall before_last_day ps -> steps_fit ps = true.
Proof.
  unfold steps_fit. intros HF. apply forallb_forall. intros [p q] Hpq.
  cbn [fst snd].
  assert (Hin : In p ps /\ In q ps).
  { clear HF. induction ps as [|x [|y ps] IH]; cbn in Hpq; [tauto | tauto |].
    destruct Hpq as [Hpq|Hpq].
    - inversion Hpq; subst. split; [now left | right; now left].
    - destruct (IH Hpq) as [H1 H2]. split; now right. }
  destruct Hin as [Hp Hq].
  rewrite Forall_forall in HF.
  pose proof (HF p Hp) as Bp. pose proof (HF q Hq) as Bq.
  unfold before_last_day, pair_fits, fits, toordinal, shift_days in *.
  cbn [dt_clock]. apply Z.leb_le.
  unfold stepped_between. rewrite length_map, length_seq.
  set (c := (dt_clock (date q) - dt_clock (date p) - 1) / DAY).
  replace (dt_clock (date p) + (1 + Z.of_nat (Z.to_nat c)) * DAY)
    with ((dt_clock (date p) + Z.of_nat (Z.to_nat c) * DAY) + 1 * DAY) by lia.
  rewrite Z.div_add by (unfold DAY; lia).
  assert (Hm : DAY * c <= dt_clock (date q) - dt_clock (date p) - 1)
    by (apply Z.mul_div_le; unfold DAY; lia).
  destruct (Z_le_gt_dec c 0) as [Hc|Hc].
  - replace (Z.of_nat (Z.to_nat c)) with 0 by lia.
    replace (dt_clock (date p) + 0 * DAY) with (dt_clock (date p)) by lia.
    lia.
  - rewrite Z2Nat.id by lia.
    assert ((dt_clock (date p) + c * DAY) / DAY <= dt_clock (date q) / DAY)
      by (apply Z.div_le_mono; unfold DAY in *; lia).
    lia.
Qed.

(** C1 (amended).  With fewer than two records [find_missing_dates] returns
    the empty list.  For a checker built by the constructor it returns, for
    each adjacent pair of records in date order, the days stepped from the
    earlier date that are strictly less than the later one, concatenated, in
    strictly ascending order - provided every day the loop builds is still a
    date of the calendar (none after 9999-12-31), which is so whenever all
    records are dated before 9999-12-31; otherwise it raises [OverflowError].
    Records on 2025-01-01 and 2025-01-05 give 01-02, 01-03, 01-04. *)
Theorem find_missing_dates_steps_between_neighbours :
  (forall self : PartitionChecker,
      (List.length (partitions self) < 2)%nat ->
      find_missing_dates self = Return [])
  /\ (forall (name : string) (partition_data : list raw_row)
             (self : PartitionChecker) (out : list warning),
         __init__ name partition_data = Return (self, out) ->
         find_missing_dates self
         = (if steps_fit (partitions self)
            then Return (missing_spec (partitions self))
            else Raise OverflowError)
         /\ StronglySorted dt_lt (missing_spec (partitions self))
         /\ (Forall before_last_day (partitions self) ->
             steps_fit (partitions self) = true))
  /\ (forall a b x : datetime,
         In x (stepped_between a b)
         <-> exists k : Z, 1 <= k /\ x = shift_days a k /\ ltb x b = true)
  /\ (__init__ "t" rows_2025_01 = Return (checker_2025_01, [])
      /\ find_missing_dates checker_2025_01
         = Return [midnight 2025 1 2; midnight 2025 1 3; midnight 2025 1 4]).
Proof.
  split; [|split; [|split]].
  - intros self Hlen. unfold find_missing_dates.
    apply Nat.ltb_lt in Hlen. now rewrite Hlen.
  - intros name partition_data self out Hinit. split; [|split].
    + unfold find_missing_dates.
      destruct (List.length (partitions self) <? 2)%nat eqn:E.
      * apply Nat.ltb_lt in E.
        destruct (partitions self) as [|p [|q ps]]; cbn in E |- *;
          [reflexivity | reflexivity | lia].
      * rewrite for_adjacent_exact; [reflexivity|].
        eapply Forall_impl; [|exact (init_partitions_lower _ _ _ _ Hinit)].
        cbn beta. unfold DAY. intros p Hp. lia.
    + apply missing_spec_sorted. apply init_returns in Hinit. subst self.
      apply sort_by_date_sorted.
    + apply steps_fit_before_last_day.
  - apply stepped_between_In.
  - split; reflexivity.
Qed.

Lemma find_missing_dates_steps_witness :
  find_missing_dates checker_2025_01
  = (if steps_fit (partitions checker_2025_01)
     then Return (missing_spec (partitions checker_2025_01))
     else Raise OverflowError)
  /\ StronglySorted dt_lt (missing_spec (partitions checker_2025_01))
  /\ (Forall before_last_day (partitions checker_2025_01) ->
      steps_fit (partitions checker_2025_01) = true).
Proof.
  apply (proj1 (proj2 find_missing_dates_steps_between_neighbours)
           "t"%string rows_2025_01 checker_2025_01 []).
  reflexivity.
Defined.

(** C1 as stated fails on the last day of the calendar: two records on
    9999-12-31 leave no date to step to, and the call raises instead of
    returning the empty list. *)
Lemma find_missing_dates_last_day_counterexample :
  exists (self : PartitionChecker) (out : list warning),
    __init__ "t" rows_9999_12 = Return (self, out)
    /\ List.length (partitions self) = 2%nat
    /\ find_missing_dates self = Raise OverflowError
    /\ forall l : list datetime, find_missing_dates self <> Return l.
Proof.
  eexists. eexists. split; [reflexivity|].
  split; [reflexivity|].
  split; [vm_compute; reflexivity|].
  intros l. vm_compute. discriminate.
Qed.

(** ** [create_reorganize_command] *)

Lemma string_app_assoc (a b c : string) :
  ((a ++ b) ++ c = a ++ (b ++ c))%string.
Proof. induction a as [|ch a IH]; cbn; [reflexivity | now rewrite IH]. Qed.



(** ** [generate_reorganize_commands] *)

Lemma index_hd {A : Type} (l : list A) (x : A) :
  hd_error l = Some x -> PyStr.index l 0 = Return x.
Proof. destruct l; cbn; congruence. Qed.

Lemma index_last_hd_rev {A : Type} (l : list A) (x : A) :
  hd_error (rev l) = Some x -> PyStr.index_last l = Return x.
Proof. unfold PyStr.index_last. destruct (rev l); cbn; congruence. Qed.

Lemma spans_snoc (g : list datetime) (e d : datetime) :
  spans g -> hd_error (rev g) = Some e -> sub d e = timedelta_days 1 ->
  spans (g ++ [d]).
Proof.
  intros (s & e' & Hs & He & Hle) He2 Hd. rewrite He in He2.
  inversion He2; subst e'. exists s, d. repeat split.
  - destruct g; [discriminate | exact Hs].
  - rewrite rev_app_distr. reflexivity.
  - unfold sub, timedelta_days, DAY in Hd. lia.
Qed.

Lemma spans_single (d : datetime) : spans [d].
Proof. exists d, d. cbn. repeat split. lia. Qed.

Lemma group_loop_spans (rest : list datetime) :
  forall (groups : list (list datetime)) (current : list datetime)
         (gs : list (list datetime)),
    Forall spans groups -> spans current ->
    group_loop rest groups current = Return gs -> Forall spans gs.
Proof.
  induction rest as [|d rest IH]; intros groups current gs HF Hc Hg.
  - cbn in Hg. inversion Hg; subst. apply Forall_app. split; [assumption|].
    now constructor.
  - cbn [group_loop] in Hg.
    destruct Hc as (s & e & Hs & He & Hle).
    rewrite (index_last_hd_rev _ _ He) in Hg. cbn [bind] in Hg.
    destruct (sub d e =? timedelta_days 1) eqn:E.
    + apply Z.eqb_eq in E. eapply IH; [exact HF | | exact Hg].
      apply (spans_snoc current e d); [now exists s, e | assumption..].
    + eapply IH; [| apply spans_single | exact Hg].
      apply Forall_app. split; [assumption|]. constructor; [|constructor].
      now exists s, e.
Qed.

Lemma group_consecutive_dates_spans (dates : list datetime)
  (gs : list (list datetime)) :
  group_consecutive_dates dates = Return gs -> Forall spans gs.
Proof.
  destruct dates as [|d0 rest]; cbn [group_consecutive_dates]; intros H.
  - inversion H. constructor.
  - eapply group_loop_spans; [constructor | apply spans_single | exact H].
Qed.

Lemma hd_error_rev_snoc {A : Type} (l : list A) (x : A) :
  hd_error (rev (x :: l))
  = match hd_error (rev l) with
    | Some y => Some y
    | None => Some x
    end.
Proof. cbn [rev]. destruct (rev l); reflexivity. Qed.

Lemma filter_none {A : Type} (f : A -> bool) (l : list A) :
  (forall x, In x l -> f x = false) -> filter f l = [].
Proof.
  induction l as [|x l IH]; intros H; cbn; [reflexivity|].
  rewrite (H x (or_introl eq_refl)). apply IH. intros y Hy. apply H. now right.
Qed.

(** On records sorted by date, and for a span whose first day is not after
    its last, the scan of lines 89-94 finds the last record before the span
    and the first one after it. *)
Lemma surrounding_sorted (ps : list partition) :
  forall (s e : datetime) (b : option partition),
    StronglySorted date_le ps -> dt_clock s <= dt_clock e ->
    surrounding ps s e b None
    = (match last_before ps s with
       | Some x => Some x
       | None => b
       end, first_after ps e).
Proof.
  induction ps as [|p ps IH]; intros s e b Hs Hle; [reflexivity|].
  inversion Hs as [|? ? Hs' Hp]; subst.
  cbn [surrounding]. unfold last_before, first_after. cbn [filter].
  unfold ltb, gtb in *.
  destruct (dt_clock (date p) <? dt_clock s) eqn:E1.
  - apply Z.ltb_lt in E1. rewrite IH by assumption.
    rewrite hd_error_rev_snoc.
    assert (E2 : (dt_clock e <? dt_clock (date p)) = false)
      by (apply Z.ltb_ge; lia).
    rewrite E2. unfold last_before, first_after, ltb, gtb.
    destruct (hd_error (rev (filter _ ps))); reflexivity.
  - apply Z.ltb_ge in E1.
    destruct (dt_clock e <? dt_clock (date p)) eqn:E2; cbn [is_none andb].
    + rewrite filter_none; [reflexivity|].
      intros q Hq. rewrite Forall_forall in Hp. specialize (Hp q Hq).
      unfold date_le in Hp. apply Z.ltb_ge. lia.
    + rewrite IH by assumption. reflexivity.
Qed.

Lemma commands_loop_spec {zone : LocalZone} (self : PartitionChecker)
  (groups : list (list datetime)) :
  forall commands : list string,
    StronglySorted date_le (partitions self) -> Forall spans groups ->
    commands_loop self groups commands
    = Return (commands ++ flat_map (command_for self) groups).
Proof.
  induction groups as [|g groups IH]; intros commands Hs HF.
  - cbn. now rewrite app_nil_r.
  - inversion HF as [|? ? (s & e & Hhd & Hlast & Hle) HF']; subst.
    cbn [commands_loop flat_map].
    rewrite (index_hd _ _ Hhd), (index_last_hd_rev _ _ Hlast). cbn [bind].
    rewrite surrounding_sorted by assumption.
    unfold command_for at 1. rewrite Hhd, Hlast.
    destruct (last_before (partitions self) s) as [b|];
      destruct (first_after (partitions self) e) as [a|];
      rewrite IH by assumption; cbn [app]; try reflexivity.
    now rewrite <- app_assoc.
Qed.






(** ** Facts on the string built-ins *)

Ltac each_char c :=
  destruct c as [[] [] [] [] [] [] [] []]; try reflexivity; try discriminate.

Lemma isspace_lower_char (c : ascii) :
  PyStr.isspace (PyStr.lower_char c) = PyStr.isspace c.
Proof. each_char c. Qed.



Lemma rstrip_cons_kept (ws : ascii -> bool) (c : ascii) (s : string) :
  ws c = false ->
  PyStr.rstrip_with ws (String c s) = String c (PyStr.rstrip_with ws s).
Proof.
  intros H. cbn [PyStr.rstrip_with]. rewrite H.
  now destruct (PyStr.rstrip_with ws s).
Qed.

Lemma rstrip_cons_cases (ws : ascii -> bool) (c : ascii) (s : string) :
  PyStr.rstrip_with ws (String c s) = String c (PyStr.rstrip_with ws s)
  \/ (PyStr.rstrip_with ws (String c s) = EmptyString
      /\ PyStr.rstrip_with ws s = EmptyString /\ ws c = true).
Proof.
  cbn [PyStr.rstrip_with].
  destruct (PyStr.rstrip_with ws s); [|now left].
  destruct (ws c); [right | left]; auto.
Qed.

Lemma lstrip_head (ws : ascii -> bool) (s : string) :
  match PyStr.lstrip_with ws s with
  | EmptyString => True
  | String c _ => ws c = false
  end.
Proof.
  induction s as [|c s IH]; cbn; [exact I|].
  destruct (ws c) eqn:E; [exact IH | exact E].
Qed.

(** A stripped line never starts with a space: the first test of line 230
    always succeeds. *)
Lemma strip_not_startswith_space (s : string) :
  PyStr.startswith " " (PyStr.strip s) = false.
Proof.
  unfold PyStr.strip, PyStr.startswith.
  pose proof (lstrip_head PyStr.isspace s) as H.
  destruct (PyStr.lstrip_with PyStr.isspace s) as [|c r]; [reflexivity|].
  rewrite rstrip_cons_kept by assumption. cbn [String.prefix].
  destruct (ascii_dec " " c) as [<-|]; [discriminate | reflexivity].
Qed.




Lemma lower_lstrip (s : string) :
  PyStr.lower (PyStr.lstrip_with PyStr.isspace s)
  = PyStr.lstrip_with PyStr.isspace (PyStr.lower s).
Proof.
  induction s as [|c s IH]; [reflexivity|].
  cbn [PyStr.lstrip_with PyStr.lower]. rewrite isspace_lower_char.
  destruct (PyStr.isspace c); [exact IH | reflexivity].
Qed.

Lemma lower_rstrip (s : string) :
  PyStr.lower (PyStr.rstrip_with PyStr.isspace s)
  = PyStr.rstrip_with PyStr.isspace (PyStr.lower s).
Proof.
  induction s as [|c s IH]; [reflexivity|].
  cbn [PyStr.rstrip_with PyStr.lower]. rewrite <- IH, isspace_lower_char.
  destruct (PyStr.rstrip_with PyStr.isspace s); cbn [PyStr.lower];
    [now destruct (PyStr.isspace c) | reflexivity].
Qed.

Lemma lower_strip (s : string) :
  PyStr.lower (PyStr.strip s) = PyStr.strip (PyStr.lower s).
Proof. unfold PyStr.strip. now rewrite lower_rstrip, lower_lstrip. Qed.

Lemma prefix_rstrip (n : string) :
  solid n = true ->
  forall s : string,
    String.prefix n (PyStr.rstrip_with PyStr.isspace s) = String.prefix n s.
Proof.
  induction n as [|a n IH]; intros Hn s; [now destruct s; destruct (PyStr.rstrip_with _ _)|].
  cbn [solid] in Hn. apply andb_prop in Hn. destruct Hn as [Ha Hn].
  apply negb_true_iff in Ha.
  destruct s as [|c s]; [reflexivity|].
  destruct (rstrip_cons_cases PyStr.isspace c s) as [E|(E & _ & Hc)]; rewrite E.
  - cbn [String.prefix]. destruct (ascii_dec a c); [now apply IH | reflexivity].
  - cbn [String.prefix]. destruct (ascii_dec a c); [congruence | reflexivity].
Qed.

Lemma contains_rstrip (n : string) :
  solid n = true -> n <> EmptyString ->
  forall s : string,
    PyStr.contains n (PyStr.rstrip_with PyStr.isspace s) = PyStr.contains n s.
Proof.
  intros Hn Hne. induction s as [|c s IH]; [reflexivity|].
  cbn [PyStr.contains]. rewrite <- IH.
  rewrite <- (prefix_rstrip n Hn (String c s)).
  destruct (rstrip_cons_cases PyStr.isspace c s) as [E|(E & E' & _)];
    rewrite E; [reflexivity|].
  rewrite E'. cbn [PyStr.contains]. now destruct (String.prefix n EmptyString).
Qed.

Lemma contains_lstrip (n : string) :
  solid n = true -> n <> EmptyString ->
  forall s : string,
    PyStr.contains n (PyStr.lstrip_with PyStr.isspace s) = PyStr.contains n s.
Proof.
  intros Hn Hne. induction s as [|c s IH]; [reflexivity|].
  cbn [PyStr.lstrip_with PyStr.contains].
  destruct (PyStr.isspace c) eqn:Ec; [|reflexivity].
  rewrite IH. destruct n as [|a n]; [congruence|].
  cbn [solid] in Hn. apply andb_prop in Hn. destruct Hn as [Ha _].
  apply negb_true_iff in Ha. cbn [String.prefix].
  destruct (ascii_dec a c); [congruence | reflexivity].
Qed.

Lemma contains_strip (n s : string) :
  solid n = true -> n <> EmptyString ->
  PyStr.contains n (PyStr.strip s) = PyStr.contains n s.
Proof.
  intros Hn Hne. unfold PyStr.strip.
  now rewrite contains_rstrip, contains_lstrip.
Qed.

(** The test of line 250 and the first test of line 238 agree. *)
Lemma swallowed_strip (raw : string) :
  swallowed raw
  = PyStr.contains "from_unixtime" (PyStr.lower (PyStr.strip raw)).
Proof.
  unfold swallowed. rewrite lower_strip, contains_strip;
    [reflexivity | reflexivity | discriminate].
Qed.

Lemma table_line_not_swallowed (raw : string) :
  is_table_line raw = true -> swallowed raw = false.
Proof.
  unfold is_table_line, is_header. intros H.
  apply andb_prop in H. destruct H as [_ H]. apply negb_true_iff in H.
  apply orb_false_elim in H. destruct H as [H _].
  now rewrite swallowed_strip.
Qed.



Lemma date_line_not_blank (raw : string) :
  is_date_line raw = true -> is_blank raw = false.
Proof.
  unfold is_date_line, is_blank.
  now destruct (PyStr.strip raw).
Qed.

(** ** The scan of [parse_result_file] *)

(** One pass of the loop, by the kind of the line read. *)
Lemma scan_cons (raw : string) (rest : list string) (st : parse_state) :
  scan (raw :: rest) st
  = if is_blank raw then scan rest st
    else if is_date_line raw
    then scan rest (append_data (PyStr.strip raw) st)
    else if is_header (PyStr.strip raw) then scan rest (save_previous st)
    else scan (skip_header rest)
              (open_table (PyStr.strip raw) (save_previous st)).
Proof.
  cbn [scan]. unfold is_blank, is_date_line.
  rewrite strip_not_startswith_space. cbn [negb andb].
  destruct (PyStr.is_empty (PyStr.strip raw)); [reflexivity|].
  destruct (PyStr.match_date_prefix (PyStr.strip raw)); cbn [negb];
    [reflexivity|].
  destruct (is_header (PyStr.strip raw)); [reflexivity|].
  destruct rest as [|next rest']; [reflexivity|].
  cbn [skip_header]. now destruct (PyStr.contains _ _).
Qed.

(** Induction along the scan, which reads one line, or two after a table
    name. *)
Lemma scan_induction (P : list string -> Prop) :
  P [] ->
  (forall raw rest, P rest -> P (skip_header rest) -> P (raw :: rest)) ->
  forall lines, P lines.
Proof.
  intros Hnil Hcons lines.
  enough (H : P lines /\ P (skip_header lines)) by apply H.
  induction lines as [|raw rest [IH1 IH2]]; [now split|].
  assert (Hc : P (raw :: rest)) by now apply Hcons.
  split; [assumption|]. cbn [skip_header].
  now destruct (PyStr.contains _ _).
Qed.

Lemma skip_header_app (p : list string) (raw : string) (rest : list string) :
  swallowed raw = false ->
  skip_header (p ++ raw :: rest) = skip_header p ++ raw :: rest.
Proof.
  intros H. destruct p as [|y p]; cbn [skip_header app].
  - unfold swallowed in H. now rewrite H.
  - now destruct (PyStr.contains _ _).
Qed.

(** Every line that does not contain ["from_unixtime"] is read by the loop:
    the scan of the lines before it ends on it. *)
Lemma scan_app (raw : string) (rest : list string) :
  swallowed raw = false ->
  forall (pre : list string) (st : parse_state),
    scan (pre ++ raw :: rest) st = scan (raw :: rest) (scan pre st).
Proof.
  intros Hsw pre. induction pre as [|x p IH1 IH2] using scan_induction;
    intros st; [reflexivity|].
  change ((x :: p) ++ raw :: rest) with (x :: (p ++ raw :: rest)).
  rewrite !(scan_cons x), skip_header_app by assumption.
  destruct (is_blank x); [apply IH1|].
  destruct (is_date_line x); [apply IH1|].
  destruct (is_header (PyStr.strip x)); [apply IH1 | apply IH2].
Qed.

Lemma add_rows_nil (st : parse_state) : add_rows [] st = st.
Proof. destruct st. unfold add_rows. cbn. now rewrite app_nil_r. Qed.

Lemma add_rows_add_rows (r1 r2 : list raw_row) (st : parse_state) :
  add_rows r2 (add_rows r1 st) = add_rows (r1 ++ r2) st.
Proof. unfold add_rows. cbn. now rewrite app_assoc. Qed.

Lemma append_data_add_rows (line : string) (st : parse_state) :
  append_data line st
  = add_rows (match data_tuple line with
              | Some t => [t]
              | None => []
              end) st.
Proof.
  unfold append_data. destruct (data_tuple line);
    [reflexivity | now rewrite add_rows_nil].
Qed.

(** A run of data lines and blank lines only adds its tuples to the buffer. *)
Lemma scan_section (sec post : list string) :
  data_section sec ->
  forall st : parse_state,
    scan (sec ++ post) st = scan post (add_rows (data_rows sec) st).
Proof.
  unfold data_section. induction 1 as [|raw sec Hraw _ IH]; intros st.
  - cbn. now rewrite add_rows_nil.
  - change ((raw :: sec) ++ post) with (raw :: (sec ++ post)).
    rewrite scan_cons. unfold data_rows. cbn [flat_map].
    destruct Hraw as [Hb|Hd].
    + rewrite Hb.
      assert (Hd : is_date_line raw = false).
      { destruct (is_date_line raw) eqn:E; [|reflexivity].
        apply date_line_not_blank in E. congruence. }
      rewrite Hd. apply IH.
    + rewrite (date_line_not_blank _ Hd), Hd, IH, append_data_add_rows.
      now rewrite add_rows_add_rows.
Qed.

(** *** The dictionary *)

Lemma dict_get_set_same {V : Type} (k : string) (v : V) (d : dict V) :
  dict_get k (dict_set k v d) = Some v.
Proof.
  induction d as [|[k' v'] d IH]; cbn.
  - now rewrite String.eqb_refl.
  - destruct (String.eqb k' k) eqn:E; cbn.
    + now rewrite String.eqb_refl.
    + now rewrite E.
Qed.

Lemma dict_get_set_other {V : Type} (k k0 : string) (v : V) (d : dict V) :
  k <> k0 -> dict_get k0 (dict_set k v d) = dict_get k0 d.
Proof.
  intros Hne. induction d as [|[k' v'] d IH]; cbn.
  - apply String.eqb_neq in Hne. now rewrite Hne.
  - destruct (String.eqb k' k) eqn:E; cbn.
    + apply String.eqb_eq in E. subst k'.
      apply String.eqb_neq in Hne. now rewrite Hne.
    + destruct (String.eqb k' k0); [reflexivity | exact IH].
Qed.

Lemma dict_set_Forall {V : Type} (P : string * V -> Prop) (k : string) (v : V)
  (d : dict V) :
  P (k, v) -> Forall P d -> Forall P (dict_set k v d).
Proof.
  intros Hk. induction 1 as [|[k' v'] d Hx Hd IH]; cbn.
  - now constructor.
  - destruct (String.eqb k' k); constructor; assumption.
Qed.

Lemma dict_get_In {V : Type} (k : string) (v : V) (d : dict V) :
  dict_get k d = Some v -> In (k, v) d.
Proof.
  induction d as [|[k' v'] d IH]; cbn; [discriminate|].
  destruct (String.eqb k' k) eqn:E.
  - apply String.eqb_eq in E. intros H. inversion H; subst. now left.
  - intros H. right. now apply IH.
Qed.

(** *** What the scan preserves *)

Lemma save_previous_table (st : parse_state) :
  current_table (save_previous st) = current_table st.
Proof.
  unfold save_previous. destruct (current_table st) eqn:E; [|assumption].
  now destruct (table_and_data st).
Qed.

Lemma save_previous_other (st : parse_state) (m n : string) :
  current_table st = Some m -> m <> n ->
  dict_get n (tables_data (save_previous st)) = dict_get n (tables_data st).
Proof.
  intros Hm Hne. unfold save_previous. rewrite Hm.
  destruct (table_and_data st); [|reflexivity].
  cbn [tables_data]. now apply dict_get_set_other.
Qed.

(** Once a table is open, and its name is not empty, saving leaves the
    buffer empty. *)
Lemma save_previous_data (st : parse_state) (t : string) :
  current_table st = Some t -> PyStr.is_empty t = false ->
  current_data (save_previous st) = [].
Proof.
  intros Ht Hne. unfold save_previous, table_and_data. rewrite Ht, Hne.
  cbn [negb andb]. destruct (current_data st) eqn:E; cbn; [assumption|].
  reflexivity.
Qed.

Lemma save_previous_values_ok (st : parse_state) :
  values_ok st -> values_ok (save_previous st).
Proof.
  unfold values_ok, save_previous, table_and_data. intros H.
  destruct (current_table st) as [t|]; [|assumption].
  destruct (current_data st) as [|r rs] eqn:E.
  - rewrite andb_false_r. assumption.
  - destruct (PyStr.is_empty t); cbn [negb andb]; [assumption|].
    cbn [tables_data]. apply dict_set_Forall; [cbn; congruence | assumption].
Qed.

Lemma append_data_fields (line : string) (st : parse_state) :
  tables_data (append_data line st) = tables_data st
  /\ current_table (append_data line st) = current_table st.
Proof. unfold append_data. now destruct (data_tuple line). Qed.

Lemma scan_preserves (lines : list string) :
  forall st : parse_state,
    (name_ok st -> name_ok (scan lines st))
    /\ (values_ok st -> values_ok (scan lines st))
    /\ (current_table st <> None -> current_table (scan lines st) <> None).
Proof.
  induction lines as [|raw rest IH1 IH2] using scan_induction; intros st;
    [tauto|].
  rewrite scan_cons.
  destruct (is_blank raw) eqn:Eb; [apply IH1|].
  destruct (is_date_line raw).
  { destruct (IH1 (append_data (PyStr.strip raw) st)) as (H1 & H2 & H3).
    destruct (append_data_fields (PyStr.strip raw) st) as [Ht Hc].
    unfold name_ok, values_ok in *. rewrite Ht, Hc in *. tauto. }
  destruct (is_header (PyStr.strip raw)).
  { destruct (IH1 (save_previous st)) as (H1 & H2 & H3).
    unfold name_ok in *. rewrite save_previous_table in *.
    repeat split; [assumption | | assumption].
    intros Hv. apply H2. now apply save_previous_values_ok. }
  destruct (IH2 (open_table (PyStr.strip raw) (save_previous st)))
    as (H1 & H2 & H3).
  repeat split.
  - intros _. apply H1. unfold name_ok. cbn [open_table current_table].
    intros t Ht. inversion Ht; subst. exact Eb.
  - intros Hv. apply H2. unfold values_ok. cbn [open_table tables_data].
    now apply save_previous_values_ok.
  - intros _. apply H3. cbn. discriminate.
Qed.

Lemma initial_state_ok : name_ok initial_state /\ values_ok initial_state.
Proof. split; [intros t Ht; discriminate | constructor]. Qed.

Lemma skip_header_Forall (P : string -> Prop) (lines : list string) :
  Forall P lines -> Forall P (skip_header lines).
Proof.
  intros H. destruct lines as [|x l]; [assumption|]. cbn [skip_header].
  destruct (PyStr.contains _ _); [now inversion H | assumption].
Qed.

(** While the open table is not [n] and no table-name line names [n], the
    entry of [n] stays as it is, up to and including the last save. *)
Lemma other_tables_leave_entry (n : string) (lines : list string) :
  Forall (fun raw => is_table_line raw = true -> PyStr.strip raw <> n) lines ->
  forall (st : parse_state) (m : string),
    current_table st = Some m -> m <> n ->
    dict_get n (tables_data (save_previous (scan lines st)))
    = dict_get n (tables_data st).
Proof.
  induction lines as [|raw rest IH1 IH2] using scan_induction;
    intros HF st m Hm Hne.
  - cbn [scan]. now apply (save_previous_other st m).
  - pose proof HF as HF0. inversion HF as [|? ? Hraw HF']; subst.
    rewrite scan_cons.
    destruct (is_blank raw) eqn:Eb; [now apply (IH1 HF' st m)|].
    destruct (is_date_line raw) eqn:Ed.
    { destruct (append_data_fields (PyStr.strip raw) st) as [Ht Hc].
      rewrite (IH1 HF' _ m); [now rewrite Ht | now rewrite Hc | assumption]. }
    destruct (is_header (PyStr.strip raw)) eqn:Eh.
    { rewrite (IH1 HF' _ m);
        [now apply (save_previous_other st m)
        | now rewrite save_previous_table | assumption]. }
    rewrite (IH2 (skip_header_Forall _ _ HF') _ (PyStr.strip raw)).
    + cbn [open_table tables_data]. now apply (save_previous_other st m).
    + reflexivity.
    + apply Hraw. unfold is_table_line. now rewrite Eb, Ed, Eh.
Qed.

Lemma table_line_facts (raw : string) :
  is_table_line raw = true ->
  is_blank raw = false /\ is_date_line raw = false
  /\ is_header (PyStr.strip raw) = false.
Proof.
  unfold is_table_line. intros H.
  apply andb_prop in H. destruct H as [H H3].
  apply andb_prop in H. destruct H as [H1 H2].
  apply negb_true_iff in H1, H2, H3. auto.
Qed.

Lemma scan_table_line (raw : string) (rest : list string) (st : parse_state) :
  is_table_line raw = true ->
  scan (raw :: rest) st
  = scan (skip_header rest) (open_table (PyStr.strip raw) (save_previous st)).
Proof.
  intros H. apply table_line_facts in H. destruct H as (H1 & H2 & H3).
  now rewrite scan_cons, H1, H2, H3.
Qed.

(** The entry of a table name after its last table-name line, when only data
    lines and blank lines follow up to the next table name or the end. *)
Lemma section_binding (pre : list string) (tn : string)
  (after sec post : list string) :
  is_table_line tn = true ->
  skip_header after = sec ++ post ->
  data_section sec ->
  starts_other_table (PyStr.strip tn) post ->
  dict_get (PyStr.strip tn) (parse_lines (pre ++ tn :: after))
  = match pending pre ++ data_rows sec with
    | [] => dict_get (PyStr.strip tn) (parse_lines pre)
    | r :: rs => Some (r :: rs)
    end.
Proof.
  intros Htn Hafter Hsec [Hpost HF]. unfold parse_lines, pending.
  rewrite scan_app by now apply table_line_not_swallowed.
  rewrite scan_table_line by assumption.
  rewrite Hafter, scan_section by assumption.
  set (st0 := scan pre initial_state).
  set (st2 := add_rows (data_rows sec)
                (open_table (PyStr.strip tn) (save_previous st0))).
  assert (Hsave :
    dict_get (PyStr.strip tn) (tables_data (save_previous st2))
    = match current_data (save_previous st0) ++ data_rows sec with
      | [] => dict_get (PyStr.strip tn) (tables_data (save_previous st0))
      | r :: rs => Some (r :: rs)
      end).
  { destruct (table_line_facts tn Htn) as (Hb & _ & _). unfold is_blank in Hb.
    unfold save_previous at 1, table_and_data. subst st2.
    cbn [add_rows open_table current_table current_data tables_data].
    rewrite Hb. cbn [negb andb].
    destruct (current_data (save_previous st0) ++ data_rows sec);
      cbn [is_nil negb tables_data]; [reflexivity|].
    apply dict_get_set_same. }
  destruct Hpost as [->|(m & post' & -> & Hm)].
  - cbn [scan]. exact Hsave.
  - rewrite scan_table_line by assumption.
    inversion HF as [|? ? Hm' HF']; subst.
    rewrite (other_tables_leave_entry _ _ (skip_header_Forall _ _ HF') _
               (PyStr.strip m)); [exact Hsave | reflexivity | now apply Hm'].
Qed.

Lemma scan_no_dates (lines : list string) :
  Forall (fun raw => is_date_line raw = false) lines ->
  forall st : parse_state,
    current_data st = [] ->
    current_data (scan lines st) = []
    /\ tables_data (scan lines st) = tables_data st.
Proof.
  induction lines as [|raw rest IH1 IH2] using scan_induction;
    intros HF st Hd; [now split|].
  inversion HF as [|? ? Hraw HF']; subst.
  assert (Hsave : save_previous st = st).
  { unfold save_previous, table_and_data. rewrite Hd.
    destruct (current_table st); [|reflexivity].
    now rewrite andb_false_r. }
  rewrite scan_cons, Hraw, Hsave.
  destruct (is_blank raw); [now apply IH1|].
  destruct (is_header (PyStr.strip raw)); [now apply IH1|].
  exact (IH2 (skip_header_Forall _ _ HF')
             (open_table (PyStr.strip raw) st) Hd).
Qed.

(** Nothing is pending once a table name has been read, nor before any data
    line. *)
Lemma pending_nil (pre : list string) :
  (exists pre1 t0 pre2, pre = pre1 ++ t0 :: pre2 /\ is_table_line t0 = true)
  \/ Forall (fun raw => is_date_line raw = false) pre ->
  pending pre = [].
Proof.
  unfold pending. intros [(pre1 & t0 & pre2 & -> & Ht0)|HF].
  - destruct initial_state_ok as [Hn _].
    destruct (scan_preserves (pre1 ++ t0 :: pre2) initial_state)
      as (Hname & _ & _). specialize (Hname Hn).
    assert (Hopen : current_table (scan (pre1 ++ t0 :: pre2) initial_state)
                    <> None).
    { rewrite scan_app by now apply table_line_not_swallowed.
      rewrite scan_table_line by assumption.
      apply scan_preserves. cbn. discriminate. }
    destruct (current_table (scan (pre1 ++ t0 :: pre2) initial_state))
      as [t|] eqn:Et; [|congruence].
    apply (save_previous_data _ t Et). now apply Hname.
  - destruct (scan_no_dates pre HF initial_state eq_refl) as [Hd _].
    unfold save_previous, table_and_data. rewrite Hd.
    destruct (current_table _); [|assumption].
    now rewrite andb_false_r.
Qed.








Lemma header_line_facts (raw : string) :
  is_header_line raw = true ->
  is_blank raw = false /\ is_date_line raw = false
  /\ is_header (PyStr.strip raw) = true.
Proof.
  unfold is_header_line. intros H.
  apply andb_prop in H. destruct H as [H H3].
  apply andb_prop in H. destruct H as [H1 H2].
  apply negb_true_iff in H1, H2. auto.
Qed.



(** C9 (amended).  Take the last table-name line of a name [n], with some
    table-name line before it, and let only data lines and blank lines follow
    it (after the header that the scan skips) up to the next table name or
    the end of the file.  When these lines yield at least one tuple, the
    mapping binds [n] to exactly these tuples: what earlier occurrences
    accumulated is replaced, not merged.  When they yield none, the mapping
    binds [n] as the lines before this occurrence did: the tuples of an
    earlier occurrence stay. *)
Theorem repeated_table_name_bound_to_last_rows
  (pre1 : list string) (t0 : string) (pre2 : list string) (tn : string)
  (after sec post : list string) :
  is_table_line t0 = true ->
  is_table_line tn = true ->
  skip_header after = sec ++ post ->
  data_section sec ->
  starts_other_table (PyStr.strip tn) post ->
  dict_get (PyStr.strip tn)
           (parse_lines ((pre1 ++ t0 :: pre2) ++ tn :: after))
  = match data_rows sec with
    | [] => dict_get (PyStr.strip tn) (parse_lines (pre1 ++ t0 :: pre2))
    | r :: rs => Some (r :: rs)
    end.
Proof.
  intros Ht0 Htn Hafter Hsec Hpost.
  rewrite (section_binding _ tn after sec post) by assumption.
  rewrite pending_nil; [reflexivity|].
  left. now exists pre1, t0, pre2.
Qed.

Lemma repeated_table_name_witness :
  dict_get (PyStr.strip "t")
    (parse_lines (([] ++ "t"%string :: [header_line; row_a])
                  ++ "t"%string :: [header_line; row_b; "u"%string; row_a]))
  = match data_rows [row_b] with
    | [] => dict_get (PyStr.strip "t")
              (parse_lines ([] ++ "t"%string :: [header_line; row_a]))
    | r :: rs => Some (r :: rs)
    end.
Proof.
  apply (repeated_table_name_bound_to_last_rows
           [] "t"%string [header_line; row_a] "t"%string
           [header_line; row_b; "u"%string; row_a] [row_b]
           ["u"%string; row_a]).
  - reflexivity.
  - reflexivity.
  - reflexivity.
  - constructor; [right; reflexivity | constructor].
  - split.
    + right. exists "u"%string, [row_a]. split; reflexivity.
    + constructor; [discriminate|].
      constructor; [discriminate | constructor].
Defined.

(** C9 as stated fails when the last occurrence of the name accumulates no
    tuple: the tuples of the earlier occurrence are kept. *)
Lemma repeated_table_name_counterexample :
  is_table_line "t" = true
  /\ data_rows [] = []
  /\ parse_lines ["t"%string; row_a; "t"%string] = [("t"%string, [tuple_a])].
Proof. repeat split. Qed.




(** ** [main] *)

Lemma find_missing_dates_exact (self : PartitionChecker) :
  Forall (fun p => DAY <= dt_clock (date p)) (partitions self) ->
  find_missing_dates self
  = if steps_fit (partitions self)
    then Return (missing_spec (partitions self))
    else Raise OverflowError.
Proof.
  intros HF. unfold find_missing_dates.
  destruct (List.length (partitions self) <? 2)%nat eqn:E.
  - apply Nat.ltb_lt in E.
    destruct (partitions self) as [|p [|q ps]]; cbn in E |- *;
      [reflexivity | reflexivity | lia].
  - rewrite for_adjacent_exact; [reflexivity|].
    eapply Forall_impl; [|exact HF].
    cbn beta. unfold DAY. intros p Hp. lia.
Qed.

Lemma generate_reorganize_commands_returns {zone : LocalZone}
  (self : PartitionChecker) (missing_dates : list datetime) :
  StronglySorted date_le (partitions self) ->
  exists groups : list (list datetime),
    group_consecutive_dates missing_dates = Return groups
    /\ generate_reorganize_commands self missing_dates
       = Return (flat_map (command_for self) groups).
Proof.
  intros Hsorted.
  destruct (group_consecutive_dates_returns missing_dates)
    as (groups & Hg & _).
  pose proof (group_consecutive_dates_spans _ _ Hg) as Hsp.
  exists groups. split; [assumption|].
  unfold generate_reorganize_commands. rewrite Hg. cbn [bind].
  rewrite commands_loop_spec by assumption. cbn [app].
  destruct missing_dates; [|reflexivity].
  cbn in Hg. inversion Hg; subst. reflexivity.
Qed.

Lemma init_equation (name : string) (partition_data : list raw_row) :
  exists out : list warning,
    __init__ name partition_data
    = Return ({| table_name := name;
                 partitions := sort_by_date (kept partition_data) |}, out).
Proof.
  destruct (init_loop_spec partition_data [] []) as (out & Hl & _).
  exists out. unfold __init__. now rewrite Hl.
Qed.

Lemma sorted_kept_lower (partition_data : list raw_row) :
  Forall (fun p => DAY <= dt_clock (date p))
         (sort_by_date (kept partition_data)).
Proof.
  eapply Permutation_Forall; [|apply kept_lower].
  symmetry. apply sort_by_date_perm.
Qed.






(** * Further properties *)

(** ** What [find_missing_dates] reports *)

Lemma stepped_between_bounds (a b x : datetime) :
  In x (stepped_between a b) -> dt_clock a < dt_clock x < dt_clock b.
Proof.
  intros H. apply stepped_between_In in H. destruct H as (k & Hk & -> & Hlt).
  unfold ltb in Hlt. apply Z.ltb_lt in Hlt. split; [|assumption].
  unfold shift_days, DAY. cbn [dt_clock]. lia.
Qed.

Lemma missing_spec_between (ps : list partition) :
  StronglySorted date_le ps ->
  forall x : datetime,
    In x (missing_spec ps) ->
    (forall p, In p ps -> dt_clock (date p) <> dt_clock x)
    /\ exists p q, In (p, q) (adjacent_pairs ps)
                   /\ dt_clock (date p) < dt_clock x < dt_clock (date q).
Proof.
  induction ps as [|p ps IH]; intros Hs x Hx; [destruct Hx|].
  destruct ps as [|q ps]; [destruct Hx|].
  rewrite missing_spec_step in Hx.
  inversion Hs as [|? ? Hs' Hp]; subst.
  inversion Hs' as [|? ? _ Hq]; subst.
  rewrite Forall_forall in Hp, Hq.
  assert (Hpq : dt_clock (date p) <= dt_clock (date q))
    by (apply (Hp q); now left).
  apply in_app_or in Hx. destruct Hx as [Hx|Hx].
  - apply stepped_between_bounds in Hx. split.
    + intros r [<-|[<-|Hr]]; [lia | lia |].
      specialize (Hq r Hr). unfold date_le in Hq. lia.
    + exists p, q. split; [now left | assumption].
  - destruct (IH Hs' x Hx) as [Hne (p' & q' & Hin & Hb)]. split.
    + intros r [<-|Hr]; [|now apply Hne].
      pose proof (missing_spec_above ps q x Hs' Hx) as Hqx.
      unfold dt_lt, ltb in Hqx. apply Z.ltb_lt in Hqx. lia.
    + exists p', q'. split; [now right | assumption].
Qed.

(** X1.  A date that [find_missing_dates] returns is never the date of a
    record: it lies strictly between two neighbouring records. *)
Theorem find_missing_dates_reports_no_record
  (name : string) (partition_data : list raw_row) (self : PartitionChecker)
  (out : list warning) (missing : list datetime) (x : datetime) :
  __init__ name partition_data = Return (self, out) ->
  find_missing_dates self = Return missing ->
  In x missing ->
  (forall p, In p (partitions self) -> date p <> x)
  /\ exists p q, In (p, q) (adjacent_pairs (partitions self))
                 /\ ltb (date p) x = true /\ ltb x (date q) = true.
Proof.
  intros Hinit Hfind Hx.
  rewrite find_missing_dates_exact in Hfind
    by exact (init_partitions_lower _ _ _ _ Hinit).
  destruct (steps_fit (partitions self)); [|discriminate].
  inversion Hfind; subst missing; clear Hfind.
  assert (Hs : StronglySorted date_le (partitions self)).
  { apply init_returns in Hinit. subst self. apply sort_by_date_sorted. }
  destruct (missing_spec_between _ Hs x Hx) as [Hne (p & q & Hin & Hb)].
  split.
  - intros r Hr E. apply (Hne r Hr). now rewrite E.
  - exists p, q. split; [assumption|]. unfold ltb.
    split; apply Z.ltb_lt; lia.
Qed.

Lemma find_missing_dates_reports_no_record_witness :
  In (midnight 2025 1 3) [midnight 2025 1 3; midnight 2025 1 4]
  /\ forall p, In p (partitions checker_2025_gap) ->
               date p <> midnight 2025 1 3.
Proof.
  split; [now left|].
  apply (find_missing_dates_reports_no_record "t"%string rows_2025_gap
           checker_2025_gap [] [midnight 2025 1 3; midnight 2025 1 4]
           (midnight 2025 1 3)); [reflexivity | reflexivity | now left].
Defined.

Lemma stepped_between_nil (a b : datetime) :
  stepped_between a b = [] <-> dt_clock b - dt_clock a <= DAY.
Proof.
  unfold stepped_between. split.
  - intros H. apply (f_equal (@List.length _)) in H.
    rewrite length_map, length_seq in H. cbn [List.length] in H.
    destruct (Z_le_gt_dec (dt_clock b - dt_clock a) DAY) as [|Hgt];
      [assumption | exfalso].
    assert (1 <= (dt_clock b - dt_clock a - 1) / DAY)
      by (apply Z.div_le_lower_bound; unfold DAY in *; lia).
    lia.
  - intros H.
    assert ((dt_clock b - dt_clock a - 1) / DAY <= 0).
    { apply Z.lt_succ_r. apply Z.div_lt_upper_bound; unfold DAY in *; lia. }
    replace (Z.to_nat ((dt_clock b - dt_clock a - 1) / DAY)) with 0%nat by lia.
    reflexivity.
Qed.

Lemma missing_spec_nil (ps : list partition) :
  missing_spec ps = []
  <-> forall p q, In (p, q) (adjacent_pairs ps) ->
                  dt_clock (date q) - dt_clock (date p) <= DAY.
Proof.
  unfold missing_spec. split.
  - intros H p q Hin.
    apply stepped_between_nil.
    destruct (stepped_between (date p) (date q)) as [|x l] eqn:E;
      [reflexivity | exfalso].
    assert (Hx : In x (flat_map
                         (fun pq => stepped_between (date (fst pq))
                                                    (date (snd pq)))
                         (adjacent_pairs ps))).
    { apply in_flat_map. exists (p, q). split; [assumption|].
      cbn [fst snd]. rewrite E. now left. }
    rewrite H in Hx. destruct Hx.
  - intros H. induction (adjacent_pairs ps) as [|[p q] l IH]; [reflexivity|].
    cbn [flat_map fst snd].
    rewrite (proj2 (stepped_between_nil (date p) (date q)))
      by (apply H; now left).
    apply IH. intros p' q' Hin. apply H. now right.
Qed.

(** X2.  [find_missing_dates] returns the empty list exactly when the day
    stepping stays inside the calendar and no record is more than one day
    after the record before it. *)
Theorem find_missing_dates_empty_iff_consecutive
  (name : string) (partition_data : list raw_row) (self : PartitionChecker)
  (out : list warning) :
  __init__ name partition_data = Return (self, out) ->
  (find_missing_dates self = Return []
   <-> steps_fit (partitions self) = true
       /\ forall p q, In (p, q) (adjacent_pairs (partitions self)) ->
                      sub (date q) (date p) <= timedelta_days 1).
Proof.
  intros Hinit.
  rewrite find_missing_dates_exact
    by exact (init_partitions_lower _ _ _ _ Hinit).
  unfold sub, timedelta_days. rewrite Z.mul_1_l.
  rewrite <- missing_spec_nil.
  destruct (steps_fit (partitions self)); split.
  - intros H. inversion H. now split.
  - intros [_ H]. now rewrite H.
  - discriminate.
  - intros [H _]. discriminate.
Qed.

Lemma find_missing_dates_empty_witness :
  find_missing_dates checker_2025_gap = Return []
  <-> steps_fit (partitions checker_2025_gap) = true
      /\ forall p q, In (p, q) (adjacent_pairs (partitions checker_2025_gap)) ->
                     sub (date q) (date p) <= timedelta_days 1.
Proof.
  apply (find_missing_dates_empty_iff_consecutive "t"%string rows_2025_gap
           checker_2025_gap []).
  reflexivity.
Defined.

(** ** From the missing dates to the commands *)

Lemma index_last_last (d : datetime) (r : list datetime) :
  PyStr.index_last (d :: r) = Return (List.last r d).
Proof.
  assert (Hne : d :: r <> []) by discriminate.
  rewrite (app_removelast_last d Hne) at 1. rewrite index_last_snoc.
  destruct r; reflexivity.
Qed.

Lemma last_cons_default (r : list datetime) (x d : datetime) :
  List.last (x :: r) d = List.last r x.
Proof.
  revert x d. induction r as [|y r IH]; intros x d; [reflexivity|].
  change (List.last (x :: y :: r) d) with (List.last (y :: r) d).
  now rewrite !IH.
Qed.

Lemma last_app_cons (l r : list datetime) (x d : datetime) :
  List.last (l ++ x :: r) d = List.last r x.
Proof.
  revert d. induction l as [|y l IH]; intros d; cbn [app].
  - apply last_cons_default.
  - rewrite last_cons_default. apply IH.
Qed.

(** A run of consecutive days extends the group being built. *)
Lemma group_loop_chain (r : list datetime) :
  forall (rest : list datetime) (groups : list (list datetime))
         (cur : list datetime) (d : datetime),
    chain_from (List.last cur d) r ->
    group_loop (r ++ rest) groups (d :: cur)
    = group_loop rest groups ((d :: cur) ++ r).
Proof.
  induction r as [|x r IH]; intros rest groups cur d Hc.
  - cbn [app]. now rewrite app_nil_r.
  - destruct Hc as [Hx Hr]. cbn [app group_loop].
    rewrite index_last_last. cbn [bind]. rewrite Hx, Z.eqb_refl.
    change ((d :: cur) ++ [x]) with (d :: (cur ++ [x])).
    rewrite IH.
    + cbn [app]. now rewrite <- app_assoc.
    + now rewrite last_app_cons.
Qed.

(** Runs that do not continue one another come out as the groups. *)
Lemma group_loop_runs (runs : list (list datetime)) :
  forall (groups : list (list datetime)) (cur : list datetime) (d : datetime),
    runs_after (List.last cur d) runs ->
    group_loop (List.concat runs) groups (d :: cur)
    = Return (groups ++ [d :: cur] ++ runs).
Proof.
  induction runs as [|g runs IH]; intros groups cur d H; [reflexivity|].
  destruct g as [|x r]; [destruct H|]. destruct H as (Hb & Hc & Hr).
  cbn [List.concat app group_loop]. rewrite index_last_last. cbn [bind].
  apply Z.eqb_neq in Hb. rewrite Hb.
  rewrite (group_loop_chain r _ _ [] x) by exact Hc.
  cbn [app]. rewrite IH by exact Hr.
  now rewrite <- app_assoc.
Qed.

Lemma stepped_chain (a : datetime) (n : nat) :
  forall s : nat,
    chain_from (shift_days a (Z.of_nat s))
      (map (fun k => shift_days a (Z.of_nat k)) (seq (S s) n)).
Proof.
  induction n as [|n IH]; intros s; [exact I|].
  cbn [seq map chain_from]. split; [|apply IH].
  unfold sub, timedelta_days, shift_days. cbn [dt_clock]. lia.
Qed.

Lemma last_In_cons (r : list datetime) (d : datetime) :
  In (List.last r d) (d :: r).
Proof.
  revert d. induction r as [|x r IH]; intros d; [now left|].
  right. rewrite last_cons_default. apply IH.
Qed.

Lemma gaps_step (p q : partition) (ps : list partition) :
  gaps (p :: q :: ps)
  = (if has_gap (p, q) then [gap_of (p, q)] else []) ++ gaps (q :: ps).
Proof.
  unfold gaps. cbn [adjacent_pairs filter].
  now destruct (has_gap (p, q)).
Qed.

Lemma gaps_runs (ps : list partition) :
  forall (p : partition) (prev : datetime),
    StronglySorted date_le (p :: ps) ->
    dt_clock prev < dt_clock (date p) ->
    runs_after prev (gaps (p :: ps)).
Proof.
  induction ps as [|q ps IH]; intros p prev Hs Hprev; [exact I|].
  inversion Hs as [|? ? Hs' Hp]; subst.
  assert (Hpq : dt_clock (date p) <= dt_clock (date q)).
  { rewrite Forall_forall in Hp. apply (Hp q). now left. }
  rewrite gaps_step. unfold has_gap, gap_of. cbn [fst snd].
  destruct (stepped_between (date p) (date q)) as [|d r] eqn:E;
    cbn [is_nil negb app].
  - apply IH; [assumption | lia].
  - cbn [runs_after].
    assert (Hd : d = shift_days (date p) (Z.of_nat 1)
                 /\ chain_from d r).
    { unfold stepped_between in E.
      destruct (Z.to_nat ((dt_clock (date q) - dt_clock (date p) - 1) / DAY))
        as [|n]; [discriminate|].
      cbn [seq map] in E. inversion E; subst. split; [reflexivity|].
      exact (stepped_chain (date p) n 1). }
    destruct Hd as [Hd Hc]. split; [|split; [assumption|]].
    + subst d. unfold sub, timedelta_days, shift_days, DAY.
      cbn [dt_clock Z.of_nat]. lia.
    + apply IH; [assumption|].
      assert (Hl : In (List.last r d) (stepped_between (date p) (date q)))
        by (rewrite E; apply last_In_cons).
      apply stepped_between_bounds in Hl. lia.
Qed.

Lemma concat_gaps (ps : list partition) :
  List.concat (gaps ps) = missing_spec ps.
Proof.
  unfold gaps, missing_spec.
  induction (adjacent_pairs ps) as [|pq l IH]; [reflexivity|].
  cbn [filter flat_map]. rewrite <- IH.
  unfold has_gap at 1. fold (gap_of pq).
  destruct (gap_of pq) eqn:E; cbn [is_nil negb map List.concat app].
  - reflexivity.
  - now rewrite E.
Qed.

(** The groups of the missing dates are the gaps. *)
Lemma group_missing_spec (ps : list partition) :
  StronglySorted date_le ps ->
  group_consecutive_dates (missing_spec ps) = Return (gaps ps).
Proof.
  intros Hs. rewrite <- concat_gaps.
  destruct ps as [|p ps]; [reflexivity|].
  pose proof (gaps_runs ps p (Datetime (dt_clock (date p) - 1)) Hs) as H.
  cbn [dt_clock] in H. specialize (H ltac:(lia)).
  destruct (gaps (p :: ps)) as [|g runs]; [reflexivity|].
  destruct g as [|d r]; [destruct H|]. destruct H as (_ & Hc & Hr).
  cbn [List.concat app group_consecutive_dates].
  rewrite (group_loop_chain r _ _ [] d) by exact Hc.
  cbn [app]. rewrite (group_loop_runs runs [] r d) by exact Hr.
  reflexivity.
Qed.

(** X3.  Grouping what [find_missing_dates] returns gives one group per pair
    of neighbouring records that are more than a day apart, in order: the
    days missing between the two. *)
Theorem missing_dates_group_by_gap
  (name : string) (partition_data : list raw_row) (self : PartitionChecker)
  (out : list warning) (missing : list datetime) :
  __init__ name partition_data = Return (self, out) ->
  find_missing_dates self = Return missing ->
  group_consecutive_dates missing
  = Return (map gap_of (filter has_gap (adjacent_pairs (partitions self))))
  /\ forall pq, has_gap pq = true
                <-> timedelta_days 1 < sub (date (snd pq)) (date (fst pq)).
Proof.
  intros Hinit Hfind. split.
  - rewrite find_missing_dates_exact in Hfind
      by exact (init_partitions_lower _ _ _ _ Hinit).
    destruct (steps_fit (partitions self)); [|discriminate].
    inversion Hfind; subst missing.
    apply group_missing_spec.
    apply init_returns in Hinit. subst self. apply sort_by_date_sorted.
  - intros pq. unfold has_gap, gap_of, sub, timedelta_days.
    rewrite Z.mul_1_l.
    pose proof (stepped_between_nil (date (fst pq)) (date (snd pq))) as H.
    destruct (stepped_between (date (fst pq)) (date (snd pq)));
      cbn [is_nil negb]; split; intros H0.
    + discriminate.
    + exfalso. assert (E : @nil datetime = []) by reflexivity.
      apply H in E. lia.
    + destruct (Z_lt_ge_dec DAY
                  (dt_clock (date (snd pq)) - dt_clock (date (fst pq))))
        as [|Hge]; [assumption|].
      assert (Hle : dt_clock (date (snd pq)) - dt_clock (date (fst pq)) <= DAY)
        by lia.
      apply H in Hle. discriminate.
    + reflexivity.
Qed.

Lemma missing_dates_group_by_gap_witness :
  group_consecutive_dates [midnight 2025 1 3; midnight 2025 1 4]
  = Return (map gap_of
              (filter has_gap (adjacent_pairs (partitions checker_2025_gap)))).
Proof.
  apply (missing_dates_group_by_gap "t"%string rows_2025_gap
           checker_2025_gap [] [midnight 2025 1 3; midnight 2025 1 4]);
    reflexivity.
Defined.

Lemma adjacent_pairs_split {A : Type} (l : list A) (p q : A) :
  In (p, q) (adjacent_pairs l) -> exists l1 l2, l = l1 ++ p :: q :: l2.
Proof.
  induction l as [|a l IH]; [intros []|].
  destruct l as [|b l]; [intros []|].
  cbn [adjacent_pairs In]. intros [E | H].
  - inversion E; subst. now exists [], l.
  - destruct (IH H) as (l1 & l2 & E). exists (a :: l1), l2.
    cbn [app]. now rewrite E.
Qed.

Lemma StronglySorted_split {A : Type} (R : A -> A -> Prop) (l1 l2 : list A) :
  StronglySorted R (l1 ++ l2) ->
  StronglySorted R l2 /\ forall x y, In x l1 -> In y l2 -> R x y.
Proof.
  induction l1 as [|a l1 IH]; cbn [app]; intros Hs.
  - split; [assumption | intros x y []].
  - inversion Hs as [|? ? Hs' Ha]; subst. destruct (IH Hs') as [H2 H12].
    split; [assumption|]. intros x y [<- | Hx] Hy.
    + rewrite Forall_forall in Ha. apply Ha, in_or_app. now right.
    + now apply H12.
Qed.

Lemma filter_all {A : Type} (f : A -> bool) (l : list A) :
  (forall x, In x l -> f x = true) -> filter f l = l.
Proof.
  induction l as [|a l IH]; intros H; [reflexivity|].
  cbn [filter]. rewrite (H a) by now left.
  rewrite IH; [reflexivity|]. intros x Hx. apply H. now right.
Qed.

Lemma hd_error_rev_last (d : datetime) (r : list datetime) :
  hd_error (rev (d :: r)) = Some (List.last r d).
Proof.
  pose proof (index_last_last d r) as H. unfold PyStr.index_last in H.
  destruct (rev (d :: r)); [discriminate | cbn; congruence].
Qed.

(** The records around a gap are the two neighbours that the gap lies
    between. *)
Lemma neighbours_surround (l1 l2 : list partition) (p q : partition)
  (d : datetime) (r : list datetime) :
  StronglySorted date_le (l1 ++ p :: q :: l2) ->
  gap_of (p, q) = d :: r ->
  last_before (l1 ++ p :: q :: l2) d = Some p
  /\ first_after (l1 ++ p :: q :: l2) (List.last r d) = Some q.
Proof.
  intros Hs Hg. unfold gap_of in Hg. cbn [fst snd] in Hg.
  assert (Hd : dt_clock (date p) < dt_clock d < dt_clock (date q))
    by (apply stepped_between_bounds; rewrite Hg; now left).
  assert (He : dt_clock (date p) < dt_clock (List.last r d)
               < dt_clock (date q))
    by (apply stepped_between_bounds; rewrite Hg; apply last_In_cons).
  destruct (StronglySorted_split _ _ _ Hs) as [Hs2 H12].
  inversion Hs2 as [|? ? Hs3 Hp]; subst.
  inversion Hs3 as [|? ? _ Hq]; subst.
  rewrite Forall_forall in Hp, Hq. unfold date_le in *.
  assert (Hl1 : forall x, In x l1 -> dt_clock (date x) <= dt_clock (date p))
    by (intros x Hx; apply (H12 x p Hx); now left).
  unfold last_before, first_after, ltb, gtb. split.
  - rewrite filter_app. cbn [filter].
    replace (dt_clock (date p) <? dt_clock d) with true
      by (symmetry; apply Z.ltb_lt; lia).
    replace (dt_clock (date q) <? dt_clock d) with false
      by (symmetry; apply Z.ltb_ge; lia).
    rewrite (filter_none _ l2).
    + rewrite rev_app_distr. reflexivity.
    + intros x Hx. specialize (Hq x Hx). apply Z.ltb_ge. lia.
  - rewrite filter_app. cbn [filter].
    replace (dt_clock (List.last r d) <? dt_clock (date p)) with false
      by (symmetry; apply Z.ltb_ge; lia).
    replace (dt_clock (List.last r d) <? dt_clock (date q)) with true
      by (symmetry; apply Z.ltb_lt; lia).
    rewrite (filter_none _ l1).
    + reflexivity.
    + intros x Hx. specialize (Hl1 x Hx). apply Z.ltb_ge. lia.
Qed.

Lemma command_for_gap {zone : LocalZone} (self : PartitionChecker)
  (pq : partition * partition) :
  StronglySorted date_le (partitions self) ->
  In pq (adjacent_pairs (partitions self)) -> has_gap pq = true ->
  command_for self (gap_of pq)
  = [create_reorganize_command self (fst pq) (snd pq) (gap_of pq)].
Proof.
  intros Hs Hin Hg. destruct pq as [p q].
  destruct (adjacent_pairs_split _ _ _ Hin) as (l1 & l2 & E).
  unfold has_gap in Hg. destruct (gap_of (p, q)) as [|d r] eqn:Eg;
    [discriminate|].
  rewrite E in Hs. destruct (neighbours_surround _ _ _ _ _ _ Hs Eg) as [Hb Ha].
  unfold command_for. rewrite hd_error_rev_last. cbn [hd_error].
  rewrite E, Hb, Ha. reflexivity.
Qed.

Lemma flat_map_singletons {A B : Type} (f : A -> list B) (g : A -> B)
  (l : list A) :
  (forall x, In x l -> f x = [g x]) -> flat_map f l = map g l.
Proof.
  induction l as [|a l IH]; intros H; [reflexivity|].
  cbn [flat_map map]. rewrite (H a) by now left.
  rewrite IH; [reflexivity|]. intros x Hx. apply H. now right.
Qed.

Lemma commands_of_missing_spec {zone : LocalZone} (self : PartitionChecker) :
  StronglySorted date_le (partitions self) ->
  generate_reorganize_commands self (missing_spec (partitions self))
  = Return (map (fun pq => create_reorganize_command self (fst pq) (snd pq)
                             (gap_of pq))
              (filter has_gap (adjacent_pairs (partitions self)))).
Proof.
  intros Hs.
  destruct (generate_reorganize_commands_returns self
              (missing_spec (partitions self)) Hs) as (groups & Hg & Hc).
  rewrite group_missing_spec in Hg by assumption.
  inversion Hg; subst groups. rewrite Hc. f_equal.
  unfold gaps. rewrite flat_map_concat_map, map_map, <- flat_map_concat_map.
  apply flat_map_singletons. intros pq Hpq.
  apply filter_In in Hpq. destruct Hpq as [Hin Hgap].
  now apply command_for_gap.
Qed.

(** X4.  For a checker built by the constructor, the commands generated from
    what [find_missing_dates] returns are, in order, one command per pair of
    neighbouring records more than a day apart: the command built from the
    earlier record, the later record and the days missing between them. *)
Theorem one_command_per_gap {zone : LocalZone}
  (name : string) (partition_data : list raw_row) (self : PartitionChecker)
  (out : list warning) (missing : list datetime) :
  __init__ name partition_data = Return (self, out) ->
  find_missing_dates self = Return missing ->
  generate_reorganize_commands self missing
  = Return (map (fun pq => create_reorganize_command self (fst pq) (snd pq)
                             (gap_of pq))
              (filter has_gap (adjacent_pairs (partitions self)))).
Proof.
  intros Hinit Hfind.
  assert (Hs : StronglySorted date_le (partitions self)).
  { apply init_returns in Hinit. subst self. apply sort_by_date_sorted. }
  rewrite find_missing_dates_exact in Hfind
    by exact (init_partitions_lower _ _ _ _ Hinit).
  destruct (steps_fit (partitions self)); [|discriminate].
  inversion Hfind; subst missing.
  now apply commands_of_missing_spec.
Qed.

Lemma one_command_per_gap_witness :
  generate_reorganize_commands (zone := fixed_offset_zone 3600)
    checker_2025_gap [midnight 2025 1 3; midnight 2025 1 4]
  = Return [create_reorganize_command (zone := fixed_offset_zone 3600)
              checker_2025_gap
              (Partition (midnight 2025 1 2) 1735772400 2 0)
              (Partition (midnight 2025 1 5) 1736031600 3 0)
              [midnight 2025 1 3; midnight 2025 1 4]].
Proof.
  apply (one_command_per_gap (zone := fixed_offset_zone 3600) "t"%string
           rows_2025_gap checker_2025_gap []
           [midnight 2025 1 3; midnight 2025 1 4]);
    reflexivity.
Defined.

(** ** The summary of [main] *)

(** A text that starts with [ALTER TABLE] passes the test of line 380. *)
Lemma alter_table_startswith (rest : string) :
  PyStr.startswith "ALTER TABLE" (PyStr.strip ("ALTER TABLE" ++ rest)) = true.
Proof.
  unfold PyStr.strip. cbn [String.append PyStr.lstrip_with].
  change (PyStr.isspace "A") with false. cbv iota.
  rewrite !rstrip_cons_kept by reflexivity.
  destruct (rstrip_cons_cases PyStr.isspace " "
              (String "T" (String "A" (String "B" (String "L"
                (String "E" rest)))))) as [E | (_ & E & _)].
  - rewrite E. rewrite !rstrip_cons_kept by reflexivity.
    unfold PyStr.startswith. cbn [String.prefix].
    repeat (destruct (ascii_dec _ _) as [_|N]; [|now elim N]).
    now destruct (PyStr.rstrip_with PyStr.isspace rest).
  - rewrite rstrip_cons_kept in E by reflexivity. discriminate.
Qed.

Lemma keep_alter_table_all (cmds : list string) :
  forall acc : list string,
    Forall (fun cmd =>
              PyStr.startswith "ALTER TABLE" (PyStr.strip cmd) = true) cmds ->
    keep_alter_table acc cmds = (acc ++ cmds)%list.
Proof.
  unfold keep_alter_table.
  induction cmds as [|c cmds IH]; intros acc H; cbn [fold_left].
  - now rewrite app_nil_r.
  - inversion H as [|? ? Hc H']; subst. rewrite Hc, IH by assumption.
    now rewrite <- app_assoc.
Qed.

Lemma create_reorganize_command_startswith {zone : LocalZone}
  (self : PartitionChecker) (b a : partition) (m : list datetime) :
  PyStr.startswith "ALTER TABLE"
    (PyStr.strip (create_reorganize_command self b a m)) = true.
Proof.
  unfold create_reorganize_command. cbv zeta.
  rewrite !string_app_assoc.
  change ("ALTER TABLE " ++ ?x)%string with ("ALTER TABLE" ++ (" " ++ x))%string.
  apply alter_table_startswith.
Qed.

Lemma gaps_of_missing_spec_nil (ps : list partition) :
  missing_spec ps = [] -> filter has_gap (adjacent_pairs ps) = [].
Proof.
  intros H. apply filter_none. intros pq Hin. unfold has_gap, gap_of.
  destruct (stepped_between (date (fst pq)) (date (snd pq))) as [|d r] eqn:E;
    [reflexivity|].
  exfalso. assert (Hd : In d (missing_spec ps)).
  { unfold missing_spec. apply in_flat_map. exists pq.
    split; [assumption | rewrite E; now left]. }
  rewrite H in Hd. destruct Hd.
Qed.

Lemma has_issue_commands {zone : LocalZone} (name : string)
  (partition_data : list raw_row) :
  has_issue partition_data = negb (is_nil (commands_of name partition_data)).
Proof.
  unfold has_issue, commands_of. cbn [partitions].
  destruct (missing_spec (sort_by_date (kept partition_data))) as [|d m] eqn:E.
  - now rewrite (gaps_of_missing_spec_nil _ E).
  - rewrite <- concat_gaps in E. unfold gaps in E.
    destruct (filter has_gap (adjacent_pairs (sort_by_date (kept partition_data))));
      [discriminate | reflexivity].
Qed.

(** The loop over the tables, when it comes to its end. *)
Lemma main_loop_summary {zone : LocalZone} (items : dict (list raw_row)) :
  forall (issues : nat) (cmds : list string) (r : nat * list string),
    main_loop items issues cmds = Return r ->
    fst r
    = (issues + List.length (filter (fun kv => has_issue (snd kv)) items))%nat
    /\ snd r
       = (cmds ++ flat_map (fun kv => commands_of (fst kv) (snd kv)) items)%list.
Proof.
  induction items as [|[name data] items IH]; intros issues cmds r H.
  - cbn in H. inversion H; subst. cbn. now rewrite Nat.add_0_r, app_nil_r.
  - cbn [main_loop] in H. cbn [filter flat_map fst snd].
    rewrite (has_issue_commands name data).
    destruct data as [|row data'].
    + cbn [is_nil] in H. cbn [negb is_nil]. apply IH in H.
      exact H.
    + cbn [is_nil] in H. set (data := row :: data') in *.
      destruct (init_equation name data) as (out & Hinit).
      rewrite Hinit in H. cbn [bind fst] in H. unfold display_report in H.
      rewrite find_missing_dates_exact in H by apply sorted_kept_lower.
      cbn [partitions] in H.
      destruct (steps_fit (sort_by_date (kept data))); [|discriminate].
      cbn [bind] in H.
      pose proof (has_issue_commands name data) as Hi. unfold has_issue in Hi.
      destruct (missing_spec (sort_by_date (kept data))) as [|d m] eqn:Em.
      * cbn [bind is_nil] in H. cbn [is_nil negb] in Hi.
        destruct (commands_of name data); [|discriminate].
        cbn [is_nil negb app]. now apply IH in H.
      * cbn [bind is_nil] in H. rewrite <- Em in H.
        assert (Hg : generate_reorganize_commands
                       {| table_name := name;
                          partitions := sort_by_date (kept data) |}
                       (missing_spec (sort_by_date (kept data)))
                     = Return (commands_of name data))
          by exact (commands_of_missing_spec
                      {| table_name := name;
                         partitions := sort_by_date (kept data) |}
                      (sort_by_date_sorted _)).
        rewrite Hg in H. cbn [bind] in H.
        rewrite keep_alter_table_all in H.
        -- cbn [is_nil negb] in Hi.
           destruct (commands_of name data) as [|c cs] eqn:Ec; [discriminate|].
           cbn [is_nil negb] in H |- *. apply IH in H. destruct H as [H1 H2].
           split; [rewrite H1; cbn [List.length]; lia|].
           rewrite H2, <- app_assoc. reflexivity.
        -- unfold commands_of. apply Forall_forall. intros c Hc.
           apply in_map_iff in Hc. destruct Hc as (pq & <- & _).
           apply create_reorganize_command_startswith.
Qed.

Lemma filter_length_flat_map {A B : Type} (g : A -> bool) (f : A -> list B)
  (l : list A) :
  (forall x, g x = negb (is_nil (f x))) ->
  (List.length (filter g l) <= List.length (flat_map f l))%nat.
Proof.
  intros H. induction l as [|a l IH]; [apply Nat.le_refl|].
  cbn [filter flat_map]. rewrite length_app, (H a).
  destruct (f a); cbn [is_nil negb List.length]; lia.
Qed.

(** X5.  When [main] returns, the input file was readable and gave at least
    one table; [total_tables] is the number of tables of the mapping,
    [tables_with_issues] the number of tables whose kept records, sorted,
    leave a day out between two neighbours, and [all_sql_commands] holds, in
    the order of the tables, one command per pair of neighbouring records
    more than a day apart: none is dropped by the test on [ALTER TABLE].  So
    every table counted has at least one command. *)
Theorem main_summary {zone : LocalZone} (input : file_access) (r : summary) :
  main input = Return r ->
  exists lines : list string,
    input = Readable lines
    /\ parse_lines lines <> []
    /\ total_tables r = List.length (parse_lines lines)
    /\ tables_with_issues r
       = List.length (filter (fun kv => has_issue (snd kv)) (parse_lines lines))
    /\ all_sql_commands r
       = flat_map (fun kv => commands_of (fst kv) (snd kv)) (parse_lines lines)
    /\ (tables_with_issues r <= total_tables r)%nat
    /\ (tables_with_issues r <= List.length (all_sql_commands r))%nat.
Proof.
  intros H. destruct input as [| |lines]; [discriminate | discriminate |].
  exists lines. unfold main in H. cbn [parse_result_file readlines bind] in H.
  destruct (parse_lines lines) as [|kv tables] eqn:E; [discriminate|].
  cbn [is_nil] in H. rewrite <- E in *.
  destruct (main_loop (parse_lines lines) 0 []) as [p|e] eqn:El;
    [|discriminate].
  cbn [bind] in H. inversion H; subst r. clear H.
  cbn [total_tables tables_with_issues all_sql_commands].
  apply main_loop_summary in El. destruct El as [H1 H2].
  cbn [app Nat.add] in H1, H2. rewrite H1, H2.
  repeat split.
  - rewrite E. discriminate.
  - apply filter_length_le.
  - apply filter_length_flat_map. intros [name data]. cbn [fst snd].
    apply has_issue_commands.
Qed.

Lemma main_summary_witness :
  tables_with_issues (summary_with_gap (zone := fixed_offset_zone 3600))
  = List.length (filter (fun kv => has_issue (snd kv))
                   (parse_lines file_with_gap))
  /\ (1 <= List.length
            (all_sql_commands
               (summary_with_gap (zone := fixed_offset_zone 3600))))%nat.
Proof.
  destruct (main_summary (zone := fixed_offset_zone 3600)
              (Readable file_with_gap)
              (summary_with_gap (zone := fixed_offset_zone 3600)))
    as (lines & Hl & _ & _ & H1 & _ & _ & H2).
  - vm_compute. reflexivity.
  - inversion Hl; subst lines. split; [exact H1 | exact H2].
Defined.

(** ** The scan and white space *)

Lemma lstrip_all_space (w s : string) :
  all_space w = true ->
  PyStr.lstrip_with PyStr.isspace (w ++ s) = PyStr.lstrip_with PyStr.isspace s.
Proof.
  induction w as [|c w IH]; intros H; [reflexivity|].
  cbn [all_space] in H. apply andb_prop in H. destruct H as [Hc Hw].
  cbn [String.append PyStr.lstrip_with]. rewrite Hc. now apply IH.
Qed.

Lemma rstrip_all_space (w : string) :
  all_space w = true -> PyStr.rstrip_with PyStr.isspace w = EmptyString.
Proof.
  induction w as [|c w IH]; intros H; [reflexivity|].
  cbn [all_space] in H. apply andb_prop in H. destruct H as [Hc Hw].
  cbn [PyStr.rstrip_with]. now rewrite (IH Hw), Hc.
Qed.

Lemma rstrip_app_all_space (s w : string) :
  all_space w = true ->
  PyStr.rstrip_with PyStr.isspace (s ++ w) = PyStr.rstrip_with PyStr.isspace s.
Proof.
  intros H. induction s as [|c s IH]; cbn [String.append].
  - now apply rstrip_all_space.
  - cbn [PyStr.rstrip_with]. now rewrite IH.
Qed.

Lemma strip_app_all_space (s w : string) :
  all_space w = true -> PyStr.strip (s ++ w) = PyStr.strip s.
Proof.
  intros H. unfold PyStr.strip. induction s as [|c s IH].
  - cbn [String.append]. revert H. clear.
    induction w as [|c w IH]; intros H; [reflexivity|].
    cbn [all_space] in H. apply andb_prop in H. destruct H as [Hc Hw].
    cbn [PyStr.lstrip_with]. rewrite Hc. now apply IH.
  - cbn [String.append PyStr.lstrip_with].
    destruct (PyStr.isspace c); [exact IH|].
    change (String c (s ++ w)) with (String c s ++ w)%string.
    now apply rstrip_app_all_space.
Qed.

Lemma skip_header_strip (l1 l2 : list string) :
  map PyStr.strip l1 = map PyStr.strip l2 ->
  map PyStr.strip (skip_header l1) = map PyStr.strip (skip_header l2).
Proof.
  intros H. destruct l1 as [|a l1], l2 as [|b l2]; try discriminate;
    [reflexivity|].
  cbn [map] in H. injection H as Hab Hl. cbn [skip_header].
  fold (swallowed a). fold (swallowed b).
  rewrite (swallowed_strip a), (swallowed_strip b), Hab.
  destruct (PyStr.contains _ _); [assumption|].
  cbn [map]. now rewrite Hab, Hl.
Qed.

Lemma scan_strip (l1 : list string) :
  forall (l2 : list string) (st : parse_state),
    map PyStr.strip l1 = map PyStr.strip l2 -> scan l1 st = scan l2 st.
Proof.
  induction l1 as [|a l1 IH1 IH2] using scan_induction; intros l2 st H.
  - destruct l2; [reflexivity | discriminate].
  - destruct l2 as [|b l2]; [discriminate|].
    pose proof (skip_header_strip l1 l2) as Hs.
    cbn [map] in H. injection H as Hab Hl. specialize (Hs Hl).
    rewrite !scan_cons. unfold is_blank, is_date_line. rewrite Hab.
    destruct (PyStr.is_empty (PyStr.strip b)); [now apply IH1|].
    destruct (PyStr.match_date_prefix (PyStr.strip b)); [now apply IH1|].
    destruct (is_header (PyStr.strip b)); [now apply IH1 | now apply IH2].
Qed.

(** X6.  The mapping read from a file depends on the stripped lines only:
    two files whose lines agree once stripped give the same mapping.  White
    space before and after the text of a line - indentation, the line end -
    is dropped by the stripping, so it never matters; in particular the
    stripped line never starts with a space. *)
Theorem parse_lines_ignores_surrounding_space :
  (forall l1 l2 : list string,
      map PyStr.strip l1 = map PyStr.strip l2 ->
      parse_lines l1 = parse_lines l2)
  /\ (forall w1 s w2 : string,
         all_space w1 = true -> all_space w2 = true ->
         PyStr.strip (w1 ++ s ++ w2) = PyStr.strip s)
  /\ (forall raw : string,
         PyStr.startswith " " (PyStr.strip raw) = false).
Proof.
  split; [|split].
  - intros l1 l2 H. unfold parse_lines. now rewrite (scan_strip l1 l2).
  - intros w1 s w2 H1 H2. rewrite <- (strip_app_all_space s w2 H2).
    unfold PyStr.strip. now rewrite lstrip_all_space.
  - apply strip_not_startswith_space.
Qed.

Lemma parse_lines_ignores_surrounding_space_witness :
  parse_lines ["  t  "; "    2025-01-01 00:00:00 1735686000 1 10   "]%string
  = parse_lines ["t"; "2025-01-01 00:00:00 1735686000 1 10"]%string.
Proof.
  apply (proj1 parse_lines_ignores_surrounding_space). reflexivity.
Defined.

(** ** Where the entries of the mapping come from *)

Lemma dict_set_keys {V : Type} (k : string) (v : V) (d : dict V) (k' : string) :
  In k' (map fst (dict_set k v d)) <-> k' = k \/ In k' (map fst d).
Proof.
  induction d as [|[k0 v0] d IH]; cbn [dict_set map fst In].
  - intuition congruence.
  - destruct (String.eqb k0 k) eqn:E; cbn [map fst In].
    + apply String.eqb_eq in E. subst k0. intuition congruence.
    + rewrite IH. intuition congruence.
Qed.

Lemma dict_set_NoDup {V : Type} (k : string) (v : V) (d : dict V) :
  NoDup (map fst d) -> NoDup (map fst (dict_set k v d)).
Proof.
  induction d as [|[k0 v0] d IH]; cbn [dict_set map fst]; intros H.
  - constructor; [intros [] | constructor].
  - inversion H as [|? ? Hn Hd]; subst.
    destruct (String.eqb k0 k) eqn:E; cbn [map fst].
    + apply String.eqb_eq in E. subst k0. now constructor.
    + constructor; [|now apply IH].
      rewrite dict_set_keys. intros [-> | Hin]; [|contradiction].
      now rewrite String.eqb_refl in E.
Qed.

Lemma save_previous_entries (lines : list string) (st : parse_state) :
  entries_from lines st -> entries_from lines (save_previous st).
Proof.
  intros (Ht & Hd & Htd & Hn). unfold save_previous.
  destruct (current_table st) as [t|] eqn:Et; [|repeat split; try assumption;
    intros t Hc; apply Ht; congruence].
  destruct (table_and_data st).
  - repeat split; cbn [current_table current_data tables_data].
    + intros t' Hc. apply Ht. congruence.
    + constructor.
    + apply dict_set_Forall; [|assumption]. cbn [fst snd].
      split; [now apply Ht | assumption].
    + now apply dict_set_NoDup.
  - repeat split; try assumption. intros t' Hc. apply Ht. congruence.
Qed.

Lemma incl_skip_header (rest all : list string) :
  incl rest all -> incl (skip_header rest) all.
Proof.
  intros H. destruct rest as [|next rest]; [assumption|].
  cbn [skip_header]. destruct (PyStr.contains _ _); [|assumption].
  intros x Hx. apply H. now right.
Qed.

Lemma scan_entries (all rest : list string) :
  incl rest all ->
  forall st : parse_state, entries_from all st -> entries_from all (scan rest st).
Proof.
  induction rest as [|raw rest IH1 IH2] using scan_induction; intros Hi st H;
    [exact H|].
  assert (Hraw : In raw all) by (apply Hi; now left).
  assert (Hrest : incl rest all) by (intros x Hx; apply Hi; now right).
  rewrite scan_cons.
  destruct (is_blank raw) eqn:Eb; [now apply IH1|].
  destruct (is_date_line raw) eqn:Ed.
  - apply IH1; [assumption|]. destruct H as (Ht & Hd & Htd & Hn).
    unfold append_data.
    destruct (data_tuple (PyStr.strip raw)) as [t|] eqn:Et;
      [|now repeat split].
    repeat split; cbn [current_table current_data tables_data];
      try assumption.
    apply Forall_app. split; [assumption|].
    constructor; [|constructor]. now exists raw.
  - destruct (is_header (PyStr.strip raw)) eqn:Eh.
    + apply IH1; [assumption | now apply save_previous_entries].
    + apply IH2; [now apply incl_skip_header|].
      destruct (save_previous_entries all st H) as (Ht & Hd & Htd & Hn).
      repeat split; cbn [current_table current_data tables_data open_table];
        try assumption.
      intros t Hc. inversion Hc; subst t. exists raw.
      repeat split; [assumption|]. unfold is_table_line.
      now rewrite Eb, Ed, Eh.
Qed.

Lemma data_tuple_length (line : string) (row : raw_row) :
  data_tuple line = Some row -> List.length row = 4%nat.
Proof.
  unfold data_tuple.
  destruct (PyStr.split line) as [|p0 [|p1 [|p2 [|p3 more]]]];
    try discriminate.
  intros H. inversion H. reflexivity.
Qed.

(** X7.  The names of the mapping are distinct, and each one is the stripped
    text of a line of the file that is neither blank, nor a data line, nor a
    header; every tuple stored has exactly four fields and was built from a
    data line of the file. *)
Theorem parse_lines_entries_come_from_lines (lines : list string) :
  NoDup (map fst (parse_lines lines))
  /\ forall (name : string) (data : list raw_row),
       In (name, data) (parse_lines lines) ->
       from_table_line lines name
       /\ Forall (fun row => List.length row = 4%nat
                             /\ from_date_line lines row) data.
Proof.
  assert (H0 : entries_from lines initial_state).
  { repeat split; try constructor. intros t Ht. discriminate. }
  pose proof (scan_entries lines lines (incl_refl _) _ H0) as H1.
  apply save_previous_entries in H1. destruct H1 as (_ & _ & Htd & Hn).
  split; [exact Hn|]. intros name data Hin.
  rewrite Forall_forall in Htd. destruct (Htd _ Hin) as [Hk Hrows].
  cbn [fst snd] in Hk, Hrows. split; [assumption|].
  rewrite Forall_forall in Hrows |- *. intros row Hrow.
  specialize (Hrows row Hrow). split; [|assumption].
  destruct Hrows as (raw & _ & _ & Ht). exact (data_tuple_length _ _ Ht).
Qed.

Lemma parse_lines_entries_witness :
  from_table_line ["t"%string; row_a] "t"
  /\ Forall (fun row => List.length row = 4%nat
                        /\ from_date_line ["t"%string; row_a] row) [tuple_a].
Proof.
  apply (proj2 (parse_lines_entries_come_from_lines ["t"%string; row_a])
           "t"%string [tuple_a]).
  vm_compute. now left.
Defined.

(** ** The constructor on the tuples of the mapping *)

Lemma row_to_partition_four (row : raw_row) (e : exn) :
  (4 <= List.length row)%nat -> row_to_partition row = Raise e ->
  e = ValueError.
Proof.
  destruct row as [|r0 [|r1 [|r2 [|r3 more]]]]; cbn [List.length];
    try lia.
  intros _. unfold row_to_partition, PyStr.index. cbn [nth_error bind].
  destruct (strptime r0) eqn:E0; cbn [bind];
    [|intros H; inversion H; subst; exact (strptime_raises _ _ E0)].
  destruct (PyStr.int r1) eqn:E1; cbn [bind];
    [|intros H; inversion H; subst; exact (int_raises _ _ E1)].
  destruct (PyStr.int r2) eqn:E2; cbn [bind];
    [|intros H; inversion H; subst; exact (int_raises _ _ E2)].
  destruct (PyStr.int r3) eqn:E3; cbn [bind];
    [discriminate|intros H; inversion H; subst; exact (int_raises _ _ E3)].
Qed.

Lemma init_loop_value_errors (partition_data : list raw_row) :
  forall (acc : list partition) (out : list warning)
         (r : list partition * list warning),
    Forall (fun row => (4 <= List.length row)%nat) partition_data ->
    Forall (fun w : warning => snd w = ValueError) out ->
    init_loop partition_data acc out = Return r ->
    Forall (fun w : warning => snd w = ValueError) (snd r).
Proof.
  induction partition_data as [|row rest IH]; intros acc out r Hd Ho H.
  - cbn in H. inversion H; subst. exact Ho.
  - inversion Hd as [|? ? Hrow Hrest]; subst. cbn [init_loop] in H.
    destruct (row_to_partition row) as [p|e] eqn:E.
    + exact (IH _ _ _ Hrest Ho H).
    + rewrite (row_to_partition_four row e Hrow E) in H.
      apply (IH _ _ _ Hrest) in H; [assumption|].
      apply Forall_app. split; [assumption|]. now repeat constructor.
Qed.

(** X8.  Built from the tuples that the parser stored for a table, the
    constructor never meets [IndexError]: every row it skips is skipped for a
    [ValueError] (a date-time or an integer that does not parse), since every
    tuple of the mapping has four fields. *)
Theorem init_on_parsed_rows_skips_for_value_error
  (lines : list string) (name : string) (data : list raw_row)
  (self : PartitionChecker) (out : list warning) :
  In (name, data) (parse_lines lines) ->
  __init__ name data = Return (self, out) ->
  Forall (fun w : warning => snd w = ValueError) out
  /\ map fst out = filter (fun row => is_none (parses row)) data.
Proof.
  intros Hin Hinit.
  assert (H4 : Forall (fun row => (4 <= List.length row)%nat) data).
  { assert (He : entries_from lines
                   (save_previous (scan lines initial_state))).
    { apply save_previous_entries, scan_entries; [apply incl_refl|].
      repeat split; try constructor. intros t Ht. discriminate. }
    destruct He as (_ & _ & Htd & _). rewrite Forall_forall in Htd.
    destruct (Htd _ Hin) as [_ Hrows]. cbn [snd] in Hrows.
    rewrite Forall_forall in Hrows |- *. intros row Hrow.
    destruct (Hrows row Hrow) as (raw & _ & _ & Ht).
    rewrite (data_tuple_length _ _ Ht). apply Nat.le_refl. }
  unfold __init__ in Hinit.
  destruct (init_loop data [] []) as [r|e] eqn:El; [|discriminate].
  cbn [bind] in Hinit. inversion Hinit; subst. split.
  - exact (init_loop_value_errors data [] [] r H4 (Forall_nil _) El).
  - destruct (init_loop_spec data [] []) as (out' & Hl & Hw).
    rewrite Hl in El. inversion El; subst r. exact Hw.
Qed.

Lemma init_on_parsed_rows_witness :
  Forall (fun w : warning => snd w = ValueError)
    [(["2025-01-01 00:00:00"; "x"; "1"; "0"]%string, ValueError)]
  /\ map fst [(["2025-01-01 00:00:00"; "x"; "1"; "0"]%string, ValueError)]
     = filter (fun row => is_none (parses row))
         [["2025-01-01 00:00:00"; "x"; "1"; "0"]%string].
Proof.
  apply (init_on_parsed_rows_skips_for_value_error
           ["t"; "2025-01-01 00:00:00 x 1"]%string "t"%string
           [["2025-01-01 00:00:00"; "x"; "1"; "0"]%string]
           {| table_name := "t"; partitions := [] |}).
  - vm_compute. now left.
  - vm_compute. reflexivity.
Defined.

(** ** A header line among the rows of a table *)

(** X9.  When a header line (one that contains "from_unixtime" or
    "partition_description") stands among the data lines of a table, after
    at least one recorded row, the rows before it are stored at once and the
    buffer is emptied; rows that follow the header then replace them when the
    table is stored again.  So the mapping binds the table to the rows after
    the header only, and to the rows before it when none follows. *)
Theorem header_among_rows_drops_earlier_rows
  (pre : list string) (tn : string) (after sec1 : list string) (h : string)
  (sec2 post : list string) :
  is_table_line tn = true ->
  skip_header after = sec1 ++ h :: sec2 ++ post ->
  data_section sec1 ->
  data_rows sec1 <> [] ->
  is_header_line h = true ->
  data_section sec2 ->
  starts_other_table (PyStr.strip tn) post ->
  dict_get (PyStr.strip tn) (parse_lines (pre ++ tn :: after))
  = Some (match data_rows sec2 with
          | [] => pending pre ++ data_rows sec1
          | r :: rs => r :: rs
          end).
Proof.
  intros Htn Hafter Hsec1 Hrows1 Hh Hsec2 [Hpost HF].
  unfold parse_lines, pending.
  rewrite scan_app by now apply table_line_not_swallowed.
  rewrite scan_table_line by assumption.
  rewrite Hafter, scan_section by assumption.
  destruct (header_line_facts h Hh) as (Hhb & Hhd & Hhh).
  rewrite scan_cons, Hhb, Hhd, Hhh.
  rewrite scan_section by assumption.
  set (st0 := scan pre initial_state).
  set (st2 := add_rows (data_rows sec1)
                (open_table (PyStr.strip tn) (save_previous st0))).
  set (st4 := add_rows (data_rows sec2) (save_previous st2)).
  destruct (table_line_facts tn Htn) as (Hb & _ & _). unfold is_blank in Hb.
  assert (Hst2 : save_previous st2
                 = {| tables_data :=
                        dict_set (PyStr.strip tn)
                          (current_data (save_previous st0) ++ data_rows sec1)
                          (tables_data (save_previous st0));
                      current_table := Some (PyStr.strip tn);
                      current_data := [] |}).
  { unfold save_previous at 1, table_and_data. subst st2.
    cbn [add_rows open_table current_table current_data tables_data].
    rewrite Hb. cbn [negb andb].
    destruct (current_data (save_previous st0) ++ data_rows sec1) eqn:E;
      [|reflexivity].
    apply app_eq_nil in E. destruct E as [_ E]. contradiction. }
  assert (Hsave :
    dict_get (PyStr.strip tn) (tables_data (save_previous st4))
    = Some (match data_rows sec2 with
            | [] => current_data (save_previous st0) ++ data_rows sec1
            | r :: rs => r :: rs
            end)).
  { subst st4. rewrite Hst2. unfold save_previous, table_and_data.
    cbn [add_rows current_table current_data tables_data app].
    rewrite Hb. cbn [negb andb].
    destruct (data_rows sec2); cbn [is_nil negb tables_data];
      apply dict_get_set_same. }
  destruct Hpost as [->|(m & post' & -> & Hm)].
  - cbn [scan]. exact Hsave.
  - rewrite scan_table_line by assumption.
    inversion HF as [|? ? Hm' HF']; subst.
    rewrite (other_tables_leave_entry _ _ (skip_header_Forall _ _ HF') _
               (PyStr.strip m)); [exact Hsave | reflexivity | now apply Hm'].
Qed.

Lemma header_among_rows_witness :
  dict_get (PyStr.strip "t")
    (parse_lines ([] ++ "t"%string :: [row_a; header_line; row_b]))
  = Some [tuple_b].
Proof.
  apply (header_among_rows_drops_earlier_rows [] "t"
           [row_a; header_line; row_b] [row_a] header_line [row_b] []).
  - reflexivity.
  - reflexivity.
  - constructor; [right; reflexivity | constructor].
  - discriminate.
  - reflexivity.
  - constructor; [right; reflexivity | constructor].
  - split; [now left | constructor].
Defined.

(** ** A file laid out as the parser expects *)

Lemma dict_set_fresh {V : Type} (k : string) (v : V) (d : dict V) :
  ~ In k (map fst d) -> dict_set k v d = (d ++ [(k, v)])%list.
Proof.
  induction d as [|[k0 v0] d IH]; cbn [dict_set map fst In app]; intros H;
    [reflexivity|].
  destruct (String.eqb k0 k) eqn:E.
  - apply String.eqb_eq in E. exfalso. apply H. now left.
  - rewrite IH; [reflexivity|]. intros Hin. apply H. now right.
Qed.

Lemma skip_header_block (after rest : list string) :
  after <> [] -> skip_header (after ++ rest) = (skip_header after ++ rest)%list.
Proof.
  destruct after as [|a after]; [congruence|]. intros _.
  cbn [app skip_header]. now destruct (PyStr.contains _ _).
Qed.

(** The scan of a run of blocks, from a state whose buffer is stored by the
    next save. *)
Lemma scan_blocks (bs : list block) :
  forall st : parse_state,
    Forall block_ok bs ->
    NoDup (map (fun b => PyStr.strip (fst b)) bs) ->
    (forall b, In b bs ->
               ~ In (PyStr.strip (fst b))
                    (map fst (tables_data (save_previous st)))) ->
    current_data (save_previous st) = [] ->
    tables_data (save_previous (scan (List.concat (map block_lines bs)) st))
    = (tables_data (save_previous st) ++ map block_entry bs)%list.
Proof.
  induction bs as [|[tn after] bs IH]; intros st Hok Hnd Hfresh Hdata.
  - cbn. now rewrite app_nil_r.
  - inversion Hok as [|? ? (Htn & Hsec & Hrows) Hok']; subst.
    inversion Hnd as [|? ? Hnotin Hnd']; subst. cbn [fst snd] in *.
    cbn [map List.concat block_lines fst snd app].
    rewrite scan_table_line by assumption.
    assert (Hne : after <> []) by (intros ->; now apply Hrows).
    rewrite skip_header_block, scan_section by assumption.
    set (st2 := add_rows (data_rows (skip_header after))
                  (open_table (PyStr.strip tn) (save_previous st))).
    destruct (table_line_facts tn Htn) as (Hb & _ & _). unfold is_blank in Hb.
    assert (Hst2 : save_previous st2
                   = {| tables_data :=
                          (tables_data (save_previous st)
                           ++ [block_entry (tn, after)])%list;
                        current_table := Some (PyStr.strip tn);
                        current_data := [] |}).
    { unfold save_previous at 1, table_and_data. subst st2.
      cbn [add_rows open_table current_table current_data tables_data].
      rewrite Hb, Hdata. cbn [negb andb app].
      destruct (data_rows (skip_header after)) eqn:E; [contradiction|].
      cbn [is_nil negb]. rewrite dict_set_fresh.
      - unfold block_entry. cbn [fst snd]. now rewrite E.
      - apply (Hfresh (tn, after)). now left. }
    rewrite IH; try assumption.
    + rewrite Hst2. cbn [tables_data]. now rewrite <- app_assoc.
    + intros b Hb0. rewrite Hst2. cbn [tables_data].
      rewrite map_app, in_app_iff. cbn [map fst block_entry In].
      intros [Hin | [Heq | []]].
      * apply (Hfresh b); [now right | assumption].
      * apply Hnotin. rewrite Heq. apply in_map_iff. now exists b.
    + now rewrite Hst2.
Qed.

(** X10.  For a file made of blocks - a table-name line, then an optional
    header line, then data lines and blank lines that give at least one
    tuple - with distinct table names, the mapping has exactly one entry per
    block, in the order of the file: the stripped name bound to the tuples of
    the data lines of the block. *)
Theorem parse_lines_of_blocks (bs : list block) :
  Forall block_ok bs ->
  NoDup (map (fun b => PyStr.strip (fst b)) bs) ->
  parse_lines (List.concat (map block_lines bs)) = map block_entry bs.
Proof.
  intros Hok Hnd. unfold parse_lines.
  rewrite scan_blocks; try assumption; try reflexivity.
  intros b _ [].
Qed.

Lemma parse_lines_of_blocks_witness :
  parse_lines
    (List.concat (map block_lines
                    [("t1"%string, [header_line; row_a; row_b]);
                     ("t2"%string, [row_b])]))
  = [("t1"%string, [tuple_a; tuple_b]); ("t2"%string, [tuple_b])].
Proof.
  apply (parse_lines_of_blocks
           [("t1"%string, [header_line; row_a; row_b]);
            ("t2"%string, [row_b])]).
  - constructor; [|constructor; [|constructor]].
    + split; [reflexivity | split; [|discriminate]].
      change (Forall (fun raw => is_blank raw = true \/ is_date_line raw = true)
                [row_a; row_b]).
      constructor; [right; reflexivity|].
      constructor; [right; reflexivity | constructor].
    + split; [reflexivity | split; [|discriminate]].
      change (Forall (fun raw => is_blank raw = true \/ is_date_line raw = true)
                [row_b]).
      constructor; [right; reflexivity | constructor].
  - constructor; [|constructor; [intros [] | constructor]].
    intros [H | []]. discriminate H.
Defined.

(** ** The text of the report *)

Lemma string_app_nil_r (s : string) : (s ++ EmptyString)%string = s.
Proof. induction s as [|c s IH]; cbn; [reflexivity | now rewrite IH]. Qed.

Lemma extends_refl (s : Report.sink) : Report.extends EmptyString s s.
Proof.
  unfold Report.extends. rewrite string_app_nil_r. split; [reflexivity|].
  destruct (Report.output_file s); [|reflexivity].
  now rewrite string_app_nil_r.
Qed.

Lemma extends_trans (t1 t2 : string) (s s1 s2 : Report.sink) :
  Report.extends t1 s s1 -> Report.extends t2 s1 s2 ->
  Report.extends (t1 ++ t2) s s2.
Proof.
  unfold Report.extends. intros [Hc1 Hf1] [Hc2 Hf2]. split.
  - now rewrite Hc2, Hc1, string_app_assoc.
  - rewrite Hf2, Hf1. destruct (Report.output_file s); [|reflexivity].
    now rewrite string_app_assoc.
Qed.

Lemma extends_print (m : string) (s : Report.sink) :
  Report.extends (m ++ nl) s (Report.print_output m s).
Proof.
  unfold Report.extends, Report.print_output.
  cbn [Report.console Report.output_file]. split; [reflexivity|].
  now destruct (Report.output_file s).
Qed.

Lemma reach_print (m : string) (s0 s : Report.sink) :
  (exists t, Report.extends t s0 s) ->
  exists t, Report.extends t s0 (Report.print_output m s).
Proof.
  intros [t H]. exists (t ++ (m ++ nl))%string.
  exact (extends_trans _ _ _ _ _ H (extends_print m s)).
Qed.

Lemma reach_fold {A : Type} (f : A -> string) (l : list A) :
  forall s0 s : Report.sink,
    (exists t, Report.extends t s0 s) ->
    exists t,
      Report.extends t s0
        (fold_left (fun s x => Report.print_output (f x) s) l s).
Proof.
  induction l as [|x l IH]; intros s0 s H; [exact H|].
  cbn [fold_left]. apply IH. now apply reach_print.
Qed.

(** X11.  [display_report] returns what [find_missing_dates] returns, and
    raises what it raises.  Whatever the outcome, the report file, when there
    is one, receives exactly the text that the console receives, and that
    text starts with the banner that names the table: the banner and the
    list of records are written before the dates are checked, also when the
    check raises. *)
Theorem display_report_writes_file_as_console
  (self : PartitionChecker) (s : Report.sink) :
  fst (Report.display_report self s) = find_missing_dates self
  /\ exists text : string,
       Report.extends
         (((nl ++ Report.repeat_char "=" 70) ++ nl)
          ++ (("PARTITION ANALYSIS: " ++ table_name self) ++ nl) ++ text)
         s (snd (Report.display_report self s)).
Proof.
  unfold Report.display_report. cbv zeta. split.
  - destruct (find_missing_dates self) as [missing|e]; [|reflexivity].
    now destruct missing.
  - set (s1 := Report.print_output (nl ++ Report.repeat_char "=" 70) s).
    set (s2 := Report.print_output
                 ("PARTITION ANALYSIS: " ++ table_name self) s1).
    assert (Hrest : exists t, Report.extends t s2 s2)
      by (exists EmptyString; apply extends_refl).
    apply (reach_print (Report.repeat_char "=" 70)) in Hrest.
    apply (reach_print
             (nl ++ "Total Partitions: "
              ++ PyStr.str_of_int
                   (Z.of_nat (List.length (partitions self))))) in Hrest.
    match goal with
    | |- context [Report.print_output (nl ++ "Existing Partitions:") ?x] =>
        assert (H5 : exists t, Report.extends t s2 x)
          by (destruct (partitions self);
              [exact Hrest | now apply reach_print])
    end.
    clear Hrest.
    apply (reach_print (nl ++ "Existing Partitions:")) in H5.
    apply (reach_print
             (Report.ljust 20 "Date" ++ " "
              ++ Report.ljust 15 "Unix Timestamp" ++ " "
              ++ Report.ljust 10 "Ordinal" ++ " "
              ++ Report.ljust 10 "Rows")) in H5.
    apply (reach_print (Report.repeat_char "-" 70)) in H5.
    apply (reach_fold Report.partition_line (rev (partitions self))) in H5.
    assert (Hend : exists t,
               Report.extends t s2 (snd (Report.display_report self s))).
    { unfold Report.display_report. cbv zeta. fold s1. fold s2.
      destruct (find_missing_dates self) as [missing|e]; [|exact H5].
      destruct (is_nil missing); cbn [snd].
      - now apply reach_print.
      - apply (reach_fold (fun md => ("   - " ++ Report.str_date md)%string)).
        now apply reach_print. }
    destruct Hend as [t Ht]. exists t.
    unfold Report.display_report in Ht. cbv zeta in Ht. fold s1 s2 in Ht.
    eapply extends_trans; [apply extends_print|].
    eapply extends_trans; [apply extends_print | exact Ht].
Qed.

(** ** The records once the reported dates are added *)

Lemma steps_fit_step (p q : partition) (ps : list partition) :
  steps_fit (p :: q :: ps)
  = (pair_fits (date p) (date q) && steps_fit (q :: ps))%bool.
Proof. reflexivity. Qed.

Lemma closed_cons (a b : partition) (rest : list partition) :
  dt_clock (date b) - dt_clock (date a) <= DAY ->
  fits (shift_days (date a) 1) = true ->
  closed (b :: rest) -> closed (a :: b :: rest).
Proof.
  intros Hd Hf [Hm Hs]. unfold closed.
  rewrite missing_spec_step, steps_fit_step, Hm, Hs.
  apply stepped_between_nil in Hd. unfold pair_fits. rewrite Hd.
  cbn [List.length app Z.of_nat]. change (1 + 0) with 1. rewrite Hf.
  split; reflexivity.
Qed.

(** The days stepped from [p], put before a closed list that starts less
    than a day after the last of them, give a closed list. *)
Lemma chain_closed (mk : datetime -> partition) (p : datetime)
  (q : partition) (T : list partition) :
  (forall d, date (mk d) = d) ->
  closed (q :: T) ->
  forall (n s : nat) (a : partition),
    date a = shift_days p (Z.of_nat s) ->
    dt_clock (date q) - dt_clock p - Z.of_nat (s + n) * DAY <= DAY ->
    fits (shift_days p (Z.of_nat (s + n) + 1)) = true ->
    closed (a :: map mk (map (fun k => shift_days p (Z.of_nat k))
                           (seq (S s) n)) ++ q :: T).
Proof.
  intros Hmk Hc. induction n as [|n IH]; intros s a Ha Hb Hf.
  - cbn [seq map app]. apply closed_cons; [| |assumption].
    + rewrite Ha. unfold shift_days. cbn [dt_clock].
      rewrite Nat.add_0_r in Hb. lia.
    + rewrite Ha, shift_days_shift. now rewrite Nat.add_0_r in Hf.
  - cbn [seq map app]. apply closed_cons.
    + rewrite Ha, Hmk. unfold shift_days. cbn [dt_clock]. lia.
    + rewrite Ha, shift_days_shift.
      apply (fits_mono p _ (Z.of_nat (s + S n) + 1)); [lia | assumption].
    + apply IH.
      * apply Hmk.
      * replace (S s + n)%nat with (s + S n)%nat by lia. assumption.
      * replace (S s + n)%nat with (s + S n)%nat by lia. assumption.
Qed.

Lemma completed_head (mk : datetime -> partition) (q : partition)
  (ps : list partition) :
  exists T, completed mk (q :: ps) = q :: T.
Proof. cbn [completed]. eauto. Qed.

Lemma completed_closed (mk : datetime -> partition) (ps : list partition) :
  (forall d, date (mk d) = d) ->
  steps_fit ps = true -> closed (completed mk ps).
Proof.
  intros Hmk. induction ps as [|p ps IH]; intros Hs; [now split|].
  destruct ps as [|q ps]; [now split|].
  rewrite steps_fit_step in Hs. apply andb_prop in Hs. destruct Hs as [Hp Hs].
  specialize (IH Hs).
  change (completed mk (p :: q :: ps))
    with (p :: map mk (stepped_between (date p) (date q))
            ++ completed mk (q :: ps)).
  destruct (completed_head mk q ps) as [T HT]. rewrite HT in IH |- *.
  unfold stepped_between.
  apply (chain_closed mk (date p) q T Hmk IH _ 0%nat p).
  - unfold shift_days. cbn [Z.of_nat]. rewrite Z.mul_0_l, Z.add_0_r.
    now rewrite datetime_eta.
  - cbn [Nat.add].
    set (w := dt_clock (date q) - dt_clock (date p)).
    destruct (Z_lt_ge_dec (w - 1) 0) as [Hneg|Hpos].
    + assert (Hq : (w - 1) / DAY < 0)
        by (apply Z.div_lt_upper_bound; unfold DAY; lia).
      assert (E : Z.of_nat (Z.to_nat ((w - 1) / DAY)) = 0) by lia.
      rewrite E. unfold DAY. lia.
    + rewrite Z2Nat.id by (apply Z.div_pos; unfold DAY; lia).
      pose proof (Z.mul_succ_div_gt (w - 1) DAY ltac:(unfold DAY; lia)) as H.
      fold w. unfold DAY in *. lia.
  - cbn [Nat.add]. unfold pair_fits, stepped_between in Hp.
    rewrite length_map, length_seq in Hp.
    now rewrite Z.add_comm.
Qed.

Lemma completed_perm (mk : datetime -> partition) (ps : list partition) :
  Permutation (completed mk ps) (ps ++ map mk (missing_spec ps)).
Proof.
  induction ps as [|p ps IH]; [constructor|].
  destruct ps as [|q ps]; [reflexivity|].
  change (completed mk (p :: q :: ps))
    with (p :: map mk (stepped_between (date p) (date q))
            ++ completed mk (q :: ps)).
  rewrite missing_spec_step, map_app, IH.
  cbn [app]. constructor.
  apply Permutation_sym, Permutation_cons_app.
  rewrite !app_assoc.
  apply Permutation_app_tail, Permutation_app_comm.
Qed.

Lemma completed_sorted (mk : datetime -> partition) (ps : list partition) :
  (forall d, date (mk d) = d) ->
  StronglySorted date_le ps -> StronglySorted date_le (completed mk ps).
Proof.
  intros Hmk. induction ps as [|p ps IH]; intros Hs; [constructor|].
  inversion Hs as [|? ? Hs' Hp]; subst.
  destruct ps as [|q ps]; [repeat constructor|].
  specialize (IH Hs').
  change (completed mk (p :: q :: ps))
    with (p :: map mk (stepped_between (date p) (date q))
            ++ completed mk (q :: ps)).
  assert (Hq : forall y, In y (completed mk (q :: ps)) ->
                         dt_clock (date q) <= dt_clock (date y)).
  { intros y Hy.
    apply (Permutation_in _ (completed_perm mk (q :: ps))) in Hy.
    apply in_app_or in Hy. destruct Hy as [[<-|Hy]|Hy].
    - lia.
    - inversion Hs' as [|? ? _ Hq']; subst. rewrite Forall_forall in Hq'.
      exact (Hq' y Hy).
    - apply in_map_iff in Hy. destruct Hy as (d & <- & Hd). rewrite Hmk.
      pose proof (missing_spec_above ps q d Hs' Hd) as Hlt.
      unfold dt_lt, ltb in Hlt. apply Z.ltb_lt in Hlt. lia. }
  assert (Hpq : dt_clock (date p) <= dt_clock (date q)).
  { rewrite Forall_forall in Hp. apply (Hp q). now left. }
  constructor.
  - apply StronglySorted_app; [|assumption|].
    + pose proof (stepped_from_sorted (date p)
                    (Z.to_nat ((dt_clock (date q) - dt_clock (date p) - 1)
                               / DAY)) 1) as Hst.
      fold (stepped_between (date p) (date q)) in Hst.
      induction Hst as [|d l _ IHl Hd]; [constructor|].
      cbn [map]. constructor; [assumption|].
      rewrite Forall_forall in Hd |- *. intros y Hy.
      apply in_map_iff in Hy. destruct Hy as (d' & <- & Hd').
      specialize (Hd d' Hd'). unfold dt_lt, ltb in Hd.
      apply Z.ltb_lt in Hd. unfold date_le. rewrite !Hmk. lia.
    + intros x y Hx Hy. apply in_map_iff in Hx.
      destruct Hx as (d & <- & Hd). apply stepped_between_bounds in Hd.
      specialize (Hq y Hy). unfold date_le. rewrite Hmk. lia.
  - apply Forall_forall. intros y Hy. apply in_app_or in Hy.
    unfold date_le. destruct Hy as [Hy|Hy].
    + apply in_map_iff in Hy. destruct Hy as (d & <- & Hd).
      apply stepped_between_bounds in Hd. rewrite Hmk. lia.
    + specialize (Hq y Hy). lia.
Qed.

(** Two lists sorted by date that hold the same records show the same dates
    in the same order. *)
Lemma sorted_perm_clocks (l1 : list Z) :
  forall l2 : list Z,
    StronglySorted Z.le l1 -> StronglySorted Z.le l2 -> Permutation l1 l2 ->
    l1 = l2.
Proof.
  induction l1 as [|a l1 IH]; intros l2 H1 H2 Hp.
  - apply Permutation_nil in Hp. now subst.
  - destruct l2 as [|b l2];
      [apply Permutation_sym, Permutation_nil in Hp; discriminate|].
    inversion H1 as [|? ? H1' Ha]; subst.
    inversion H2 as [|? ? H2' Hb]; subst.
    rewrite Forall_forall in Ha, Hb.
    assert (Hab : a = b).
    { assert (Hin1 : In a (b :: l2))
        by (apply (Permutation_in _ Hp); now left).
      assert (Hin2 : In b (a :: l1))
        by (apply (Permutation_in _ (Permutation_sym Hp)); now left).
      destruct Hin1 as [->|Hin1]; [reflexivity|].
      destruct Hin2 as [->|Hin2]; [reflexivity|].
      specialize (Ha b Hin2). specialize (Hb a Hin1). lia. }
    subst b. f_equal. apply IH; try assumption.
    exact (Permutation_cons_inv Hp).
Qed.

Lemma sorted_clocks (l : list partition) :
  StronglySorted date_le l ->
  StronglySorted Z.le (map (fun p => dt_clock (date p)) l).
Proof.
  induction 1 as [|p l _ IH Hp]; cbn [map]; constructor; [assumption|].
  rewrite Forall_forall in Hp |- *. intros y Hy. apply in_map_iff in Hy.
  destruct Hy as (q & <- & Hq). exact (Hp q Hq).
Qed.

Lemma closed_of_clocks (l1 : list partition) :
  forall l2 : list partition,
    map (fun p => dt_clock (date p)) l1 = map (fun p => dt_clock (date p)) l2 ->
    missing_spec l1 = missing_spec l2 /\ steps_fit l1 = steps_fit l2.
Proof.
  induction l1 as [|a l1 IH]; intros [|b l2] H; try discriminate;
    [now split|].
  cbn [map] in H. injection H as Hab Hl.
  assert (Hd : date a = date b)
    by (rewrite <- (datetime_eta (date a)), <- (datetime_eta (date b));
        now rewrite Hab).
  destruct l1 as [|a' l1], l2 as [|b' l2]; try discriminate; [now split|].
  destruct (IH (b' :: l2) Hl) as [Hm Hs].
  cbn [map] in Hl. injection Hl as Hab' _.
  assert (Hd' : date a' = date b')
    by (rewrite <- (datetime_eta (date a')), <- (datetime_eta (date b'));
        now rewrite Hab').
  rewrite !missing_spec_step, !steps_fit_step, Hm, Hs, Hd, Hd'.
  now split.
Qed.

Lemma completed_of_sorted (mk : datetime -> partition) (ps : list partition) :
  (forall d, date (mk d) = d) ->
  StronglySorted date_le ps -> steps_fit ps = true ->
  closed (sort_by_date (ps ++ map mk (missing_spec ps))).
Proof.
  intros Hmk Hs Hf.
  destruct (closed_of_clocks
              (sort_by_date (ps ++ map mk (missing_spec ps)))
              (completed mk ps)) as [Hm Hsf].
  - apply sorted_perm_clocks.
    + apply sorted_clocks, sort_by_date_sorted.
    + now apply sorted_clocks, completed_sorted.
    + apply Permutation_map. rewrite sort_by_date_perm.
      symmetry. apply completed_perm.
  - destruct (completed_closed mk ps Hmk Hf) as [H1 H2].
    unfold closed. now rewrite Hm, Hsf.
Qed.

(** X12.  Take a checker built by the constructor and the dates that
    [find_missing_dates] returns for it.  A checker whose records are the old
    ones and one record for each of these dates, sorted by date as the
    constructor does, has no missing date: [find_missing_dates] returns the
    empty list for it. *)
Theorem adding_reported_dates_leaves_no_gap
  (name : string) (partition_data : list raw_row) (self : PartitionChecker)
  (out : list warning) (missing : list datetime)
  (mk : datetime -> partition) :
  __init__ name partition_data = Return (self, out) ->
  find_missing_dates self = Return missing ->
  (forall d, date (mk d) = d) ->
  find_missing_dates
    {| table_name := name;
       partitions := sort_by_date (partitions self ++ map mk missing) |}
  = Return [].
Proof.
  intros Hinit Hfind Hmk.
  assert (Hs : StronglySorted date_le (partitions self)).
  { apply init_returns in Hinit. subst self. apply sort_by_date_sorted. }
  pose proof (init_partitions_lower _ _ _ _ Hinit) as Hlow.
  rewrite find_missing_dates_exact in Hfind by assumption.
  destruct (steps_fit (partitions self)) eqn:Hf; [|discriminate].
  inversion Hfind; subst missing.
  destruct (completed_of_sorted mk (partitions self) Hmk Hs Hf) as [Hm Hsf].
  rewrite find_missing_dates_exact.
  - cbn [partitions]. now rewrite Hsf, Hm.
  - cbn [partitions]. apply Forall_forall. intros x Hx.
    apply (Permutation_in _ (sort_by_date_perm _)) in Hx.
    apply in_app_or in Hx. destruct Hx as [Hx|Hx].
    + rewrite Forall_forall in Hlow. now apply Hlow.
    + apply in_map_iff in Hx. destruct Hx as (d & <- & Hd). rewrite Hmk.
      destruct (missing_spec_between _ Hs d Hd) as (_ & p & q & Hpq & Hlt).
      assert (Hp : In p (partitions self)).
      { destruct (adjacent_pairs_split _ _ _ Hpq) as (l1 & l2 & E).
        rewrite E. apply in_or_app. right. now left. }
      rewrite Forall_forall in Hlow. specialize (Hlow p Hp). lia.
Qed.

Lemma adding_reported_dates_witness :
  find_missing_dates
    {| table_name := "t";
       partitions :=
         sort_by_date
           (partitions checker_2025_gap
            ++ map (fun d => Partition d 0 0 0)
                 [midnight 2025 1 3; midnight 2025 1 4]) |}
  = Return [].
Proof.
  apply (adding_reported_dates_leaves_no_gap "t"%string rows_2025_gap
           checker_2025_gap [] [midnight 2025 1 3; midnight 2025 1 4]
           (fun d => Partition d 0 0 0));
    reflexivity.
Defined.

(** ** Records dated at midnight *)

Lemma surrounding_pair (x : datetime) (ps : list partition) :
  StronglySorted date_le ps ->
  (exists p0, In p0 ps /\ dt_clock (date p0) < dt_clock x) ->
  (exists q0, In q0 ps /\ dt_clock x < dt_clock (date q0)) ->
  (forall p, In p ps -> dt_clock (date p) <> dt_clock x) ->
  exists p q, In (p, q) (adjacent_pairs ps)
              /\ dt_clock (date p) < dt_clock x < dt_clock (date q).
Proof.
  induction ps as [|a ps IH]; intros Hs (p0 & Hp0 & Hlt) (q0 & Hq0 & Hgt) Hne;
    [destruct Hp0|].
  inversion Hs as [|? ? Hs' Ha]; subst. rewrite Forall_forall in Ha.
  assert (Hax : dt_clock (date a) < dt_clock x).
  { destruct Hp0 as [<-|Hp0]; [assumption|].
    specialize (Ha p0 Hp0). unfold date_le in Ha. lia. }
  assert (Hq0' : In q0 ps) by (destruct Hq0 as [<-|Hq0]; [lia | assumption]).
  destruct ps as [|b ps]; [destruct Hq0'|].
  destruct (Z_lt_ge_dec (dt_clock x) (dt_clock (date b))) as [Hlt'|Hge].
  - exists a, b. split; [now left | lia].
  - assert (Hbx : dt_clock (date b) < dt_clock x).
    { assert (dt_clock (date b) <> dt_clock x)
        by (apply Hne; right; now left).
      lia. }
    destruct IH as (p & q & Hpq & Hb); try assumption.
    + exists b. split; [now left | assumption].
    + now exists q0.
    + intros p Hp. apply Hne. now right.
    + exists p, q. split; [now right | assumption].
Qed.

(** X13.  When every record is dated at midnight, the dates that
    [find_missing_dates] returns are exactly the midnights that lie after
    some record, before some record, and are the date of no record: every
    day without a record between the first and the last record is reported,
    and nothing else. *)
Theorem midnight_records_missing_days
  (name : string) (partition_data : list raw_row) (self : PartitionChecker)
  (out : list warning) (missing : list datetime) :
  __init__ name partition_data = Return (self, out) ->
  find_missing_dates self = Return missing ->
  Forall (fun p => second_of_day (date p) = 0) (partitions self) ->
  forall x : datetime,
    In x missing
    <-> second_of_day x = 0
        /\ (exists p, In p (partitions self) /\ ltb (date p) x = true)
        /\ (exists q, In q (partitions self) /\ ltb x (date q) = true)
        /\ (forall p, In p (partitions self) -> date p <> x).
Proof.
  intros Hinit Hfind Hmid x.
  assert (Hs : StronglySorted date_le (partitions self)).
  { apply init_returns in Hinit. subst self. apply sort_by_date_sorted. }
  rewrite find_missing_dates_exact in Hfind
    by exact (init_partitions_lower _ _ _ _ Hinit).
  destruct (steps_fit (partitions self)); [|discriminate].
  inversion Hfind; subst missing. clear Hfind.
  rewrite Forall_forall in Hmid. unfold ltb, second_of_day in *.
  assert (Hpair : forall p q, In (p, q) (adjacent_pairs (partitions self)) ->
                              In p (partitions self) /\ In q (partitions self)).
  { intros p q Hpq. destruct (adjacent_pairs_split _ _ _ Hpq) as (l1 & l2 & E).
    rewrite E. split; apply in_or_app; right; [now left | right; now left]. }
  split.
  - intros Hx.
    destruct (missing_spec_between _ Hs x Hx) as (Hne & p & q & Hpq & Hb).
    destruct (Hpair p q Hpq) as [Hp Hq].
    assert (Hin : In x (stepped_between (date p) (date q))).
    { unfold missing_spec in Hx. apply in_flat_map in Hx.
      destruct Hx as ([p' q'] & Hpq' & Hx'). cbn [fst snd] in Hx'.
      destruct (Hpair p' q' Hpq') as [Hp' _].
      apply stepped_between_In in Hx'. destruct Hx' as (k & _ & -> & _).
      unfold shift_days. cbn [dt_clock].
      unfold shift_days in Hb. cbn [dt_clock] in Hb.
      apply stepped_between_In.
      pose proof (Hmid p Hp) as Mp. pose proof (Hmid p' Hp') as Mp'.
      exists (k + (dt_clock (date p') - dt_clock (date p)) / DAY).
      assert (E : dt_clock (date p') - dt_clock (date p)
                  = DAY * ((dt_clock (date p') - dt_clock (date p)) / DAY)).
      { apply Z.div_exact; [unfold DAY; lia|].
        rewrite Zminus_mod, Mp, Mp'. reflexivity. }
      set (j := (dt_clock (date p') - dt_clock (date p)) / DAY) in *.
      unfold shift_days, ltb. cbn [dt_clock]. repeat split.
      - unfold DAY in *. nia.
      - f_equal. lia.
      - apply Z.ltb_lt. lia. }
    apply stepped_between_In in Hin. destruct Hin as (k & Hk & -> & _).
    unfold shift_days. cbn [dt_clock]. repeat split.
    + rewrite Z.mod_add by (unfold DAY; lia). now apply Hmid.
    + exists p. split; [assumption|]. apply Z.ltb_lt.
      unfold shift_days in Hb. cbn [dt_clock] in Hb. lia.
    + exists q. split; [assumption|]. apply Z.ltb_lt.
      unfold shift_days in Hb. cbn [dt_clock] in Hb. lia.
    + intros r Hr E. apply (Hne r Hr). rewrite E. reflexivity.
  - intros (Mx & (p0 & Hp0 & Hlt) & (q0 & Hq0 & Hgt) & Hne).
    apply Z.ltb_lt in Hlt, Hgt.
    destruct (surrounding_pair x (partitions self) Hs) as (p & q & Hpq & Hb).
    + now exists p0.
    + now exists q0.
    + intros r Hr E. apply (Hne r Hr).
      rewrite <- (datetime_eta (date r)), <- (datetime_eta x). now rewrite E.
    + unfold missing_spec. apply in_flat_map. exists (p, q).
      split; [assumption|]. cbn [fst snd]. apply stepped_between_In.
      destruct (Hpair p q Hpq) as [Hp _]. pose proof (Hmid p Hp) as Mp.
      exists ((dt_clock x - dt_clock (date p)) / DAY).
      assert (E : dt_clock x - dt_clock (date p)
                  = DAY * ((dt_clock x - dt_clock (date p)) / DAY)).
      { apply Z.div_exact; [unfold DAY; lia|].
        rewrite Zminus_mod, Mx, Mp. reflexivity. }
      set (j := (dt_clock x - dt_clock (date p)) / DAY) in *.
      unfold shift_days, ltb. repeat split.
      * unfold DAY in *. nia.
      * rewrite <- (datetime_eta x) at 1. f_equal. lia.
      * apply Z.ltb_lt. cbn [dt_clock]. lia.
Qed.

Lemma midnight_records_witness :
  In (midnight 2025 1 3) [midnight 2025 1 3; midnight 2025 1 4]
  <-> second_of_day (midnight 2025 1 3) = 0
      /\ (exists p, In p (partitions checker_2025_gap)
                    /\ ltb (date p) (midnight 2025 1 3) = true)
      /\ (exists q, In q (partitions checker_2025_gap)
                    /\ ltb (midnight 2025 1 3) (date q) = true)
      /\ (forall p, In p (partitions checker_2025_gap) ->
                    date p <> midnight 2025 1 3).
Proof.
  apply (midnight_records_missing_days "t"%string rows_2025_gap
           checker_2025_gap [] [midnight 2025 1 3; midnight 2025 1 4]).
  - reflexivity.
  - reflexivity.
  - repeat constructor.
Defined.
